(** * User service over a GORM/PostgreSQL store

    A shallow embedding of the service and repository layers of the
    [go_postgres] module:

    - [internal/models]      the persisted [User] entity;
    - [internal/repository]  [UserRepository] and its GORM implementation;
    - [internal/service]     [DefaultUserService];
    - [internal/handlers]    the HTTP handlers of [UserHandler];
    - [internal/middleware]  the logging and authentication middleware;
    - [internal/config]      [LoadConfig];
    - [cmd/api]              the routes of [main].

    The Go code is written against two libraries that are not part of the
    module: GORM (with PostgreSQL behind it) and bcrypt.  The store is given
    here as an executable model of one table in module [gorm]; bcrypt is an
    interface ([bcrypt.Scheme]) that the service is parametric in.

    The handlers and the configuration use the standard library besides:
    the parsers of [strconv] are given as the functions they are, a
    handler of [net/http] is a function from a request and the state of
    the store to a response and a state, and the JSON decoder is an
    interface ([json.Decoder]) that the handlers are parametric in. *)

From Stdlib Require Import ZArith NArith List String Ascii Bool Lia Sorted.
Import ListNotations.
Local Open Scope Z_scope.
Local Open Scope string_scope.

(** ** Go values *)

(** [error] values.  [errors.Is] compares by identity, and the only values
    whose identity a caller can name are the package-level variables made by
    [errors.New]; [ident] is the qualified name of that variable. *)
Module errors.

Inductive error : Type :=
| New (ident text : string)
| PgError (Severity Message Code : string)
| Other (text : string)
| Wrap (text : string) (inner : error).

(** The [Error()] method. *)
Fixpoint Error (e : error) : string :=
  match e with
  | New _ text => text
  | PgError sev msg code => sev ++ ": " ++ msg ++ " (SQLSTATE " ++ code ++ ")"
  | Other text => text
  | Wrap text inner => text ++ ": " ++ Error inner
  end.

(** [errors.Is err target]: walk the unwrap chain of [err]. *)
Fixpoint Is (err target : error) : bool :=
  match err with
  | New ident _ =>
      match target with
      | New ident' _ => String.eqb ident ident'
      | _ => false
      end
  | Wrap _ inner => Is inner target
  | _ => false
  end.

(** A Go result pair [(T, error)]. *)
Inductive result (T : Type) : Type :=
| ok (v : T)
| fail (err : error).
Arguments ok {T} v.
Arguments fail {T} err.

End errors.

(** The [int] type of a 64-bit target: arithmetic wraps around. *)
Module Go.

Definition min_int : Z := - 2 ^ 63.
Definition max_int : Z := 2 ^ 63 - 1.

Definition wrap (z : Z) : Z := (z + 2 ^ 63) mod 2 ^ 64 - 2 ^ 63.

Definition sub (a b : Z) : Z := wrap (a - b).
Definition mul (a b : Z) : Z := wrap (a * b).

End Go.

(** ** internal/models *)

Module models.

(** [time.Time], as an instant; [0] is the zero value. *)
Definition Time : Type := Z.

Module User.
Record t : Type := mk {
  ID : N;
  Username : string;
  Email : string;
  PasswordHash : string;
  FirstName : string;
  LastName : string;
  IsActive : bool;
  CreatedAt : Time;
  UpdatedAt : Time;
  DeletedAt : option Time   (* gorm.DeletedAt: [None] is the NULL marker *)
}.

(** The zero value, [models.User{}]. *)
Definition zero : t := mk 0%N "" "" "" "" "" false 0 0 None.
End User.

Definition TableName : string := "app_users".

End models.

(** ** The store: GORM over one PostgreSQL table

    What the repository asks of [*gorm.DB] (gorm.io/gorm v1.26 over the pgx
    driver, as go.mod has them), for the model [models.User]: a primary
    key, two unique indexes, and a [gorm.DeletedAt] field, which turns
    deletion into soft deletion and hides marked rows from every query.
    One call below is one SQL statement, [Save] apart, which can take two.

    The table stores what it is given: a time stamp is an instant, and the
    lengths in the struct tags are not checked (the table is made by SQL
    migrations, not from the tags).  A statement that the database rejects
    for such a reason, or that the connection loses, is a scheduled fault
    of the [DB] below. *)
Module gorm.
Import errors models.

Definition ErrRecordNotFound : error :=
  New "gorm.ErrRecordNotFound" "record not found".

(** The fields of a finished [*gorm.DB] that the repository reads. *)
Record Result : Type := { Error : option error; RowsAffected : Z }.

Definition done (n : Z) : Result := {| Error := None; RowsAffected := n |}.
Definition failed (e : error) : Result := {| Error := Some e; RowsAffected := 0 |}.

(** The database: the rows of [app_users] in insertion order (soft-deleted
    ones included), the next value of the id sequence, the clock, and the
    failures the connection is going to have: the n-th entry of [faults]
    is the error, if any, that makes the n-th statement from now fail
    before it touches the table. *)
Record DB : Type := {
  rows : list User.t;
  seq : N;
  clock : Time;
  faults : list (option error)
}.

Definition live (r : User.t) : bool :=
  match User.DeletedAt r with None => true | Some _ => false end.

(** Start a statement: advance the clock and take the next entry of the
    fault script. *)
Definition tick (d : DB) : DB :=
  {| rows := rows d; seq := seq d; clock := clock d + 1; faults := tl (faults d) |}.

Definition begin (d : DB) : option error * DB := (hd None (faults d), tick d).

Definition with_rows (d : DB) (rs : list User.t) : DB :=
  {| rows := rs; seq := seq d; clock := clock d; faults := faults d |}.

Definition with_seq (d : DB) (n : N) : DB :=
  {| rows := rows d; seq := n; clock := clock d; faults := faults d |}.

(** The double quote character, for constraint names in messages. *)
Definition dquote : string := String (ascii_of_nat 34) EmptyString.

(** SQLSTATE 23505 as the pgx driver reports it. *)
Definition duplicate_key (constraint : string) : error :=
  PgError "ERROR"
    ("duplicate key value violates unique constraint " ++ dquote ++ constraint ++ dquote)
    "23505".

(** The primary key and the two unique indexes; they range over every row
    of the table, soft-deleted or not. *)
Definition unique_violation (r : User.t) (others : list User.t) : option error :=
  if existsb (fun x => N.eqb (User.ID x) (User.ID r)) others
  then Some (duplicate_key "app_users_pkey")
  else if existsb (fun x => String.eqb (User.Username x) (User.Username r)) others
  then Some (duplicate_key "idx_app_users_username")
  else if existsb (fun x => String.eqb (User.Email x) (User.Email r)) others
  then Some (duplicate_key "idx_app_users_email")
  else None.

(** Query conditions the repository builds. *)
Inductive Cond : Type :=
| WherePrimaryKey (id : N)            (* First(&user, id), Delete(&User{}, id) *)
| WhereEmail (email : string)         (* Where("email = ?", email) *)
| WhereUsername (username : string).  (* Where("username = ?", username) *)

Definition holds (c : Cond) (r : User.t) : bool :=
  match c with
  | WherePrimaryKey id => N.eqb (User.ID r) id
  | WhereEmail email => String.eqb (User.Email r) email
  | WhereUsername username => String.eqb (User.Username r) username
  end.

(** Every query on the model adds [deleted_at IS NULL]. *)
Definition selected (c : Cond) (r : User.t) : bool := holds c r && live r.

(** [ORDER BY id LIMIT 1]. *)
Fixpoint first_by_id (l : list User.t) : option User.t :=
  match l with
  | [] => None
  | r :: l' =>
      match first_by_id l' with
      | None => Some r
      | Some m => if N.leb (User.ID r) (User.ID m) then Some r else Some m
      end
  end.

(** [ORDER BY created_at DESC]. *)
Fixpoint insert_desc (r : User.t) (l : list User.t) : list User.t :=
  match l with
  | [] => [r]
  | x :: l' =>
      if Z.leb (User.CreatedAt x) (User.CreatedAt r)
      then r :: l
      else x :: insert_desc r l'
  end.

Definition order_created_desc (l : list User.t) : list User.t :=
  fold_right insert_desc [] l.

(** Fields GORM fills in the struct before an INSERT: a zero [IsActive]
    takes the column default [true], zero time stamps take the clock. *)
Definition fill_defaults (now : Time) (u : User.t) : User.t :=
  User.mk (User.ID u) (User.Username u) (User.Email u) (User.PasswordHash u)
    (User.FirstName u) (User.LastName u)
    (if User.IsActive u then User.IsActive u else true)
    (if Z.eqb (User.CreatedAt u) 0 then now else User.CreatedAt u)
    (if Z.eqb (User.UpdatedAt u) 0 then now else User.UpdatedAt u)
    (User.DeletedAt u).

Definition set_ID (u : User.t) (id : N) : User.t :=
  User.mk id (User.Username u) (User.Email u) (User.PasswordHash u)
    (User.FirstName u) (User.LastName u) (User.IsActive u)
    (User.CreatedAt u) (User.UpdatedAt u) (User.DeletedAt u).

Definition set_UpdatedAt (u : User.t) (now : Time) : User.t :=
  User.mk (User.ID u) (User.Username u) (User.Email u) (User.PasswordHash u)
    (User.FirstName u) (User.LastName u) (User.IsActive u)
    (User.CreatedAt u) now (User.DeletedAt u).

Definition set_DeletedAt (u : User.t) (now : Time) : User.t :=
  User.mk (User.ID u) (User.Username u) (User.Email u) (User.PasswordHash u)
    (User.FirstName u) (User.LastName u) (User.IsActive u)
    (User.CreatedAt u) (User.UpdatedAt u) (Some now).

(** INSERT of an already filled struct.  A zero ID takes the next value of
    the sequence, which is consumed even when the insert is rejected. *)
Definition insert (u1 : User.t) (d1 : DB) : Result * User.t * DB :=
  let '(id, sq) :=
    if N.eqb (User.ID u1) 0%N then (seq d1, N.succ (seq d1)) else (User.ID u1, seq d1) in
  let row := set_ID u1 id in
  match unique_violation row (rows d1) with
  | Some e => (failed e, u1, with_seq d1 sq)
  | None => (done 1, row, with_seq (with_rows d1 (rows d1 ++ [row])) sq)
  end.

(** [db.Create(user)]. *)
Definition Create (u : User.t) (d : DB) : Result * User.t * DB :=
  let u1 := fill_defaults (clock d) u in
  match begin d with
  | (Some e, d1) => (failed e, u1, d1)
  | (None, d1) => insert u1 d1
  end.

(** [db.Where(c).First(&dest)] and [db.First(&dest, id)]. *)
Definition First (dest : User.t) (c : Cond) (d : DB) : Result * User.t * DB :=
  match begin d with
  | (Some e, d1) => (failed e, dest, d1)
  | (None, d1) =>
      match first_by_id (filter (selected c) (rows d1)) with
      | Some r => (done 1, r, d1)
      | None => (failed ErrRecordNotFound, dest, d1)
      end
  end.

(** [db.Model(&models.User{}).Count(&count)]. *)
Definition Count (d : DB) : Result * Z * DB :=
  match begin d with
  | (Some e, d1) => (failed e, 0, d1)
  | (None, d1) =>
      let n := Z.of_nat (List.length (filter live (rows d1))) in
      (done n, n, d1)
  end.

(** [OFFSET] is written for a positive offset only, [LIMIT] for a limit
    that is not negative. *)
Definition page (offset limit : Z) (l : list User.t) : list User.t :=
  let l1 := if Z.ltb 0 offset then skipn (Z.to_nat offset) l else l in
  if Z.leb 0 limit then firstn (Z.to_nat limit) l1 else l1.

(** [db.Offset(offset).Limit(limit).Order("created_at DESC").Find(&users)]. *)
Definition Find (offset limit : Z) (d : DB) : Result * list User.t * DB :=
  match begin d with
  | (Some e, d1) => (failed e, [], d1)
  | (None, d1) =>
      let found := page offset limit (order_created_desc (filter live (rows d1))) in
      (done (Z.of_nat (List.length found)), found, d1)
  end.

(** [db.Delete(&models.User{}, id)]: with a [DeletedAt] field this is
    [UPDATE ... SET deleted_at = now WHERE id = ? AND deleted_at IS NULL]. *)
Definition Delete (c : Cond) (d : DB) : Result * DB :=
  let now := clock d in
  match begin d with
  | (Some e, d1) => (failed e, d1)
  | (None, d1) =>
      let n := Z.of_nat (List.length (filter (selected c) (rows d1))) in
      let rs := map (fun r => if selected c r then set_DeletedAt r now else r) (rows d1) in
      (done n, with_rows d1 rs)
  end.

(** [db.Save(user)].  Without a primary key it is [Create].  With one, it
    updates every column of the live row of that id and stamps
    [updated_at]; when that touches no row it falls back on an INSERT
    that, on a clash of ids, overwrites the row (its [created_at] kept). *)
Definition Save (u : User.t) (d : DB) : Result * User.t * DB :=
  if N.eqb (User.ID u) 0%N then Create u d
  else
    let now := clock d in
    let u1 := set_UpdatedAt u now in
    let c := WherePrimaryKey (User.ID u) in
    match begin d with
    | (Some e, d1) => (failed e, u1, d1)
    | (None, d1) =>
        let others := filter (fun r => negb (N.eqb (User.ID r) (User.ID u))) (rows d1) in
        if existsb (selected c) (rows d1) then
          match unique_violation u1 others with
          | Some e => (failed e, u1, d1)
          | None =>
              let n := Z.of_nat (List.length (filter (selected c) (rows d1))) in
              let rs := map (fun r => if selected c r then u1 else r) (rows d1) in
              (done n, u1, with_rows d1 rs)
          end
        else
          let u2 := fill_defaults now u1 in
          match begin d1 with
          | (Some e, d2) => (failed e, u2, d2)
          | (None, d2) =>
              if existsb (holds c) (rows d2) then
                match unique_violation u2 others with
                | Some e => (failed e, u2, d2)
                | None =>
                    let over r :=
                      User.mk (User.ID r) (User.Username u2) (User.Email u2)
                        (User.PasswordHash u2) (User.FirstName u2) (User.LastName u2)
                        (User.IsActive u2) (User.CreatedAt r) (User.UpdatedAt u2)
                        (User.DeletedAt u2) in
                    let rs := map (fun r => if holds c r then over r else r) (rows d2) in
                    (done 1, u2, with_rows d2 rs)
                end
              else insert u2 d2
          end
    end.

(** No failure is scheduled. *)
Definition healthy (d : DB) : Prop := faults d = [].

(** What the primary key and the two unique indexes maintain; ids come from
    a sequence that starts at 1, a zero ID being the mark of a struct that
    has no id yet. *)
Definition unique_keys (rs : list User.t) : Prop :=
  NoDup (map User.ID rs) /\
  NoDup (map User.Username rs) /\
  NoDup (map User.Email rs) /\
  ~ In 0%N (map User.ID rs).

Definition consistent (d : DB) : Prop := unique_keys (rows d).

(** The states that the operations keep to, from an empty table on. *)
Definition well_formed (d : DB) : Prop := consistent d /\ seq d <> 0%N.

Definition empty (now : Time) : DB :=
  {| rows := []; seq := 1%N; clock := now; faults := [] |}.

End gorm.

(** ** golang.org/x/crypto/bcrypt

    The hashing scheme is a collaborator of the service.  [salt] stands for
    the bytes [GenerateFromPassword] reads from the system's random source;
    an operation of the service that hashes takes them as an argument. *)
Module bcrypt.
Import errors.

Definition DefaultCost : Z := 10.

Class Scheme : Type := {
  GenerateFromPassword : string -> Z -> string -> result string;
  CompareHashAndPassword : string -> string -> option error
}.

End bcrypt.

(** ** internal/repository *)

Module repository.
Import errors models.

Definition ErrNotFound : error := New "repository.ErrNotFound" "record not found".
Definition ErrConflict : error := New "repository.ErrConflict" "record already exists".
Definition ErrDatabase : error := New "repository.ErrDatabase" "database error".

(** The interface; [S] is the state of whatever stands behind it.  A method
    that takes a [*models.User] and writes to it returns the struct as it
    left it. *)
Class UserRepository (S : Type) : Type := {
  Create : User.t -> S -> option error * User.t * S;
  GetByID : N -> S -> result User.t * S;
  GetByEmail : string -> S -> result User.t * S;
  GetByUsername : string -> S -> result User.t * S;
  List : Z -> Z -> S -> result (list User.t * Z) * S;
  Update : User.t -> S -> option error * User.t * S;
  Delete : N -> S -> option error * S
}.

(** The methods of [*GormUserRepository]. *)
Module GormUserRepository.

Definition isUniqueConstraintError (err : option error) : bool :=
  match err with
  | None => false
  | Some e =>
      String.eqb (Error e) "ERROR: duplicate key value violates unique constraint"
  end.

Definition Create (user : User.t) (db : gorm.DB) : option error * User.t * gorm.DB :=
  let '(result, user', db') := gorm.Create user db in
  match gorm.Error result with
  | Some _ =>
      if isUniqueConstraintError (gorm.Error result)
      then (Some ErrConflict, user', db')
      else (Some ErrDatabase, user', db')
  | None => (None, user', db')
  end.

(** The three look-ups differ in the condition only. *)
Definition get (c : gorm.Cond) (db : gorm.DB) : result User.t * gorm.DB :=
  let '(result, user, db') := gorm.First User.zero c db in
  match gorm.Error result with
  | Some e =>
      if Is e gorm.ErrRecordNotFound
      then (fail ErrNotFound, db')
      else (fail ErrDatabase, db')
  | None => (ok user, db')
  end.

Definition GetByID (id : N) : gorm.DB -> result User.t * gorm.DB :=
  get (gorm.WherePrimaryKey id).

Definition GetByEmail (email : string) : gorm.DB -> result User.t * gorm.DB :=
  get (gorm.WhereEmail email).

Definition GetByUsername (username : string) : gorm.DB -> result User.t * gorm.DB :=
  get (gorm.WhereUsername username).

Definition List (offset limit : Z) (db : gorm.DB)
  : result (list User.t * Z) * gorm.DB :=
  let '(counted, count, db1) := gorm.Count db in
  match gorm.Error counted with
  | Some _ => (fail ErrDatabase, db1)
  | None =>
      let '(result, users, db2) := gorm.Find offset limit db1 in
      match gorm.Error result with
      | Some _ => (fail ErrDatabase, db2)
      | None => (ok (users, count), db2)
      end
  end.

Definition Update (user : User.t) (db : gorm.DB) : option error * User.t * gorm.DB :=
  let '(result, user', db') := gorm.Save user db in
  match gorm.Error result with
  | Some _ =>
      if isUniqueConstraintError (gorm.Error result)
      then (Some ErrConflict, user', db')
      else (Some ErrDatabase, user', db')
  | None =>
      if Z.eqb (gorm.RowsAffected result) 0
      then (Some ErrNotFound, user', db')
      else (None, user', db')
  end.

Definition Delete (id : N) (db : gorm.DB) : option error * gorm.DB :=
  let '(result, db') := gorm.Delete (gorm.WherePrimaryKey id) db in
  match gorm.Error result with
  | Some _ => (Some ErrDatabase, db')
  | None =>
      if Z.eqb (gorm.RowsAffected result) 0
      then (Some ErrNotFound, db')
      else (None, db')
  end.

End GormUserRepository.

(** [NewUserRepository]: the GORM implementation behind the interface. *)
#[export] Instance NewUserRepository : UserRepository gorm.DB := {
  Create := GormUserRepository.Create;
  GetByID := GormUserRepository.GetByID;
  GetByEmail := GormUserRepository.GetByEmail;
  GetByUsername := GormUserRepository.GetByUsername;
  List := GormUserRepository.List;
  Update := GormUserRepository.Update;
  Delete := GormUserRepository.Delete
}.

End repository.

(** ** internal/service *)

Module service.
Import errors models.

Definition ErrInvalidCredentials : error :=
  New "service.ErrInvalidCredentials" "invalid credentials".
Definition ErrUserNotFound : error :=
  New "service.ErrUserNotFound" "user not found".
Definition ErrUserAlreadyExists : error :=
  New "service.ErrUserAlreadyExists" "user already exists".

Module CreateUserRequest.
Record t : Type := mk {
  Username : string;
  Email : string;
  Password : string;
  FirstName : string;
  LastName : string
}.
End CreateUserRequest.

Module UpdateUserRequest.
Record t : Type := mk {
  FirstName : string;
  LastName : string;
  Password : string
}.
End UpdateUserRequest.

Module UserResponse.
Record t : Type := mk {
  ID : N;
  Username : string;
  Email : string;
  FirstName : string;
  LastName : string;
  IsActive : bool;
  CreatedAt : Time;
  UpdatedAt : Time
}.
End UserResponse.

Definition mapUserToResponse (user : User.t) : UserResponse.t :=
  {| UserResponse.ID := User.ID user;
     UserResponse.Username := User.Username user;
     UserResponse.Email := User.Email user;
     UserResponse.FirstName := User.FirstName user;
     UserResponse.LastName := User.LastName user;
     UserResponse.IsActive := User.IsActive user;
     UserResponse.CreatedAt := User.CreatedAt user;
     UserResponse.UpdatedAt := User.UpdatedAt user |}.

(** Assignments to the fields of a fetched [*models.User]. *)
Definition set_names (user : User.t) (first last : string) : User.t :=
  User.mk (User.ID user) (User.Username user) (User.Email user)
    (User.PasswordHash user) first last (User.IsActive user)
    (User.CreatedAt user) (User.UpdatedAt user) (User.DeletedAt user).

Definition set_PasswordHash (user : User.t) (hash : string) : User.t :=
  User.mk (User.ID user) (User.Username user) (User.Email user)
    hash (User.FirstName user) (User.LastName user) (User.IsActive user)
    (User.CreatedAt user) (User.UpdatedAt user) (User.DeletedAt user).

(** The methods of [*DefaultUserService]; [repo] is its repository field.
    The logger is not modelled: it has no effect on results. *)
Section DefaultUserService.
Context {S : Type} {repo : repository.UserRepository S} {hasher : bcrypt.Scheme}.

Definition CreateUser (req : CreateUserRequest.t) (salt : string) (s : S)
  : result UserResponse.t * S :=
  match repository.GetByEmail (CreateUserRequest.Email req) s with
  | (ok _, s1) => (fail ErrUserAlreadyExists, s1)
  | (fail err, s1) =>
      if negb (Is err repository.ErrNotFound) then (fail err, s1)
      else
        match bcrypt.GenerateFromPassword
                (CreateUserRequest.Password req) bcrypt.DefaultCost salt with
        | fail err => (fail err, s1)
        | ok hashedPassword =>
            let user :=
              {| User.ID := 0%N;
                 User.Username := CreateUserRequest.Username req;
                 User.Email := CreateUserRequest.Email req;
                 User.PasswordHash := hashedPassword;
                 User.FirstName := CreateUserRequest.FirstName req;
                 User.LastName := CreateUserRequest.LastName req;
                 User.IsActive := true;
                 User.CreatedAt := 0;
                 User.UpdatedAt := 0;
                 User.DeletedAt := None |} in
            match repository.Create user s1 with
            | (Some err, _, s2) =>
                if Is err repository.ErrConflict
                then (fail ErrUserAlreadyExists, s2)
                else (fail err, s2)
            | (None, user', s2) => (ok (mapUserToResponse user'), s2)
            end
        end
  end.

Definition GetUser (id : N) (s : S) : result UserResponse.t * S :=
  match repository.GetByID id s with
  | (fail err, s1) =>
      if Is err repository.ErrNotFound
      then (fail ErrUserNotFound, s1)
      else (fail err, s1)
  | (ok user, s1) => (ok (mapUserToResponse user), s1)
  end.

Definition ListUsers (page pageSize : Z) (s : S)
  : result (list UserResponse.t * Z) * S :=
  let page := if Z.ltb page 1 then 1 else page in
  let pageSize := if Z.ltb pageSize 1 then 10 else pageSize in
  let offset := Go.mul (Go.sub page 1) pageSize in
  match repository.List offset pageSize s with
  | (fail err, s1) => (fail err, s1)
  | (ok (users, count), s1) => (ok (map mapUserToResponse users, count), s1)
  end.

Definition UpdateUser (id : N) (req : UpdateUserRequest.t) (salt : string) (s : S)
  : result UserResponse.t * S :=
  match repository.GetByID id s with
  | (fail err, s1) =>
      if Is err repository.ErrNotFound
      then (fail ErrUserNotFound, s1)
      else (fail err, s1)
  | (ok user, s1) =>
      let user :=
        set_names user (UpdateUserRequest.FirstName req) (UpdateUserRequest.LastName req) in
      let hashed :=
        if negb (String.eqb (UpdateUserRequest.Password req) "")
        then
          match bcrypt.GenerateFromPassword
                  (UpdateUserRequest.Password req) bcrypt.DefaultCost salt with
          | fail err => fail err
          | ok hashedPassword => ok (set_PasswordHash user hashedPassword)
          end
        else ok user in
      match hashed with
      | fail err => (fail err, s1)
      | ok user =>
          match repository.Update user s1 with
          | (Some err, _, s2) => (fail err, s2)
          | (None, user', s2) => (ok (mapUserToResponse user'), s2)
          end
      end
  end.

Definition DeleteUser (id : N) (s : S) : option error * S :=
  match repository.Delete id s with
  | (Some err, s1) =>
      if Is err repository.ErrNotFound
      then (Some ErrUserNotFound, s1)
      else (Some err, s1)
  | (None, s1) => (None, s1)
  end.

Definition AuthenticateUser (email password : string) (s : S)
  : result UserResponse.t * S :=
  match repository.GetByEmail email s with
  | (fail err, s1) =>
      if Is err repository.ErrNotFound
      then (fail ErrInvalidCredentials, s1)
      else (fail err, s1)
  | (ok user, s1) =>
      match bcrypt.CompareHashAndPassword (User.PasswordHash user) password with
      | Some _ => (fail ErrInvalidCredentials, s1)
      | None => (ok (mapUserToResponse user), s1)
      end
  end.

End DefaultUserService.

End service.

(** ** Sample data

    A stand-in for bcrypt (it is an instance of the interface, not a hash
    function: it rejects passwords of more than 72 bytes as bcrypt does, and
    its comparison accepts what its generation made), and a small table. *)
Module sample.
Import errors models.

Definition ErrPasswordTooLong : error :=
  New "bcrypt.ErrPasswordTooLong" "bcrypt: password length exceeds 72 bytes".
Definition ErrMismatchedHashAndPassword : error :=
  New "bcrypt.ErrMismatchedHashAndPassword"
      "crypto/bcrypt: hashedPassword is not the hash of the given password".

Definition ends_with (suffix s : string) : bool :=
  String.eqb
    (substring (String.length s - String.length suffix) (String.length suffix) s)
    suffix.

Definition scheme : bcrypt.Scheme := {|
  bcrypt.GenerateFromPassword password cost salt :=
    if Nat.ltb 72 (String.length password)
    then fail ErrPasswordTooLong
    else ok ("$2a$10$" ++ salt ++ "$" ++ password);
  bcrypt.CompareHashAndPassword hash password :=
    if ends_with ("$" ++ password) hash
    then None
    else Some ErrMismatchedHashAndPassword
|}.

Definition alice : User.t :=
  User.mk 1%N "alice" "alice@example.com" "$2a$10$salt1$wonderland"
    "Alice" "Liddell" true 1001 1001 None.

Definition bob : User.t :=
  User.mk 2%N "bob" "bob@example.com" "$2a$10$salt2$hunter2"
    "Bob" "Builder" true 1003 1003 None.

Definition table (faults : list (option error)) : gorm.DB :=
  {| gorm.rows := [alice; bob]; gorm.seq := 3%N; gorm.clock := 2000;
     gorm.faults := faults |}.

Definition db : gorm.DB := table [].

Definition carol : service.CreateUserRequest.t :=
  service.CreateUserRequest.mk "carol" "carol@example.com" "s3cret" "Carol" "Danvers".

(** A request that takes the e-mail address of [alice]. *)
Definition alice_again : service.CreateUserRequest.t :=
  service.CreateUserRequest.mk "alice2" "alice@example.com" "s3cret" "Alice" "Two".

Definition rename : service.UpdateUserRequest.t :=
  service.UpdateUserRequest.mk "Robert" "" "".


(** A new user with the e-mail address of [alice]. *)
Definition duplicate : User.t :=
  User.mk 0%N "alice2" "alice@example.com" "$2a$10$salt3$s3cret"
    "Alice" "Two" true 0 0 None.

(** Error texts a connection can produce. *)
Definition broken_pipe : error := Other "write: broken pipe".

(** A page number whose offset does not fit in an [int]. *)
Definition far_page : Z := 2 ^ 62 + 1.

End sample.

(** ** The specification's reading of ListUsers

    ListUsers as the specification words it: the store is asked for
    [pageSize] rows from offset (page - 1) x pageSize, the product of the
    two integers.  It is compared below with [service.ListUsers], which is
    the code. *)
Module specification.
Import errors models.

Definition ListUsers {S : Type} {repo : repository.UserRepository S}
           (page pageSize : Z) (s : S)
  : result (list service.UserResponse.t * Z) * S :=
  let page := if Z.ltb page 1 then 1 else page in
  let pageSize := if Z.ltb pageSize 1 then 10 else pageSize in
  match repository.List ((page - 1) * pageSize) pageSize s with
  | (fail err, s1) => (fail err, s1)
  | (ok (users, count), s1) => (ok (map service.mapUserToResponse users, count), s1)
  end.

End specification.

(** ** strconv

    The parsers the module calls: [ParseBool], and in base 10
    [ParseUint(s, 10, bitSize)] and [Atoi], which is [ParseInt(s, 10, 0)] on
    a 64-bit target (the short path that [Atoi] takes for short strings gives
    the same results). *)
Module strconv.
Import errors.

Definition ErrRange : error := New "strconv.ErrRange" "value out of range".
Definition ErrSyntax : error := New "strconv.ErrSyntax" "invalid syntax".

(** [*NumError]: the function that failed, its input, and [ErrRange] or
    [ErrSyntax]. *)
Record NumError : Type := { Func : string; Num : string; Err : error }.

Definition syntaxError (fn str : string) : NumError :=
  {| Func := fn; Num := str; Err := ErrSyntax |}.

Definition rangeError (fn str : string) : NumError :=
  {| Func := fn; Num := str; Err := ErrRange |}.

Definition is_digit (c : ascii) : bool :=
  (N.leb 48 (N_of_ascii c) && N.leb (N_of_ascii c) 57)%bool.

Definition digit (c : ascii) : Z := Z.of_N (N_of_ascii c) - 48.

Definition maxUint64 : Z := 2 ^ 64 - 1.

(** The loop of [ParseUint] over the bytes of the string, [n] being the
    [uint64] read so far. *)
Fixpoint digits (maxVal n : Z) (s : string) : Z * option error :=
  match s with
  | EmptyString => (n, None)
  | String c rest =>
      if is_digit c then
        if Z.leb (maxUint64 / 10 + 1) n then (maxVal, Some ErrRange)
        else
          let n := n * 10 in
          let n1 := (n + digit c) mod 2 ^ 64 in
          if (Z.ltb n1 n || Z.ltb maxVal n1)%bool then (maxVal, Some ErrRange)
          else digits maxVal n1 rest
      else (0, Some ErrSyntax)
  end.

(** [ParseUint(s, 10, bitSize)], for a [bitSize] that is not zero. *)
Definition ParseUint (s : string) (bitSize : Z) : Z * option NumError :=
  if String.eqb s "" then (0, Some (syntaxError "ParseUint" s))
  else
    match digits (2 ^ bitSize - 1) 0 s with
    | (v, Some err) => (v, Some {| Func := "ParseUint"; Num := s; Err := err |})
    | (v, None) => (v, None)
    end.

(** [ParseInt(s, 10, 0)]; [fn] is the name that the error carries. *)
Definition ParseInt (fn s : string) : Z * option NumError :=
  match s with
  | EmptyString => (0, Some (syntaxError fn s))
  | String c rest =>
      let neg := Ascii.eqb c "-" in
      let body := if (Ascii.eqb c "+" || neg)%bool then rest else s in
      let '(un, err) := ParseUint body 64 in
      let syntax :=
        match err with
        | Some e => negb (Is (Err e) ErrRange)
        | None => false
        end in
      if syntax then (0, Some (syntaxError fn s))
      else
        let cutoff := 2 ^ 63 in
        if (negb neg && Z.leb cutoff un)%bool
        then (cutoff - 1, Some (rangeError fn s))
        else if (neg && Z.ltb cutoff un)%bool
        then (- cutoff, Some (rangeError fn s))
        else
          let n := Go.wrap un in
          (if neg then Go.wrap (- n) else n, None)
  end.

Definition Atoi (s : string) : Z * option NumError := ParseInt "Atoi" s.

(** [ParseBool]; the value is [false] when there is an error. *)
Definition ParseBool (s : string) : bool * option NumError :=
  if existsb (String.eqb s) ["1"; "t"; "T"; "TRUE"; "true"; "True"] then (true, None)
  else if existsb (String.eqb s) ["0"; "f"; "F"; "FALSE"; "false"; "False"] then (false, None)
  else (false, Some (syntaxError "ParseBool" s)).

End strconv.

(** ** net/http, as far as the handlers use it *)
Module http.
Import errors.

Definition StatusOK : Z := 200.
Definition StatusCreated : Z := 201.
Definition StatusNoContent : Z := 204.
Definition StatusBadRequest : Z := 400.
Definition StatusUnauthorized : Z := 401.
Definition StatusNotFound : Z := 404.
Definition StatusConflict : Z := 409.
Definition StatusInternalServerError : Z := 500.

Definition MethodGet : string := "GET".
Definition MethodPut : string := "PUT".
Definition MethodDelete : string := "DELETE".

(** A value of a request's context, with the type it was stored with. *)
Inductive any : Type :=
| Uint (n : N)
| Int (z : Z)
| Str (s : string)
| Ptr (name : string).                     (* a pointer or interface value *)

(** A key of a context: the type of the key and its value. *)
Definition ContextKey : Type := (string * string)%type.

Record Request : Type := {
  Method : string;
  Path : string;                          (* r.URL.Path *)
  PathValues : list (string * string);    (* the wildcards of the matched pattern *)
  Query : list (string * string);         (* r.URL.Query() *)
  Header : list (string * string);
  Body : string;
  Context : list (ContextKey * any)
}.

(** First value under a name, or the empty string: [Query().Get],
    [Header.Get], [PathValue]. *)
Fixpoint get (name : string) (l : list (string * string)) : string :=
  match l with
  | [] => ""
  | (k, v) :: l' => if String.eqb k name then v else get name l'
  end.

Definition PathValue (r : Request) (name : string) : string := get name (PathValues r).

(** [ctx.Value(key)]: the value stored last under the key. *)
Fixpoint Value (key : ContextKey) (ctx : list (ContextKey * any)) : option any :=
  match ctx with
  | [] => None
  | ((t, k), v) :: ctx' =>
      if (String.eqb t (fst key) && String.eqb k (snd key))%bool
      then Some v
      else Value key ctx'
  end.

(** [r.WithContext(context.WithValue(r.Context(), key, v))]. *)
Definition WithValue (r : Request) (key : ContextKey) (v : any) : Request :=
  {| Method := Method r; Path := Path r; PathValues := PathValues r;
     Query := Query r; Header := Header r; Body := Body r;
     Context := (key, v) :: Context r |}.

(** What a handler has written to its [ResponseWriter]: nothing, a text,
    or the value it gave to the JSON encoder. *)
Inductive Payload : Type :=
| NoBody
| Text (text : string)                     (* http.Error *)
| ErrorJSON (message : string)             (* {"error": message} *)
| UserJSON (user : service.UserResponse.t)
| UsersJSON (users : list service.UserResponse.t) (total page page_size total_pages : Z).

Record Response : Type := {
  StatusCode : Z;
  ContentType : string;
  Written : Payload
}.

(** [http.Error(w, text, code)] and [http.NotFound]. *)
Definition Error (text : string) (code : Z) : Response :=
  {| StatusCode := code; ContentType := "text/plain; charset=utf-8"; Written := Text text |}.

Definition NotFound : Response := Error "404 page not found" StatusNotFound.

(** A handler, on a state [S] of the store; the string is the entropy that
    the handling of the request draws. *)
Definition Handler (S : Type) : Type := Request -> string -> S -> Response * S.

End http.

(** ** encoding/json

    Decoding of a request body into the three structs of the handlers; it
    is a collaborator, and the handlers are parametric in it. *)
Module json.
Import errors.

Class Decoder : Type := {
  DecodeCreateUserRequest : string -> result service.CreateUserRequest.t;
  DecodeUpdateUserRequest : string -> result service.UpdateUserRequest.t;
  DecodeCredentials : string -> result (string * string)   (* Email, Password *)
}.

End json.

(** ** internal/handlers *)
Module handlers.
Import errors models.

Section UserHandler.
Context {S : Type} {repo : repository.UserRepository S} {hasher : bcrypt.Scheme}
        {decoder : json.Decoder}.

Definition respondWithJSON (code : Z) (payload : http.Payload) : http.Response :=
  {| http.StatusCode := code; http.ContentType := "application/json";
     http.Written := payload |}.

Definition respondWithError (code : Z) (message : string) : http.Response :=
  respondWithJSON code (http.ErrorJSON message).

Definition CreateUser : http.Handler S := fun r salt s =>
  match json.DecodeCreateUserRequest (http.Body r) with
  | fail _ => (respondWithError http.StatusBadRequest "Invalid request payload", s)
  | ok req =>
      match service.CreateUser req salt s with
      | (fail err, s1) =>
          if Is err service.ErrUserAlreadyExists
          then (respondWithError http.StatusConflict "user already exists", s1)
          else (respondWithError http.StatusInternalServerError "internal server error", s1)
      | (ok user, s1) => (respondWithJSON http.StatusCreated (http.UserJSON user), s1)
      end
  end.

Definition GetUser : http.Handler S := fun r salt s =>
  let idStr := http.PathValue r "id" in
  match strconv.ParseUint idStr 32 with
  | (_, Some _) => (respondWithError http.StatusBadRequest "Invalid user ID", s)
  | (id, None) =>
      match service.GetUser (Z.to_N id) s with
      | (fail err, s1) =>
          if Is err service.ErrUserNotFound
          then (respondWithError http.StatusNotFound "User not found", s1)
          else (respondWithError http.StatusInternalServerError "Internal server error", s1)
      | (ok user, s1) => (respondWithJSON http.StatusOK (http.UserJSON user), s1)
      end
  end.

Definition ListUsers : http.Handler S := fun r salt s =>
  let pageStr := http.get "page" (http.Query r) in
  let pageSizeStr := http.get "page_size" (http.Query r) in
  let page :=
    if String.eqb pageStr "" then 1
    else
      match strconv.Atoi pageStr with
      | (pageVal, None) => if Z.ltb 0 pageVal then pageVal else 1
      | (_, Some _) => 1
      end in
  let pageSize :=
    if String.eqb pageSizeStr "" then 10
    else
      match strconv.Atoi pageSizeStr with
      | (pageSizeVal, None) =>
          if (Z.ltb 0 pageSizeVal && Z.leb pageSizeVal 100)%bool then pageSizeVal else 10
      | (_, Some _) => 10
      end in
  match service.ListUsers page pageSize s with
  | (fail _, s1) =>
      (respondWithError http.StatusInternalServerError "Internal server error", s1)
  | (ok (users, total), s1) =>
      let total_pages := Z.quot (Go.wrap (Go.wrap (total + pageSize) - 1)) pageSize in
      (respondWithJSON http.StatusOK (http.UsersJSON users total page pageSize total_pages),
       s1)
  end.

Definition UpdateUser : http.Handler S := fun r salt s =>
  let idStr := http.PathValue r "id" in
  match strconv.ParseUint idStr 32 with
  | (_, Some _) => (respondWithError http.StatusBadRequest "Invalid user ID", s)
  | (id, None) =>
      match json.DecodeUpdateUserRequest (http.Body r) with
      | fail _ => (respondWithError http.StatusBadRequest "Invalid request payload", s)
      | ok req =>
          match service.UpdateUser (Z.to_N id) req salt s with
          | (fail err, s1) =>
              if Is err service.ErrUserNotFound
              then (respondWithError http.StatusNotFound "User not found", s1)
              else (respondWithError http.StatusInternalServerError
                      "Internal server error", s1)
          | (ok user, s1) => (respondWithJSON http.StatusOK (http.UserJSON user), s1)
          end
      end
  end.

Definition DeleteUser : http.Handler S := fun r salt s =>
  let idStr := http.PathValue r "id" in
  match strconv.ParseUint idStr 32 with
  | (_, Some _) => (respondWithError http.StatusBadRequest "Invalid user ID", s)
  | (id, None) =>
      match service.DeleteUser (Z.to_N id) s with
      | (Some err, s1) =>
          if Is err service.ErrUserNotFound
          then (respondWithError http.StatusNotFound "User not found", s1)
          else (respondWithError http.StatusInternalServerError "Internal server error", s1)
      | (None, s1) =>
          ({| http.StatusCode := http.StatusNoContent; http.ContentType := "";
              http.Written := http.NoBody |}, s1)
      end
  end.

Definition AuthenticateUser : http.Handler S := fun r salt s =>
  match json.DecodeCredentials (http.Body r) with
  | fail _ => (respondWithError http.StatusBadRequest "Invalid request payload", s)
  | ok (email, password) =>
      match service.AuthenticateUser email password s with
      | (fail err, s1) =>
          if Is err service.ErrInvalidCredentials
          then (respondWithError http.StatusUnauthorized "Invalid credentials", s1)
          else (respondWithError http.StatusInternalServerError "Internal server error", s1)
      | (ok user, s1) => (respondWithJSON http.StatusOK (http.UserJSON user), s1)
      end
  end.

End UserHandler.

End handlers.

(** ** internal/middleware *)
Module middleware.

(** [UserIDKey], of the package's own key type. *)
Definition UserIDKey : http.ContextKey := ("middleware.contextKey", "user_id").

Section Middleware.
Context {S : Type}.

(** The logger has no effect on the response. *)
Definition RequestLogger (next : http.Handler S) : http.Handler S :=
  fun r salt s => next r salt s.

Definition AuthMiddleware (next : http.Handler S) : http.Handler S :=
  fun r salt s =>
    let authHeader := http.get "Authorization" (http.Header r) in
    if (String.eqb authHeader "" || negb (String.prefix "Bearer " authHeader))%bool
    then (http.Error "Unauthorized" http.StatusUnauthorized, s)
    else
      let userID := http.Uint 1 in
      next (http.WithValue r UserIDKey userID) salt s.

(** [r.Context().Value(UserIDKey).(uint)]. *)
Definition GetUserID (r : http.Request) : N * bool :=
  match http.Value UserIDKey (http.Context r) with
  | Some (http.Uint userID) => (userID, true)
  | _ => (0%N, false)
  end.

Definition RequireAuthentication (next : http.Handler S) : http.Handler S :=
  fun r salt s =>
    let '(_, ok) := GetUserID r in
    if negb ok
    then (http.Error "Unauthorized" http.StatusUnauthorized, s)
    else next r salt s.

End Middleware.

End middleware.

(** ** cmd/api: the routes of [main]

    [ServeMux] picks the pattern for a request and fills in the wildcards;
    that choice is [pick] below.  The handler registered under the pattern
    is from [main]. *)
Module main.

Section Routes.
Context {S : Type} {repo : repository.UserRepository S} {hasher : bcrypt.Scheme}
        {decoder : json.Decoder}.

(** The function behind the protected routes. *)
Definition protected : http.Handler S := fun r salt s =>
  if (String.eqb (http.Method r) http.MethodGet && String.eqb (http.Path r) "/api/users")%bool
  then handlers.ListUsers r salt s
  else if (String.eqb (http.Method r) http.MethodGet
           && negb (String.eqb (http.PathValue r "id") ""))%bool
  then handlers.GetUser r salt s
  else if (String.eqb (http.Method r) http.MethodPut
           && negb (String.eqb (http.PathValue r "id") ""))%bool
  then handlers.UpdateUser r salt s
  else if (String.eqb (http.Method r) http.MethodDelete
           && negb (String.eqb (http.PathValue r "id") ""))%bool
  then handlers.DeleteUser r salt s
  else (http.NotFound, s).

Definition authRouter : http.Handler S := middleware.RequireAuthentication protected.

Definition routes : list (string * http.Handler S) :=
  [ ("POST /api/auth/login", handlers.AuthenticateUser);
    ("POST /api/users", handlers.CreateUser);
    ("GET /api/users", authRouter);
    ("GET /api/users/{id}", authRouter);
    ("PUT /api/users/{id}", authRouter);
    ("DELETE /api/users/{id}", authRouter) ].

Fixpoint registered (pattern : string) (l : list (string * http.Handler S))
  : option (http.Handler S) :=
  match l with
  | [] => None
  | (p, h) :: l' => if String.eqb p pattern then Some h else registered pattern l'
  end.

(** The mux: the handler of the pattern that [pick] gives, or 404. *)
Definition mux (pick : http.Request -> option string) : http.Handler S :=
  fun r salt s =>
    match pick r with
    | None => (http.NotFound, s)
    | Some pattern =>
        match registered pattern routes with
        | Some h => h r salt s
        | None => (http.NotFound, s)
        end
    end.

(** [server.Handler]. *)
Definition handler (pick : http.Request -> option string) : http.Handler S :=
  middleware.RequestLogger (mux pick).

End Routes.

End main.

(** ** internal/config *)
Module config.

Record ServerConfig : Type := {
  Port : string;
  ReadTimeout : Z;          (* time.Duration: nanoseconds *)
  WriteTimeout : Z;
  ShutdownTimeout : Z
}.

Record DatabaseConfig : Type := {
  Host : string;
  DBPort : string;          (* the field Port of DatabaseConfig *)
  User : string;
  Password : string;
  DBName : string;
  SSLMode : string;
  MaxOpenConns : Z;
  MaxIdleConns : Z;
  ConnMaxLife : Z
}.

Record LoggerConfig : Type := { Level : string; Dev : bool }.

Record AppConfig : Type := { Environment : string }.

Record Config : Type := {
  Server : ServerConfig;
  DB : DatabaseConfig;
  Logger : LoggerConfig;
  App : AppConfig
}.

Definition Second : Z := 1000000000.
Definition Minute : Z := 60 * Second.

(** [env] is [os.Getenv], after [godotenv.Load] has had its effect. *)
Section Env.
Variable env : string -> string.

Definition getEnv (key defaultValue : string) : string :=
  let value := env key in
  if String.eqb value "" then defaultValue else value.

Definition LoadConfig : Config * option errors.error :=
  let serverPort := getEnv "SERVER_PORT" "8000" in
  let readTimeout := fst (strconv.Atoi (getEnv "SERVER_READ_TIMEOUT" "5")) in
  let writeTimeout := fst (strconv.Atoi (getEnv "SERVER_WRITE_TIMEOUT" "10")) in
  let shutdownTimeout := fst (strconv.Atoi (getEnv "SERVER_SHUTDOWN_TIMEOUT" "5")) in
  let dbHost := getEnv "DB_HOST" "localhost" in
  let dbPort := getEnv "DB_PORT" "5432" in
  let dbUser := getEnv "DB_USER" "postgres" in
  let dbPassword := getEnv "DB_PASSWORD" "postgres" in
  let dbName := getEnv "DB_NAME" "app_db" in
  let dbSSLMode := getEnv "DB_SSL_MODE" "disable" in
  let dbMaxOpenConns := fst (strconv.Atoi (getEnv "DB_MAX_OPEN_CONNS" "25")) in
  let dbMaxIdleConns := fst (strconv.Atoi (getEnv "DB_MAX_IDLE_CONNS" "25")) in
  let dbConnMaxLife := fst (strconv.Atoi (getEnv "DB_CONN_MAX_LIFETIME" "5")) in
  let logLevel := getEnv "LOG_LEVEL" "info" in
  let logDev := fst (strconv.ParseBool (getEnv "LOG_DEV" "false")) in
  let environment := getEnv "ENVIRONMENT" "development" in
  ({| Server :=
        {| Port := serverPort;
           ReadTimeout := Go.mul readTimeout Second;
           WriteTimeout := Go.mul writeTimeout Second;
           ShutdownTimeout := Go.mul shutdownTimeout Second |};
      DB :=
        {| Host := dbHost; DBPort := dbPort; User := dbUser; Password := dbPassword;
           DBName := dbName; SSLMode := dbSSLMode;
           MaxOpenConns := dbMaxOpenConns; MaxIdleConns := dbMaxIdleConns;
           ConnMaxLife := Go.mul dbConnMaxLife Minute |};
      Logger := {| Level := logLevel; Dev := logDev |};
      App := {| Environment := environment |} |},
   None).

End Env.

Definition GetDSN (c : DatabaseConfig) : string :=
  "host=" ++ Host c ++ " port=" ++ DBPort c ++ " user=" ++ User c
  ++ " password=" ++ Password c ++ " dbname=" ++ DBName c ++ " sslmode=" ++ SSLMode c.

End config.

(** ** More sample data *)
Module fixtures.
Import errors.

(** A stand-in for the JSON decoder: the fields of a body are separated by
    a vertical bar. *)
Fixpoint split (sep : ascii) (s : string) : list string :=
  match s with
  | EmptyString => [EmptyString]
  | String c rest =>
      if Ascii.eqb c sep then EmptyString :: split sep rest
      else
        match split sep rest with
        | field :: fields => String c field :: fields
        | [] => [String c EmptyString]
        end
  end.

Definition malformed : error := Other "invalid character".

Definition decoder : json.Decoder := {|
  json.DecodeCreateUserRequest body :=
    match split "|" body with
    | [username; email; password; first; last] =>
        ok (service.CreateUserRequest.mk username email password first last)
    | _ => fail malformed
    end;
  json.DecodeUpdateUserRequest body :=
    match split "|" body with
    | [first; last; password] => ok (service.UpdateUserRequest.mk first last password)
    | _ => fail malformed
    end;
  json.DecodeCredentials body :=
    match split "|" body with
    | [email; password] => ok (email, password)
    | _ => fail malformed
    end
|}.

(** The context that the server gives a request: its own two keys. *)
Definition baseContext : list (http.ContextKey * http.any) :=
  [ (("http.contextKey", "http-server"), http.Ptr "*http.Server");
    (("http.contextKey", "local-addr"), http.Ptr "net.Addr") ].

Definition request (method path id : string) (query header : list (string * string))
           (body : string) : http.Request :=
  {| http.Method := method; http.Path := path;
     http.PathValues := if String.eqb id "" then [] else [("id", id)];
     http.Query := query; http.Header := header; http.Body := body;
     http.Context := baseContext |}.

(** The mux's choice of a pattern, from the method and the id. *)
Definition pick (r : http.Request) : option string :=
  if String.eqb (http.PathValue r "id") ""
  then Some (http.Method r ++ " " ++ http.Path r)
  else Some (http.Method r ++ " /api/users/{id}").

Definition unset : string -> string := fun _ => "".

Definition env (key : string) : string :=
  if String.eqb key "SERVER_READ_TIMEOUT" then "soon"
  else if String.eqb key "SERVER_WRITE_TIMEOUT" then "30"
  else if String.eqb key "LOG_DEV" then "yes"
  else "".

End fixtures.

(** ** Decimal numerals

    What a string of decimal digits denotes, to state what the parsers of
    [strconv] compute. *)
Module numeral.

Fixpoint all_digits (s : string) : bool :=
  match s with
  | EmptyString => true
  | String c rest => (strconv.is_digit c && all_digits rest)%bool
  end.

(** The value of the digits of [s] read after the number [n]. *)
Fixpoint decimal_from (n : Z) (s : string) : Z :=
  match s with
  | EmptyString => n
  | String c rest => decimal_from (n * 10 + strconv.digit c) rest
  end.

Definition decimal (s : string) : Z := decimal_from 0 s.

(** A numeral: digits, and at least one. *)
Definition is_numeral (s : string) : bool :=
  (negb (String.eqb s "") && all_digits s)%bool.

(** The ids that the handlers take: the numerals of a [uint32]. *)
Definition is_id (s : string) : bool :=
  (is_numeral s && Z.leb (decimal s) (2 ^ 32 - 1))%bool.

End numeral.

(** ** Answers

    Shapes of the answers of a handler, to state what it can answer. *)
Module answer.

(** One of the listed error answers: a status and a message. *)
Definition error_of (resp : http.Response) (listed : list (Z * string)) : Prop :=
  exists code message,
    In (code, message) listed /\ resp = handlers.respondWithError code message.

(** A success with the public view of a user. *)
Definition user_of (resp : http.Response) (code : Z) : Prop :=
  exists view, resp = handlers.respondWithJSON code (http.UserJSON view).

End answer.

(** ** Texts and orders *)
Module text.

(** The last character of a text. *)
Fixpoint last_char (s : string) : option ascii :=
  match s with
  | EmptyString => None
  | String c rest =>
      match rest with
      | EmptyString => Some c
      | String _ _ => last_char rest
      end
  end.

End text.

Module order.

(** The order of a list of users: from the newest to the oldest. *)
Definition newer_first (a b : models.User.t) : Prop :=
  models.User.CreatedAt b <= models.User.CreatedAt a.

End order.

(** * Properties *)

Import errors models.
Import repository.

(** ** Go values *)

Section GoFacts.

Lemma wrap_congruent (z : Z) : exists k, Go.wrap z = z + k * 2 ^ 64.
Proof.
  unfold Go.wrap.
  exists (- ((z + 2 ^ 63) / 2 ^ 64)).
  pose proof (Z.div_mod (z + 2 ^ 63) (2 ^ 64) ltac:(lia)) as E.
  lia.
Qed.

Lemma wrap_small (z : Z) : Go.min_int <= z <= Go.max_int -> Go.wrap z = z.
Proof.
  unfold Go.wrap, Go.min_int, Go.max_int. intros H.
  rewrite Z.mod_small; lia.
Qed.

Lemma wrap_shift (z k : Z) : Go.wrap (z + k * 2 ^ 64) = Go.wrap z.
Proof.
  unfold Go.wrap.
  replace (z + k * 2 ^ 64 + 2 ^ 63) with (z + 2 ^ 63 + k * 2 ^ 64) by lia.
  now rewrite Z.mod_add by lia.
Qed.

(** The offset of [ListUsers], whatever the sizes. *)
Lemma mul_sub_wrap (p n : Z) : Go.mul (Go.sub p 1) n = Go.wrap ((p - 1) * n).
Proof.
  unfold Go.mul, Go.sub.
  destruct (wrap_congruent (p - 1)) as [k E]. rewrite E.
  replace ((p - 1 + k * 2 ^ 64) * n) with ((p - 1) * n + (k * n) * 2 ^ 64) by lia.
  apply wrap_shift.
Qed.

Lemma Is_New (ident text ident' text' : string) :
  Is (New ident text) (New ident' text') = String.eqb ident ident'.
Proof. reflexivity. Qed.

End GoFacts.

(** ** The store *)

Section StoreFacts.

Lemma begin_healthy (d : gorm.DB) :
  gorm.healthy d -> gorm.begin d = (None, gorm.tick d).
Proof. unfold gorm.healthy, gorm.begin. intros H. now rewrite H. Qed.

Lemma tick_healthy (d : gorm.DB) : gorm.healthy d -> gorm.healthy (gorm.tick d).
Proof. unfold gorm.healthy. intros H. simpl. now rewrite H. Qed.

Lemma first_by_id_In (l : list User.t) (r : User.t) :
  gorm.first_by_id l = Some r -> In r l.
Proof.
  revert r. induction l as [|x l IH]; simpl; intros r H; [discriminate|].
  destruct (gorm.first_by_id l) as [m|].
  - destruct (N.leb (User.ID x) (User.ID m)); inversion H; subst; auto.
  - inversion H; auto.
Qed.

Lemma first_by_id_None (l : list User.t) : gorm.first_by_id l = None -> l = [].
Proof.
  destruct l as [|x l]; simpl; [reflexivity|].
  destruct (gorm.first_by_id l) as [m|]; [|discriminate].
  destruct (N.leb (User.ID x) (User.ID m)); discriminate.
Qed.

Lemma filter_nothing (p : User.t -> bool) (l : list User.t) :
  (forall x, In x l -> p x = false) -> filter p l = [].
Proof.
  induction l as [|x l IH]; simpl; intros H; [reflexivity|].
  rewrite H by now left. apply IH. intros y Hy. apply H. now right.
Qed.

(** A filter that only one row of a duplicate-free list passes. *)
Lemma filter_only (p : User.t -> bool) (l : list User.t) (r : User.t) :
  NoDup l -> In r l -> p r = true ->
  (forall x, In x l -> p x = true -> x = r) ->
  filter p l = [r].
Proof.
  induction l as [|x l IH]; simpl; intros ND Hin Hp Huniq; [contradiction|].
  inversion ND as [|? ? Hnotin ND']; subst.
  destruct Hin as [->|Hin].
  - rewrite Hp. f_equal. apply filter_nothing.
    intros y Hy. destruct (p y) eqn:E; [|reflexivity].
    exfalso. apply Hnotin. rewrite <- (Huniq y); auto.
  - destruct (p x) eqn:E.
    + exfalso. apply Hnotin. rewrite (Huniq x); auto.
    + apply IH; auto.
Qed.

Lemma NoDup_map_inj {K : Type} (key : User.t -> K) (l : list User.t) (a b : User.t) :
  NoDup (map key l) -> In a l -> In b l -> key a = key b -> a = b.
Proof.
  induction l as [|x l IH]; simpl; intros ND Ha Hb E; [contradiction|].
  inversion ND as [|? ? Hnotin ND']; subst.
  destruct Ha as [->|Ha], Hb as [->|Hb]; auto.
  - exfalso. apply Hnotin. rewrite E. now apply in_map.
  - exfalso. apply Hnotin. rewrite <- E. now apply in_map.
Qed.

Lemma NoDup_of_map {K : Type} (key : User.t -> K) (l : list User.t) :
  NoDup (map key l) -> NoDup l.
Proof.
  induction l as [|x l IH]; simpl; intros ND; [constructor|].
  inversion ND as [|? ? Hnotin ND']; subst. constructor; auto.
  intros Hin. apply Hnotin. now apply in_map.
Qed.

(** In a consistent table a condition of the repository picks one row. *)
Lemma holds_unique (d : gorm.DB) (c : gorm.Cond) (a b : User.t) :
  gorm.consistent d -> In a (gorm.rows d) -> In b (gorm.rows d) ->
  gorm.holds c a = true -> gorm.holds c b = true -> a = b.
Proof.
  intros (Hid & Hname & Hmail & _) Ha Hb Pa Pb.
  destruct c as [id|email|username]; simpl in Pa, Pb.
  - apply N.eqb_eq in Pa, Pb.
    apply (NoDup_map_inj User.ID (gorm.rows d)); congruence.
  - apply String.eqb_eq in Pa, Pb.
    apply (NoDup_map_inj User.Email (gorm.rows d)); congruence.
  - apply String.eqb_eq in Pa, Pb.
    apply (NoDup_map_inj User.Username (gorm.rows d)); congruence.
Qed.

Lemma selected_only (d : gorm.DB) (c : gorm.Cond) (r : User.t) :
  gorm.consistent d -> In r (gorm.rows d) ->
  gorm.holds c r = true -> gorm.live r = true ->
  filter (gorm.selected c) (gorm.rows d) = [r].
Proof.
  intros Hc Hin Hh Hl. apply filter_only; auto.
  - destruct Hc as (Hid & _). now apply (NoDup_of_map User.ID).
  - unfold gorm.selected. now rewrite Hh, Hl.
  - intros x Hx Hsel. unfold gorm.selected in Hsel.
    apply andb_true_iff in Hsel as [Hhx _].
    now apply (holds_unique d c).
Qed.

Lemma In_insert_desc (r x : User.t) (l : list User.t) :
  In x (gorm.insert_desc r l) -> x = r \/ In x l.
Proof.
  induction l as [|y l IH]; simpl.
  - intros [->|[]]; auto.
  - destruct (Z.leb (User.CreatedAt y) (User.CreatedAt r)); simpl.
    + intros [->|[->|H]]; auto.
    + intros [->|H]; auto. destruct (IH H); auto.
Qed.

Lemma In_order_created_desc (x : User.t) (l : list User.t) :
  In x (gorm.order_created_desc l) -> In x l.
Proof.
  unfold gorm.order_created_desc.
  induction l as [|y l IH]; simpl; [auto|].
  intros H. apply In_insert_desc in H as [->|H]; auto.
Qed.

Lemma In_page (offset limit : Z) (x : User.t) (l : list User.t) :
  In x (gorm.page offset limit l) -> In x l.
Proof.
  assert (Hfirst : forall n (k : list User.t), In x (firstn n k) -> In x k).
  { intros n k H. rewrite <- (firstn_skipn n k). apply in_or_app. now left. }
  assert (Hskip : forall n (k : list User.t), In x (skipn n k) -> In x k).
  { intros n k H. rewrite <- (firstn_skipn n k). apply in_or_app. now right. }
  unfold gorm.page. intros H.
  assert (In x (if Z.ltb 0 offset then skipn (Z.to_nat offset) l else l)) as H1.
  { destruct (Z.leb 0 limit); [eapply Hfirst; eauto | exact H]. }
  destruct (Z.ltb 0 offset); [eapply Hskip; eauto | exact H1].
Qed.

End StoreFacts.

(** ** The repository over a healthy store *)

Section RepositoryFacts.

Lemma get_healthy (c : gorm.Cond) (d : gorm.DB) :
  gorm.healthy d ->
  GormUserRepository.get c d =
    match gorm.first_by_id (filter (gorm.selected c) (gorm.rows d)) with
    | Some r => (ok r, gorm.tick d)
    | None => (fail ErrNotFound, gorm.tick d)
    end.
Proof.
  intros H. unfold GormUserRepository.get, gorm.First.
  rewrite (begin_healthy d H). simpl.
  destruct (gorm.first_by_id _); reflexivity.
Qed.

Lemma get_found (c : gorm.Cond) (d : gorm.DB) (r : User.t) :
  gorm.healthy d -> gorm.consistent d -> In r (gorm.rows d) ->
  gorm.holds c r = true -> gorm.live r = true ->
  GormUserRepository.get c d = (ok r, gorm.tick d).
Proof.
  intros H Hc Hin Hh Hl. rewrite get_healthy by assumption.
  now rewrite (selected_only d c r Hc Hin Hh Hl).
Qed.

Lemma get_missing (c : gorm.Cond) (d : gorm.DB) :
  gorm.healthy d ->
  (forall x, In x (gorm.rows d) -> gorm.selected c x = false) ->
  GormUserRepository.get c d = (fail ErrNotFound, gorm.tick d).
Proof.
  intros H Hnone. rewrite get_healthy by assumption.
  now rewrite filter_nothing.
Qed.

(** The text of a unique violation goes on after the text the repository
    compares with, so the comparison fails whatever the constraint. *)
Lemma isUniqueConstraintError_duplicate_key (constraint : string) :
  GormUserRepository.isUniqueConstraintError (Some (gorm.duplicate_key constraint)) = false.
Proof. reflexivity. Qed.

Lemma unique_violation_is_duplicate_key (r : User.t) (others : list User.t) (e : error) :
  gorm.unique_violation r others = Some e ->
  exists constraint, e = gorm.duplicate_key constraint.
Proof.
  unfold gorm.unique_violation. intros H.
  repeat match type of H with
         | (if ?b then _ else _) = _ => destruct b
         end; inversion H; eauto.
Qed.

Lemma unique_violation_clash (r x : User.t) (others : list User.t) :
  In x others ->
  User.Username x = User.Username r \/ User.Email x = User.Email r ->
  exists e, gorm.unique_violation r others = Some e.
Proof.
  intros Hin Hclash. unfold gorm.unique_violation.
  destruct (existsb (fun y => N.eqb (User.ID y) (User.ID r)) others); eauto.
  destruct (existsb (fun y => String.eqb (User.Username y) (User.Username r)) others) eqn:En;
    eauto.
  destruct (existsb (fun y => String.eqb (User.Email y) (User.Email r)) others) eqn:Em;
    eauto.
  exfalso. destruct Hclash as [E|E].
  - assert (existsb (fun y => String.eqb (User.Username y) (User.Username r)) others = true)
      by (apply existsb_exists; exists x; split; auto; now apply String.eqb_eq).
    congruence.
  - assert (existsb (fun y => String.eqb (User.Email y) (User.Email r)) others = true)
      by (apply existsb_exists; exists x; split; auto; now apply String.eqb_eq).
    congruence.
Qed.

Lemma unique_violation_none (r x : User.t) (others : list User.t) :
  gorm.unique_violation r others = None -> In x others ->
  User.ID x <> User.ID r /\
  User.Username x <> User.Username r /\
  User.Email x <> User.Email r.
Proof.
  unfold gorm.unique_violation. intros H Hin.
  destruct (existsb (fun y => N.eqb (User.ID y) (User.ID r)) others) eqn:Ei;
    [discriminate|].
  destruct (existsb (fun y => String.eqb (User.Username y) (User.Username r)) others) eqn:En;
    [discriminate|].
  destruct (existsb (fun y => String.eqb (User.Email y) (User.Email r)) others) eqn:Em;
    [discriminate|].
  repeat split; intros E.
  - assert (existsb (fun y => N.eqb (User.ID y) (User.ID r)) others = true)
      by (apply existsb_exists; exists x; split; auto; now apply N.eqb_eq).
    congruence.
  - assert (existsb (fun y => String.eqb (User.Username y) (User.Username r)) others = true)
      by (apply existsb_exists; exists x; split; auto; now apply String.eqb_eq).
    congruence.
  - assert (existsb (fun y => String.eqb (User.Email y) (User.Email r)) others = true)
      by (apply existsb_exists; exists x; split; auto; now apply String.eqb_eq).
    congruence.
Qed.

End RepositoryFacts.

(** * The properties of the specification *)

(** C1.  The specification has the store's Create fail with Conflict for a
    user whose username or e-mail address is that of a persisted user.  The
    code does not do so: the driver's error for the violated constraint
    names the constraint and the SQLSTATE, [isUniqueConstraintError]
    compares the whole text with a fixed string that has neither, and so
    Create answers with the generic Database error for every such user. *)
Theorem Create_duplicate_is_ErrDatabase :
  forall (db : gorm.DB) (user existing : User.t),
    gorm.healthy db ->
    In existing (gorm.rows db) ->
    gorm.live existing = true ->
    User.Username existing = User.Username user \/
    User.Email existing = User.Email user ->
    fst (fst (GormUserRepository.Create user db)) = Some ErrDatabase.
Proof.
  intros db user existing H Hin _ Hclash.
  unfold GormUserRepository.Create, gorm.Create.
  rewrite (begin_healthy db H). unfold gorm.insert.
  set (u1 := gorm.fill_defaults (gorm.clock db) user).
  destruct (N.eqb (User.ID u1) 0) eqn:E0;
    match goal with
    | |- context [gorm.unique_violation ?row ?rs] =>
        destruct (unique_violation_clash row existing rs) as [e He];
        [ exact Hin | exact Hclash | ];
        rewrite He; simpl;
        destruct (unique_violation_is_duplicate_key _ _ _ He) as [name ->];
        reflexivity
    end.
Qed.

(** C1 on the sample table: a new user with the e-mail address of [alice]. *)
Lemma Create_duplicate_is_ErrDatabase_witness :
  gorm.healthy sample.db /\
  In sample.alice (gorm.rows sample.db) /\
  fst (fst (GormUserRepository.Create sample.duplicate sample.db)) = Some ErrDatabase.
Proof.
  split; [reflexivity|]. split; [now left|].
  apply (Create_duplicate_is_ErrDatabase sample.db sample.duplicate sample.alice).
  - reflexivity.
  - now left.
  - reflexivity.
  - right. reflexivity.
Defined.

Section CreateFacts.

(** What a successful Create of the GORM repository has done. *)
Lemma Create_ok (user created : User.t) (db db' : gorm.DB) :
  GormUserRepository.Create user db = (None, created, db') ->
  gorm.rows db' = (gorm.rows db ++ [created])%list /\
  gorm.unique_violation created (gorm.rows db) = None /\
  exists id, created = gorm.set_ID (gorm.fill_defaults (gorm.clock db) user) id.
Proof.
  unfold GormUserRepository.Create, gorm.Create, gorm.begin, gorm.insert.
  destruct (hd None (gorm.faults db)) as [e|].
  - cbn [gorm.Error gorm.failed].
    destruct (GormUserRepository.isUniqueConstraintError (Some e)); discriminate.
  - destruct (N.eqb (User.ID (gorm.fill_defaults (gorm.clock db) user)) 0);
      match goal with
      | |- context [match gorm.unique_violation ?row ?rs with _ => _ end] =>
          destruct (gorm.unique_violation row rs) as [e|] eqn:Ev;
          cbn [gorm.Error gorm.failed gorm.done];
          [ destruct (GormUserRepository.isUniqueConstraintError (Some e)); discriminate
          | intros Heq; inversion Heq; subst; simpl; repeat split; eauto ]
      end.
Qed.

(** The service's CreateUser succeeds only through a successful Create of
    the record it has built. *)
Lemma CreateUser_ok {S : Type} {repo : UserRepository S} {hasher : bcrypt.Scheme}
      (req : service.CreateUserRequest.t) (salt : string) (s s' : S)
      (view : service.UserResponse.t) :
  service.CreateUser req salt s = (ok view, s') ->
  exists err s1 hash created,
    GetByEmail (service.CreateUserRequest.Email req) s = (fail err, s1) /\
    bcrypt.GenerateFromPassword
      (service.CreateUserRequest.Password req) bcrypt.DefaultCost salt = ok hash /\
    Create
      (User.mk 0%N (service.CreateUserRequest.Username req)
         (service.CreateUserRequest.Email req) hash
         (service.CreateUserRequest.FirstName req)
         (service.CreateUserRequest.LastName req) true 0 0 None) s1
      = (None, created, s') /\
    view = service.mapUserToResponse created.
Proof.
  unfold service.CreateUser.
  destruct (GetByEmail (service.CreateUserRequest.Email req) s) as [[existing|err] s1];
    [discriminate|].
  destruct (Is err ErrNotFound); simpl; [|discriminate].
  destruct (bcrypt.GenerateFromPassword _ _ _) as [hash|err'] eqn:Eh; [|discriminate].
  match goal with
  | |- context [Create ?u s1] => destruct (Create u s1) as [[[err'|] created] s2] eqn:Ec
  end.
  - destruct (Is err' ErrConflict); discriminate.
  - intros Heq. inversion Heq; subst.
    exists err, s1, hash, created. repeat split; auto.
Qed.

End CreateFacts.



Section ReadFacts.

(** A look-up that succeeds has read a live row that meets the condition,
    and has left the table as it was. *)
Lemma get_ok (c : gorm.Cond) (db db' : gorm.DB) (user : User.t) :
  GormUserRepository.get c db = (ok user, db') ->
  In user (gorm.rows db) /\ gorm.selected c user = true /\ gorm.rows db' = gorm.rows db.
Proof.
  unfold GormUserRepository.get, gorm.First, gorm.begin.
  destruct (hd None (gorm.faults db)) as [e|]; cbn [gorm.Error gorm.failed].
  - destruct (Is e gorm.ErrRecordNotFound); discriminate.
  - destruct (gorm.first_by_id _) as [r|] eqn:E; cbn [gorm.Error gorm.failed gorm.done].
    + intros Heq. inversion Heq; subst. apply first_by_id_In in E.
      apply filter_In in E as [Hin Hsel]. auto.
    + discriminate.
Qed.

Lemma get_rows (c : gorm.Cond) (db : gorm.DB) :
  gorm.rows (snd (GormUserRepository.get c db)) = gorm.rows db.
Proof.
  unfold GormUserRepository.get, gorm.First, gorm.begin.
  destruct (hd None (gorm.faults db)) as [e|]; cbn [gorm.Error gorm.failed].
  - destruct (Is e gorm.ErrRecordNotFound); reflexivity.
  - destruct (gorm.first_by_id _) as [r|]; reflexivity.
Qed.

Lemma Delete_healthy (id : N) (db : gorm.DB) :
  gorm.healthy db ->
  GormUserRepository.Delete id db =
    let hit := gorm.selected (gorm.WherePrimaryKey id) in
    let db' :=
      gorm.with_rows (gorm.tick db)
        (map (fun r => if hit r then gorm.set_DeletedAt r (gorm.clock db) else r)
             (gorm.rows db)) in
    if Z.eqb (Z.of_nat (List.length (filter hit (gorm.rows db)))) 0
    then (Some ErrNotFound, db')
    else (None, db').
Proof.
  intros H. unfold GormUserRepository.Delete, gorm.Delete.
  rewrite (begin_healthy db H). reflexivity.
Qed.

Lemma List_healthy (offset limit : Z) (db : gorm.DB) :
  gorm.healthy db ->
  GormUserRepository.List offset limit db =
    (ok (gorm.page offset limit (gorm.order_created_desc (filter gorm.live (gorm.rows db))),
         Z.of_nat (List.length (filter gorm.live (gorm.rows db)))),
     gorm.tick (gorm.tick db)).
Proof.
  intros H. unfold GormUserRepository.List, gorm.Count, gorm.Find.
  rewrite (begin_healthy db H). cbn [gorm.Error gorm.done].
  rewrite (begin_healthy _ (tick_healthy db H)). reflexivity.
Qed.

(** A page of the list holds live rows of the table only. *)
Lemma List_ok (offset limit : Z) (db db' : gorm.DB) (users : list User.t) (count : Z) :
  GormUserRepository.List offset limit db = (ok (users, count), db') ->
  forall user, In user users -> In user (gorm.rows db) /\ gorm.live user = true.
Proof.
  unfold GormUserRepository.List, gorm.Count, gorm.Find, gorm.begin.
  destruct (hd None (gorm.faults db)) as [e|]; cbn [gorm.Error gorm.failed gorm.done];
    [discriminate|].
  destruct (hd None (gorm.faults (gorm.tick db))) as [e|];
    cbn [gorm.Error gorm.failed gorm.done]; [discriminate|].
  intros Heq user Hin. inversion Heq; subst. cbn [gorm.rows gorm.tick] in Hin.
  apply In_page, In_order_created_desc, filter_In in Hin. exact Hin.
Qed.

End ReadFacts.


Lemma sample_db_consistent : gorm.consistent sample.db.
Proof.
  unfold gorm.consistent, gorm.unique_keys; simpl.
  repeat split; repeat constructor; simpl; intuition discriminate.
Defined.


(** C6.  On the GORM store, for an id that no live row has, GetUser,
    UpdateUser and DeleteUser each answer ErrUserNotFound. *)
Theorem missing_id_is_ErrUserNotFound :
  forall (hasher : bcrypt.Scheme) (db : gorm.DB) (id : N),
    gorm.healthy db ->
    (forall r, In r (gorm.rows db) -> User.ID r = id -> gorm.live r = false) ->
    fst (service.GetUser id db) = fail service.ErrUserNotFound /\
    (forall req salt, fst (service.UpdateUser id req salt db) = fail service.ErrUserNotFound) /\
    fst (service.DeleteUser id db) = Some service.ErrUserNotFound.
Proof.
  intros hasher db id H Hnone.
  assert (forall x, In x (gorm.rows db) ->
                    gorm.selected (gorm.WherePrimaryKey id) x = false) as Hsel.
  { intros x Hx. unfold gorm.selected. simpl.
    destruct (N.eqb (User.ID x) id) eqn:E; [|reflexivity].
    apply N.eqb_eq in E. now rewrite (Hnone x Hx E). }
  assert (GormUserRepository.GetByID id db = (fail ErrNotFound, gorm.tick db)) as Eg
      by (apply get_missing; auto).
  repeat split.
  - unfold service.GetUser. simpl. now rewrite Eg.
  - intros req salt. unfold service.UpdateUser. simpl. now rewrite Eg.
  - unfold service.DeleteUser. simpl. rewrite Delete_healthy by assumption.
    cbv zeta. now rewrite filter_nothing.
Qed.

(** C6 on the sample table, where no row has id 7. *)
Lemma missing_id_is_ErrUserNotFound_witness :
  fst (service.GetUser 7 sample.db) = fail service.ErrUserNotFound /\
  fst (service.UpdateUser (hasher := sample.scheme) 7 sample.rename "salt" sample.db)
  = fail service.ErrUserNotFound /\
  fst (service.DeleteUser 7 sample.db) = Some service.ErrUserNotFound.
Proof.
  assert (forall r, In r (gorm.rows sample.db) -> User.ID r = 7%N -> gorm.live r = false)
    as Hnone by (intros r [<-|[<-|[]]]; discriminate).
  destruct (missing_id_is_ErrUserNotFound sample.scheme sample.db 7 eq_refl Hnone)
    as (Hget & Hupd & Hdel).
  split; [exact Hget|]. split; [apply Hupd | exact Hdel].
Defined.

(** C7.  On the GORM store, DeleteUser of the id of a live user succeeds;
    afterwards the table has as many rows as before and holds the user's row
    with the deletion mark set, GetUser of the id answers ErrUserNotFound,
    and no page of ListUsers shows the id. *)
Theorem DeleteUser_soft_deletes :
  forall (db : gorm.DB) (id : N) (user : User.t),
    gorm.healthy db ->
    In user (gorm.rows db) -> User.ID user = id -> gorm.live user = true ->
    exists db',
      service.DeleteUser id db = (None, db') /\
      List.length (gorm.rows db') = List.length (gorm.rows db) /\
      In (gorm.set_DeletedAt user (gorm.clock db)) (gorm.rows db') /\
      fst (service.GetUser id db') = fail service.ErrUserNotFound /\
      (forall page pageSize views total,
          fst (service.ListUsers page pageSize db') = ok (views, total) ->
          forall view, In view views -> service.UserResponse.ID view <> id).
Proof.
  intros db id user H Hin Hid Hl.
  set (hit := gorm.selected (gorm.WherePrimaryKey id)).
  set (mark := fun r => if hit r then gorm.set_DeletedAt r (gorm.clock db) else r).
  set (db' := gorm.with_rows (gorm.tick db) (map mark (gorm.rows db))).
  assert (hit user = true) as Hhit.
  { unfold hit, gorm.selected. simpl. rewrite Hl, andb_true_r. now apply N.eqb_eq. }
  assert (gorm.healthy db') as H' by exact (tick_healthy db H).
  assert (forall x, In x (gorm.rows db') -> hit x = false) as Hgone.
  { intros x Hx. simpl in Hx. apply in_map_iff in Hx as (r & <- & Hr).
    unfold mark. destruct (hit r) eqn:E; [|exact E].
    unfold hit, gorm.selected. simpl. apply andb_false_r. }
  exists db'. split; [|split; [|split; [|split]]].
  - unfold service.DeleteUser. simpl. rewrite Delete_healthy by assumption.
    cbv zeta. fold hit. fold mark. fold db'.
    destruct (filter hit (gorm.rows db)) as [|y l] eqn:Ef.
    + exfalso. assert (In user (filter hit (gorm.rows db))) as Hf
          by (apply filter_In; auto).
      rewrite Ef in Hf. exact Hf.
    + reflexivity.
  - simpl. apply length_map.
  - simpl. apply in_map_iff. exists user. split; [|exact Hin].
    unfold mark. now rewrite Hhit.
  - unfold service.GetUser. simpl. unfold GormUserRepository.GetByID.
    rewrite get_missing; auto.
  - intros page pageSize views total. unfold service.ListUsers. simpl.
    rewrite List_healthy by assumption. simpl.
    intros Heq view Hv Eid. inversion Heq; subst views.
    apply in_map_iff in Hv as (u & <- & Hu).
    apply In_page, In_order_created_desc, filter_In in Hu as [Hu Hlive].
    specialize (Hgone u Hu). unfold hit, gorm.selected in Hgone. simpl in Hgone, Eid.
    rewrite Hlive, andb_true_r in Hgone. apply N.eqb_neq in Hgone. auto.
Qed.

(** C7 on the sample table: [bob] is deleted. *)
Lemma DeleteUser_soft_deletes_witness :
  exists db',
    service.DeleteUser 2 sample.db = (None, db') /\
    List.length (gorm.rows db') = 2%nat /\
    In (gorm.set_DeletedAt sample.bob 2000) (gorm.rows db') /\
    fst (service.GetUser 2 db') = fail service.ErrUserNotFound /\
    fst (service.ListUsers 1 10 db') = ok ([service.mapUserToResponse sample.alice], 1).
Proof.
  destruct (DeleteUser_soft_deletes sample.db 2 sample.bob eq_refl
              (or_intror (or_introl eq_refl)) eq_refl eq_refl)
    as (db' & Ed & El & Ein & Eg & _).
  exists db'. repeat split; auto.
  assert (db' = snd (service.DeleteUser 2 sample.db)) as -> by now rewrite Ed.
  reflexivity.
Defined.



Section UpdateFacts.



End UpdateFacts.



(** C10.  When the look-up by id has succeeded and the store's Update of the
    prepared record fails, UpdateUser answers the very error of the store;
    ErrNotFound, ErrConflict and ErrDatabase of the repository are then not
    ErrUserNotFound or ErrUserAlreadyExists of the service.  A NotFound of
    the look-up itself, however, is turned into ErrUserNotFound. *)
Theorem UpdateUser_passes_on_Update_error :
  forall (S : Type) (repo : UserRepository S) (hasher : bcrypt.Scheme)
         (id : N) (req : service.UpdateUserRequest.t) (salt : string) (s : S),
    (forall user s1 prepared err left s2,
        GetByID id s = (ok user, s1) ->
        (let named :=
           service.set_names user (service.UpdateUserRequest.FirstName req)
                                  (service.UpdateUserRequest.LastName req) in
         if String.eqb (service.UpdateUserRequest.Password req) ""
         then prepared = named
         else exists hash,
             bcrypt.GenerateFromPassword
               (service.UpdateUserRequest.Password req) bcrypt.DefaultCost salt = ok hash /\
             prepared = service.set_PasswordHash named hash) ->
        Update prepared s1 = (Some err, left, s2) ->
        service.UpdateUser id req salt s = (fail err, s2) /\
        (In err [ErrNotFound; ErrConflict; ErrDatabase] ->
         err <> service.ErrUserNotFound /\ err <> service.ErrUserAlreadyExists))
    /\
    (forall err s1,
        GetByID id s = (fail err, s1) ->
        Is err ErrNotFound = true ->
        service.UpdateUser id req salt s = (fail service.ErrUserNotFound, s1)).
Proof.
  intros S repo hasher id req salt s. split.
  - intros user s1 prepared err left s2 Eg Hprep Eu. split.
    + unfold service.UpdateUser. rewrite Eg. cbv zeta in Hprep.
      destruct (String.eqb (service.UpdateUserRequest.Password req) ""); simpl.
      * subst prepared. now rewrite Eu.
      * destruct Hprep as (hash & Eh & ->). rewrite Eh. now rewrite Eu.
    + intros [<-|[<-|[<-|[]]]]; split; discriminate.
  - intros err s1 Eg Hnf. unfold service.UpdateUser. now rewrite Eg, Hnf.
Qed.

(** C10 on the sample table: the connection breaks between the look-up and
    the update of [bob]; and a look-up of an id nobody has. *)
Lemma UpdateUser_passes_on_Update_error_witness :
  (exists s2,
      service.UpdateUser (hasher := sample.scheme) 2 sample.rename "salt4"
        (sample.table [None; Some sample.broken_pipe])
      = (fail ErrDatabase, s2))
  /\
  (exists s1,
      service.UpdateUser (hasher := sample.scheme) 7 sample.rename "salt4" sample.db
      = (fail service.ErrUserNotFound, s1)).
Proof.
  split.
  - eexists.
    eapply (proj1 (proj1 (UpdateUser_passes_on_Update_error
                            gorm.DB NewUserRepository sample.scheme 2 sample.rename "salt4"
                            (sample.table [None; Some sample.broken_pipe]))
                     sample.bob
                     (gorm.tick (sample.table [None; Some sample.broken_pipe]))
                     (service.set_names sample.bob "Robert" "")
                     ErrDatabase _ _ eq_refl eq_refl _)).
    Unshelve. 3: (lazy; reflexivity).
  - eexists.
    eapply (proj2 (UpdateUser_passes_on_Update_error
                     gorm.DB NewUserRepository sample.scheme 7 sample.rename "salt4"
                     sample.db) ErrNotFound _ eq_refl eq_refl).
Defined.

(** C4 as it is stated does not hold: the offset is computed in [int], and
    for page 2^62 + 1 and page size 4 it wraps around to 0, so the service
    shows the first page where the specification's offset, 2^64, is past
    every row. *)
Lemma ListUsers_offset_wraps_around :
  fst (service.ListUsers sample.far_page 4 sample.db)
  = ok ([service.mapUserToResponse sample.bob; service.mapUserToResponse sample.alice], 2)
  /\
  fst (specification.ListUsers sample.far_page 4 sample.db) = ok ([], 2)
  /\
  service.ListUsers sample.far_page 4 sample.db
  <> specification.ListUsers sample.far_page 4 sample.db.
Proof.
  assert (fst (service.ListUsers sample.far_page 4 sample.db)
          = ok ([service.mapUserToResponse sample.bob;
                 service.mapUserToResponse sample.alice], 2)) as Hcode
      by (vm_compute; reflexivity).
  assert (fst (specification.ListUsers sample.far_page 4 sample.db) = ok ([], 2)) as Hspec.
  { unfold specification.ListUsers.
    change (if Z.ltb sample.far_page 1 then 1 else sample.far_page) with sample.far_page.
    change (if Z.ltb 4 1 then 10 else 4) with 4.
    change (List ((sample.far_page - 1) * 4) 4 sample.db)
      with (GormUserRepository.List ((sample.far_page - 1) * 4) 4 sample.db).
    rewrite List_healthy by reflexivity.
    unfold gorm.page.
    change (Z.ltb 0 ((sample.far_page - 1) * 4)) with true. cbv iota.
    rewrite skipn_all2.
    - reflexivity.
    - change ((sample.far_page - 1) * 4) with 18446744073709551616.
      change (List.length
                (gorm.order_created_desc (filter gorm.live (gorm.rows sample.db))))
        with 2%nat.
      lia. }
  split; [exact Hcode|]. split; [exact Hspec|].
  intros E. apply (f_equal fst) in E.
  rewrite Hcode, Hspec in E. discriminate E.
Qed.

(** C4, amended.  ListUsers takes page 1 for a page below 1 and page size
    10 for a page size below 1, and asks the store for as many rows as the
    page size, whatever its size, from the offset (page - 1) x pageSize
    reduced to the range of [int]; the offset is the product itself, and
    ListUsers what the specification says, when the product is in that
    range.  ListUsers(0, 0) is ListUsers(1, 10). *)
Theorem ListUsers_paging :
  forall (S : Type) (repo : UserRepository S) (page pageSize : Z) (s : S),
    let p := if Z.ltb page 1 then 1 else page in
    let n := if Z.ltb pageSize 1 then 10 else pageSize in
    service.ListUsers page pageSize s
    = match List (Go.wrap ((p - 1) * n)) n s with
      | (fail err, s1) => (fail err, s1)
      | (ok (users, count), s1) => (ok (map service.mapUserToResponse users, count), s1)
      end
    /\
    ((p - 1) * n <= Go.max_int ->
     Go.wrap ((p - 1) * n) = (p - 1) * n /\
     service.ListUsers page pageSize s = specification.ListUsers page pageSize s)
    /\
    service.ListUsers 0 0 s = service.ListUsers 1 10 s.
Proof.
  intros S repo page pageSize s p n.
  assert (service.ListUsers page pageSize s
          = match List (Go.wrap ((p - 1) * n)) n s with
            | (fail err, s1) => (fail err, s1)
            | (ok (users, count), s1) =>
                (ok (map service.mapUserToResponse users, count), s1)
            end) as Hcode.
  { unfold service.ListUsers. fold p. fold n. now rewrite mul_sub_wrap. }
  split; [exact Hcode|]. split; [|reflexivity].
  intros Hfit.
  assert (1 <= p) by (unfold p; destruct (Z.ltb_spec page 1); lia).
  assert (1 <= n) by (unfold n; destruct (Z.ltb_spec pageSize 1); lia).
  assert (Go.wrap ((p - 1) * n) = (p - 1) * n) as Hw.
  { apply wrap_small. unfold Go.min_int. split; [|exact Hfit].
    assert (0 <= (p - 1) * n) by (apply Z.mul_nonneg_nonneg; lia). lia. }
  split; [exact Hw|].
  rewrite Hcode, Hw. reflexivity.
Qed.

(** C4 on the sample table: the second page of size 1, and defaults. *)
Lemma ListUsers_paging_witness :
  fst (service.ListUsers 2 1 sample.db) = ok ([service.mapUserToResponse sample.alice], 2)
  /\ service.ListUsers 2 1 sample.db = specification.ListUsers 2 1 sample.db
  /\ service.ListUsers 0 0 sample.db = service.ListUsers 1 10 sample.db.
Proof.
  destruct (ListUsers_paging gorm.DB NewUserRepository 2 1 sample.db) as (Hc & Hs & _).
  destruct (ListUsers_paging gorm.DB NewUserRepository 0 0 sample.db) as (_ & _ & Hd).
  split; [|split].
  - rewrite Hc. reflexivity.
  - apply Hs. simpl. unfold Go.max_int. lia.
  - exact Hd.
Defined.

Section ViewFacts.

(** A successful Update of a struct whose id a live row has leaves the
    struct it returns in the table. *)
Lemma Update_ok_row (user saved : User.t) (db db' : gorm.DB) :
  GormUserRepository.Update user db = (None, saved, db') ->
  (exists current,
      In current (gorm.rows db) /\
      gorm.selected (gorm.WherePrimaryKey (User.ID user)) current = true) ->
  In saved (gorm.rows db').
Proof.
  intros Hupd (current & Hin & Hsel).
  unfold GormUserRepository.Update, gorm.Save in Hupd.
  destruct (N.eqb (User.ID user) 0).
  - destruct (gorm.Create user db) as [[result created] db1] eqn:Ec.
    destruct result as [[e|] n]; cbn [gorm.Error gorm.RowsAffected] in Hupd.
    + destruct (GormUserRepository.isUniqueConstraintError (Some e)); discriminate.
    + destruct (Z.eqb n 0); [discriminate|]. inversion Hupd; subst.
      assert (GormUserRepository.Create user db = (None, saved, db')) as Hc
          by (unfold GormUserRepository.Create; rewrite Ec; reflexivity).
      apply Create_ok in Hc as (-> & _). apply in_or_app. right. now left.
  - unfold gorm.begin in Hupd.
    destruct (hd None (gorm.faults db)) as [e|]; cbn [gorm.Error gorm.failed] in Hupd.
    { destruct (GormUserRepository.isUniqueConstraintError (Some e)); discriminate. }
    cbn [gorm.rows gorm.tick] in Hupd.
    assert (existsb (gorm.selected (gorm.WherePrimaryKey (User.ID user))) (gorm.rows db)
            = true) as Hex by (apply existsb_exists; eauto).
    rewrite Hex in Hupd.
    destruct (gorm.unique_violation _ _) as [e|];
      cbn [gorm.Error gorm.failed gorm.done gorm.RowsAffected] in Hupd.
    { destruct (GormUserRepository.isUniqueConstraintError (Some e)); discriminate. }
    destruct (Z.eqb _ 0); [discriminate|]. inversion Hupd; subst. simpl.
    apply in_map_iff. exists current. now rewrite Hsel.
Qed.

Lemma UpdateUser_ok_row (hasher : bcrypt.Scheme) (id : N)
      (req : service.UpdateUserRequest.t) (salt : string) (db db' : gorm.DB)
      (view : service.UserResponse.t) :
  service.UpdateUser id req salt db = (ok view, db') ->
  exists row, In row (gorm.rows db') /\ view = service.mapUserToResponse row.
Proof.
  unfold service.UpdateUser. simpl. unfold GormUserRepository.GetByID.
  destruct (GormUserRepository.get (gorm.WherePrimaryKey id) db) as [[user|err] s1] eqn:Eg.
  - apply get_ok in Eg as (Hin & Hsel & Erows).
    assert (User.ID user = id) as Hid.
    { unfold gorm.selected in Hsel. apply andb_true_iff in Hsel as [Hh _].
      now apply N.eqb_eq. }
    set (named := service.set_names user _ _).
    assert (forall prepared,
               User.ID prepared = id ->
               match GormUserRepository.Update prepared s1 with
               | (Some err, _, s2) => (fail err, s2)
               | (None, user', s2) => (ok (service.mapUserToResponse user'), s2)
               end = (ok view, db') ->
               exists row, In row (gorm.rows db') /\ view = service.mapUserToResponse row)
      as Hfinish.
    { intros prepared Hp.
      destruct (GormUserRepository.Update prepared s1) as [[[err|] saved] s2] eqn:Eu;
        [discriminate|].
      intros Heq. inversion Heq; subst. exists saved. split; [|reflexivity].
      apply (Update_ok_row prepared saved s1 db' Eu).
      exists user. rewrite Erows, Hp. auto. }
    destruct (String.eqb (service.UpdateUserRequest.Password req) ""); simpl.
    + apply Hfinish. exact Hid.
    + destruct (bcrypt.GenerateFromPassword _ _ _) as [hash|err]; [|discriminate].
      apply Hfinish. exact Hid.
  - destruct (Is err ErrNotFound); discriminate.
Qed.

End ViewFacts.

(** C9.  The public view of a user is made of the user's id, username,
    e-mail address, first and last name, active flag and the two time
    stamps, and of nothing else: it is the same view whatever the password
    hash.  On the GORM store every successful answer of an operation of the
    service is such a view of a row of the table (GetUser, AuthenticateUser
    and ListUsers: of the table as it was; CreateUser and UpdateUser: as it
    has become). *)
Theorem public_view_has_no_PasswordHash :
  (forall user,
      service.mapUserToResponse user
      = service.UserResponse.mk (User.ID user) (User.Username user) (User.Email user)
          (User.FirstName user) (User.LastName user) (User.IsActive user)
          (User.CreatedAt user) (User.UpdatedAt user))
  /\
  (forall user hash,
      service.mapUserToResponse (service.set_PasswordHash user hash)
      = service.mapUserToResponse user)
  /\
  (forall (hasher : bcrypt.Scheme) (db db' : gorm.DB),
      (forall req salt view,
          service.CreateUser req salt db = (ok view, db') ->
          exists row, In row (gorm.rows db') /\ view = service.mapUserToResponse row)
      /\
      (forall id view,
          service.GetUser id db = (ok view, db') ->
          exists row, In row (gorm.rows db) /\ view = service.mapUserToResponse row)
      /\
      (forall id req salt view,
          service.UpdateUser id req salt db = (ok view, db') ->
          exists row, In row (gorm.rows db') /\ view = service.mapUserToResponse row)
      /\
      (forall email password view,
          service.AuthenticateUser email password db = (ok view, db') ->
          exists row, In row (gorm.rows db) /\ view = service.mapUserToResponse row)
      /\
      (forall page pageSize views total,
          service.ListUsers page pageSize db = (ok (views, total), db') ->
          exists users,
            (forall user, In user users -> In user (gorm.rows db)) /\
            views = map service.mapUserToResponse users)).
Proof.
  split; [reflexivity|]. split; [reflexivity|].
  intros hasher db db'. repeat split.
  - intros req salt view Hok.
    destruct (CreateUser_ok req salt db db' view Hok)
      as (err & s1 & hash & created & _ & _ & Ec & ->).
    simpl in Ec. apply Create_ok in Ec as (Erows & _).
    exists created. split; [|reflexivity].
    rewrite Erows. apply in_or_app. right. now left.
  - intros id view. unfold service.GetUser. simpl. unfold GormUserRepository.GetByID.
    destruct (GormUserRepository.get _ db) as [[user|err] s1] eqn:Eg.
    + intros Heq. inversion Heq; subst. apply get_ok in Eg as (Hin & _). eauto.
    + destruct (Is err ErrNotFound); discriminate.
  - intros id req salt view. apply UpdateUser_ok_row.
  - intros email password view. unfold service.AuthenticateUser. simpl.
    unfold GormUserRepository.GetByEmail.
    destruct (GormUserRepository.get _ db) as [[user|err] s1] eqn:Eg.
    + destruct (bcrypt.CompareHashAndPassword _ _); [discriminate|].
      intros Heq. inversion Heq; subst. apply get_ok in Eg as (Hin & _). eauto.
    + destruct (Is err ErrNotFound); discriminate.
  - intros page pageSize views total. unfold service.ListUsers. simpl.
    match goal with
    | |- context [GormUserRepository.List ?o ?l db] =>
        destruct (GormUserRepository.List o l db) as [[[users count]|err] s1] eqn:El
    end; [|discriminate].
    intros Heq. inversion Heq; subst. exists users. split; [|reflexivity].
    intros user Hu. now destruct (List_ok _ _ _ _ _ _ El user Hu).
Qed.

(** C9 on the sample table: the view that a log-in of [bob] gets. *)
Lemma public_view_has_no_PasswordHash_witness :
  exists row,
    In row (gorm.rows sample.db) /\
    fst (service.AuthenticateUser (hasher := sample.scheme)
           "bob@example.com" "hunter2" sample.db)
    = ok (service.UserResponse.mk (User.ID row) (User.Username row) (User.Email row)
            (User.FirstName row) (User.LastName row) (User.IsActive row)
            (User.CreatedAt row) (User.UpdatedAt row)).
Proof.
  destruct (proj1 (proj2 (proj2 (proj2 (proj2 (proj2 public_view_has_no_PasswordHash)
                                          sample.scheme sample.db (gorm.tick sample.db)))))
              "bob@example.com" "hunter2" (service.mapUserToResponse sample.bob) eq_refl)
    as (row & Hin & Hview).
  exists row. split; [exact Hin|].
  rewrite <- (proj1 public_view_has_no_PasswordHash row), <- Hview. reflexivity.
Defined.

(** * The keys stay unique

    The hypothesis [gorm.consistent] of the theorems above is an invariant:
    every operation of the store, hence of the repository and of the
    service, keeps [gorm.well_formed]. *)

Section Invariant.

Lemma unique_keys_snoc (rs : list User.t) (row : User.t) :
  gorm.unique_keys rs ->
  gorm.unique_violation row rs = None ->
  User.ID row <> 0%N ->
  gorm.unique_keys (rs ++ [row]).
Proof.
  intros (Hid & Hname & Hmail & Hnz) Hfree Hrow.
  assert (forall {K : Type} (key : User.t -> K),
             NoDup (map key rs) ->
             (forall x, In x rs -> key x <> key row) ->
             NoDup (map key (rs ++ [row]))) as Hsnoc.
  { intros K key ND Hne. rewrite map_app. apply NoDup_app; auto.
    - simpl. constructor; [intros []|constructor].
    - intros a Ha [<-|[]]. apply in_map_iff in Ha as (x & E & Hx).
      now apply (Hne x Hx). }
  repeat split.
  - apply Hsnoc; auto. intros x Hx. now apply (unique_violation_none row x rs).
  - apply Hsnoc; auto. intros x Hx. now apply (unique_violation_none row x rs).
  - apply Hsnoc; auto. intros x Hx. now apply (unique_violation_none row x rs).
  - rewrite map_app. intros Hin. apply in_app_or in Hin as [Hin|[E|[]]]; auto.
Qed.

(** Rows selected by [p], all of one id, are rewritten by [h], which keeps
    the id and writes one username and one e-mail address that no row of
    another id has. *)
Lemma unique_keys_replace (rs : list User.t) (p : User.t -> bool)
      (h : User.t -> User.t) (id : N) (name email : string) :
  gorm.unique_keys rs ->
  (forall r, p r = true ->
             User.ID r = id /\ User.ID (h r) = id /\
             User.Username (h r) = name /\ User.Email (h r) = email) ->
  (forall x, In x rs -> User.ID x <> id ->
             User.Username x <> name /\ User.Email x <> email) ->
  gorm.unique_keys (map (fun r => if p r then h r else r) rs).
Proof.
  intros (Hid & Hname & Hmail & Hnz) Hp Hothers.
  set (g := fun r => if p r then h r else r).
  assert (map User.ID (map g rs) = map User.ID rs) as Eids.
  { rewrite map_map. apply map_ext. intros r. unfold g.
    destruct (p r) eqn:E; [|reflexivity]. destruct (Hp r E) as (-> & -> & _).
    reflexivity. }
  assert (forall {K : Type} (key : User.t -> K) (k : K),
             NoDup (map key rs) ->
             (forall r, p r = true -> key (h r) = k) ->
             (forall x, In x rs -> User.ID x <> id -> key x <> k) ->
             NoDup (map key (map g rs))) as Hkey.
  { intros K key k ND Hk Hne. clear Hname Hmail Hnz Eids Hothers.
    induction rs as [|x l IH]; simpl; [constructor|].
    inversion Hid as [|? ? Hxid Hid']; subst.
    inversion ND as [|? ? Hxkey ND']; subst.
    constructor.
    - intros Hin. apply in_map_iff in Hin as (gy & E & Hgy).
      apply in_map_iff in Hgy as (y & <- & Hy).
      assert (User.ID y <> User.ID x) as Hyx
          by (intros Eid; apply Hxid; rewrite <- Eid; now apply in_map).
      unfold g in E. destruct (p x) eqn:Epx, (p y) eqn:Epy.
      + destruct (Hp x Epx) as (Ex & _), (Hp y Epy) as (Ey & _). congruence.
      + rewrite (Hk x Epx) in E. destruct (Hp x Epx) as (Ex & _).
        apply (Hne y); [now right | congruence | exact E].
      + rewrite (Hk y Epy) in E. destruct (Hp y Epy) as (Ey & _).
        apply (Hne x); [now left | congruence | now symmetry].
      + apply Hxkey. rewrite <- E. now apply in_map.
    - apply IH; auto. intros y Hy. apply Hne. now right. }
  repeat split.
  - now rewrite Eids.
  - apply (Hkey _ User.Username name); auto.
    + intros r E. now destruct (Hp r E) as (_ & _ & ? & _).
    + intros x Hx Hne. now destruct (Hothers x Hx Hne).
  - apply (Hkey _ User.Email email); auto.
    + intros r E. now destruct (Hp r E) as (_ & _ & _ & ?).
    + intros x Hx Hne. now destruct (Hothers x Hx Hne).
  - now rewrite Eids.
Qed.

Lemma well_formed_tick (d : gorm.DB) : gorm.well_formed d -> gorm.well_formed (gorm.tick d).
Proof. intros H. exact H. Qed.

Lemma well_formed_insert (u : User.t) (d : gorm.DB) :
  gorm.well_formed d -> gorm.well_formed (snd (gorm.insert u d)).
Proof.
  intros (Hc & Hseq). unfold gorm.insert.
  destruct (N.eqb (User.ID u) 0) eqn:E0;
    match goal with
    | |- context [match gorm.unique_violation ?row ?rs with _ => _ end] =>
        destruct (gorm.unique_violation row rs) eqn:Ev
    end; simpl; split; simpl; auto; try lia.
  - apply unique_keys_snoc; auto.
  - apply unique_keys_snoc; auto. simpl. now apply N.eqb_neq.
Qed.

Lemma well_formed_Create (u : User.t) (d : gorm.DB) :
  gorm.well_formed d -> gorm.well_formed (snd (gorm.Create u d)).
Proof.
  intros H. unfold gorm.Create, gorm.begin.
  destruct (hd None (gorm.faults d)); [exact H|].
  apply well_formed_insert. exact H.
Qed.

Lemma well_formed_Delete (c : gorm.Cond) (d : gorm.DB) :
  gorm.well_formed d -> gorm.well_formed (snd (gorm.Delete c d)).
Proof.
  intros H. unfold gorm.Delete, gorm.begin.
  destruct (hd None (gorm.faults d)); [exact H|].
  destruct H as (Hc & Hseq). split; [|exact Hseq].
  unfold gorm.consistent, gorm.unique_keys in *. simpl.
  rewrite !map_map.
  assert (forall {K : Type} (key : User.t -> K),
             (forall r now, key (gorm.set_DeletedAt r now) = key r) ->
             map (fun r => key (if gorm.selected c r
                                then gorm.set_DeletedAt r (gorm.clock d) else r))
                 (gorm.rows d)
             = map key (gorm.rows d)) as E.
  { intros K key Hk. apply map_ext. intros r. destruct (gorm.selected c r); auto. }
  rewrite (E _ User.ID), (E _ User.Username), (E _ User.Email) by reflexivity.
  exact Hc.
Qed.

Lemma well_formed_Save (u : User.t) (d : gorm.DB) :
  gorm.well_formed d -> gorm.well_formed (snd (gorm.Save u d)).
Proof.
  intros H. unfold gorm.Save.
  destruct (N.eqb (User.ID u) 0) eqn:E0; [now apply well_formed_Create|].
  unfold gorm.begin at 1. destruct (hd None (gorm.faults d)); [exact H|].
  cbn [gorm.rows gorm.tick].
  set (others := filter (fun r => negb (N.eqb (User.ID r) (User.ID u))) (gorm.rows d)).
  assert (forall x, In x (gorm.rows d) -> User.ID x <> User.ID u -> In x others) as Hoth.
  { intros x Hx Hne. apply filter_In. split; auto.
    apply negb_true_iff. now apply N.eqb_neq. }
  destruct (existsb _ (gorm.rows d)).
  - destruct (gorm.unique_violation _ others) eqn:Ev; [exact H|].
    destruct H as (Hc & Hseq). split; [|exact Hseq].
    unfold gorm.consistent. simpl.
    apply (unique_keys_replace _ _ _ (User.ID u)
             (User.Username u) (User.Email u)); auto.
    + intros r Hsel. unfold gorm.selected in Hsel.
      apply andb_true_iff in Hsel as [Hh _]. simpl in Hh. apply N.eqb_eq in Hh.
      repeat split; auto.
    + intros x Hx Hne.
      destruct (unique_violation_none _ x others Ev (Hoth x Hx Hne)) as (_ & Hn & Hm).
      auto.
  - unfold gorm.begin. destruct (hd None (gorm.faults (gorm.tick d))); [exact H|].
    cbn [gorm.rows gorm.tick].
    destruct (existsb _ (gorm.rows d)).
    + destruct (gorm.unique_violation _ others) eqn:Ev; [exact H|].
      destruct H as (Hc & Hseq). split; [|exact Hseq].
      unfold gorm.consistent. simpl.
      apply (unique_keys_replace _ _ _ (User.ID u)
               (User.Username u) (User.Email u)); auto.
      * intros r Hh. simpl in Hh. apply N.eqb_eq in Hh. repeat split; auto.
      * intros x Hx Hne.
        destruct (unique_violation_none _ x others Ev (Hoth x Hx Hne)) as (_ & Hn & Hm).
        auto.
    + apply well_formed_insert. exact H.
Qed.

(** The repository keeps the store well formed. *)
Lemma well_formed_repository (d : gorm.DB) :
  gorm.well_formed d ->
  (forall u, gorm.well_formed (snd (GormUserRepository.Create u d))) /\
  (forall c, gorm.well_formed (snd (GormUserRepository.get c d))) /\
  (forall offset limit, gorm.well_formed (snd (GormUserRepository.List offset limit d))) /\
  (forall u, gorm.well_formed (snd (GormUserRepository.Update u d))) /\
  (forall id, gorm.well_formed (snd (GormUserRepository.Delete id d))).
Proof.
  intros H. split; [|split; [|split; [|split]]].
  - intros u. pose proof (well_formed_Create u d H) as W.
    unfold GormUserRepository.Create.
    destruct (gorm.Create u d) as [[[[e|] n] u'] d']; cbn [gorm.Error]; simpl in *.
    + destruct (String.eqb _ _); exact W.
    + exact W.
  - intros c. unfold GormUserRepository.get, gorm.First, gorm.begin.
    destruct (hd None (gorm.faults d)) as [e|]; cbn [gorm.Error gorm.failed].
    + destruct (Is e gorm.ErrRecordNotFound); exact H.
    + destruct (gorm.first_by_id _); exact H.
  - intros offset limit.
    unfold GormUserRepository.List, gorm.Count, gorm.Find, gorm.begin.
    destruct (hd None (gorm.faults d)); cbn [gorm.Error gorm.failed gorm.done];
      [exact H|].
    destruct (hd None (gorm.faults (gorm.tick d))); exact H.
  - intros u. pose proof (well_formed_Save u d H) as W.
    unfold GormUserRepository.Update.
    destruct (gorm.Save u d) as [[[[e|] n] u'] d']; cbn [gorm.Error gorm.RowsAffected];
      simpl in *.
    + destruct (String.eqb _ _); exact W.
    + destruct (Z.eqb n 0); exact W.
  - intros id. pose proof (well_formed_Delete (gorm.WherePrimaryKey id) d H) as W.
    unfold GormUserRepository.Delete.
    destruct (gorm.Delete _ d) as [[[e|] n] d']; cbn [gorm.Error gorm.RowsAffected];
      simpl in *; [exact W|].
    destruct (Z.eqb n 0); exact W.
Qed.

(** So does the service. *)
Lemma well_formed_service (hasher : bcrypt.Scheme) (d : gorm.DB) :
  gorm.well_formed d ->
  (forall req salt, gorm.well_formed (snd (service.CreateUser req salt d))) /\
  (forall id, gorm.well_formed (snd (service.GetUser id d))) /\
  (forall page pageSize, gorm.well_formed (snd (service.ListUsers page pageSize d))) /\
  (forall id req salt, gorm.well_formed (snd (service.UpdateUser id req salt d))) /\
  (forall id, gorm.well_formed (snd (service.DeleteUser id d))) /\
  (forall email password,
      gorm.well_formed (snd (service.AuthenticateUser email password d))).
Proof.
  intros H.
  assert (forall c, gorm.well_formed (snd (GormUserRepository.get c d))) as Hget
      by apply (well_formed_repository d H).
  split; [|split; [|split; [|split; [|split]]]].
  - intros req salt. unfold service.CreateUser. simpl.
    unfold GormUserRepository.GetByEmail.
    specialize (Hget (gorm.WhereEmail (service.CreateUserRequest.Email req))).
    destruct (GormUserRepository.get _ d) as [[existing|err] s1]; simpl in Hget;
      [exact Hget|].
    destruct (Is err ErrNotFound); simpl; [|exact Hget].
    destruct (bcrypt.GenerateFromPassword _ _ _) as [hash|err']; [|exact Hget].
    match goal with
    | |- context [GormUserRepository.Create ?u s1] =>
        pose proof (proj1 (well_formed_repository s1 Hget) u) as W;
        destruct (GormUserRepository.Create u s1) as [[[err'|] created] s2]
    end; simpl in W.
    + destruct (Is err' ErrConflict); exact W.
    + exact W.
  - intros id. unfold service.GetUser. simpl. unfold GormUserRepository.GetByID.
    specialize (Hget (gorm.WherePrimaryKey id)).
    destruct (GormUserRepository.get _ d) as [[user|err] s1]; simpl in Hget;
      [exact Hget|].
    destruct (Is err ErrNotFound); exact Hget.
  - intros page pageSize. unfold service.ListUsers. simpl.
    match goal with
    | |- context [GormUserRepository.List ?o ?l d] =>
        pose proof (proj1 (proj2 (proj2 (well_formed_repository d H))) o l) as W;
        destruct (GormUserRepository.List o l d) as [[[users count]|err] s1]
    end; exact W.
  - intros id req salt. unfold service.UpdateUser. simpl.
    unfold GormUserRepository.GetByID.
    specialize (Hget (gorm.WherePrimaryKey id)).
    destruct (GormUserRepository.get _ d) as [[user|err] s1]; simpl in Hget.
    + assert (forall u,
                 gorm.well_formed
                   (snd (match GormUserRepository.Update u s1 with
                         | (Some err, _, s2) => (fail err, s2)
                         | (None, user', s2) => (ok (service.mapUserToResponse user'), s2)
                         end))) as Hfinish.
      { intros u.
        pose proof (proj1 (proj2 (proj2 (proj2 (well_formed_repository s1 Hget)))) u) as W.
        destruct (GormUserRepository.Update u s1) as [[[err|] saved] s2]; exact W. }
      destruct (String.eqb (service.UpdateUserRequest.Password req) ""); simpl.
      * apply Hfinish.
      * destruct (bcrypt.GenerateFromPassword _ _ _) as [hash|err]; [|exact Hget].
        apply Hfinish.
    + destruct (Is err ErrNotFound); exact Hget.
  - intros id. unfold service.DeleteUser. simpl.
    pose proof (proj2 (proj2 (proj2 (proj2 (well_formed_repository d H)))) id) as W.
    destruct (GormUserRepository.Delete id d) as [[err|] s1]; simpl in W; [|exact W].
    destruct (Is err ErrNotFound); exact W.
  - intros email password. unfold service.AuthenticateUser. simpl.
    unfold GormUserRepository.GetByEmail.
    specialize (Hget (gorm.WhereEmail email)).
    destruct (GormUserRepository.get _ d) as [[user|err] s1]; simpl in Hget.
    + destruct (bcrypt.CompareHashAndPassword _ _); exact Hget.
    + destruct (Is err ErrNotFound); exact Hget.
Qed.

Lemma well_formed_empty (now : Time) : gorm.well_formed (gorm.empty now).
Proof.
  unfold gorm.well_formed, gorm.consistent, gorm.unique_keys. simpl.
  repeat split; try constructor; auto. discriminate.
Qed.

End Invariant.

(** * Further properties: parsing, handlers, middleware, configuration *)

(** * Parsing *)

Section ParseFacts.

Lemma digit_range (c : ascii) : strconv.is_digit c = true -> 0 <= strconv.digit c <= 9.
Proof.
  unfold strconv.is_digit, strconv.digit. intros H.
  apply andb_true_iff in H as [H1 H2].
  apply N.leb_le in H1, H2. lia.
Qed.

Lemma decimal_from_le (s : string) (n : Z) :
  numeral.all_digits s = true -> 0 <= n -> n <= numeral.decimal_from n s.
Proof.
  revert n. induction s as [|c s IH]; simpl; intros n H Hn; [lia|].
  apply andb_true_iff in H as [Hc Hs]. apply digit_range in Hc.
  specialize (IH (n * 10 + strconv.digit c) Hs). lia.
Qed.

(** The loop of [ParseUint] reads the numeral, and reports a numeral that
    is above the maximum. *)
Lemma digits_all_digits (maxVal : Z) (s : string) (n : Z) :
  maxVal <= strconv.maxUint64 -> numeral.all_digits s = true -> 0 <= n <= maxVal ->
  strconv.digits maxVal n s =
    if Z.leb (numeral.decimal_from n s) maxVal
    then (numeral.decimal_from n s, None)
    else (maxVal, Some strconv.ErrRange).
Proof.
  intros Hmax. revert n. induction s as [|c s IH]; simpl; intros n H Hn.
  - destruct (Z.leb_spec n maxVal); [reflexivity|lia].
  - apply andb_true_iff in H as [Hc Hs]. rewrite Hc.
    pose proof (digit_range c Hc) as Hd.
    pose proof (decimal_from_le s (n * 10 + strconv.digit c) Hs ltac:(lia)) as Hle.
    unfold strconv.maxUint64 in *.
    change (2 ^ 64) with 18446744073709551616 in *.
    change (Z.pow_pos 2 64) with 18446744073709551616.
    change ((18446744073709551616 - 1) / 10 + 1) with 1844674407370955162.
    destruct (Z.leb_spec 1844674407370955162 n) as [Hcut|Hcut].
    { destruct (Z.leb_spec (numeral.decimal_from (n * 10 + strconv.digit c) s) maxVal);
        [lia|reflexivity]. }
    destruct (Z_lt_le_dec (n * 10 + strconv.digit c) 18446744073709551616) as [Hfit|Hover].
    + rewrite Z.mod_small by lia.
      destruct (Z.ltb_spec (n * 10 + strconv.digit c) (n * 10)); [lia|].
      destruct (Z.ltb_spec maxVal (n * 10 + strconv.digit c)) as [Hbig|Hsmall]; simpl.
      * destruct (Z.leb_spec (numeral.decimal_from (n * 10 + strconv.digit c) s) maxVal);
          [lia|reflexivity].
      * apply IH; [exact Hs|lia].
    + assert ((n * 10 + strconv.digit c) mod 18446744073709551616
              = n * 10 + strconv.digit c - 18446744073709551616) as ->.
      { symmetry. apply (Z.mod_unique _ _ 1); lia. }
      destruct (Z.ltb_spec (n * 10 + strconv.digit c - 18446744073709551616) (n * 10));
        [|lia]. simpl.
      destruct (Z.leb_spec (numeral.decimal_from (n * 10 + strconv.digit c) s) maxVal);
        [lia|reflexivity].
Qed.

Lemma digits_not_all_digits (maxVal : Z) (s : string) (n : Z) :
  numeral.all_digits s = false -> snd (strconv.digits maxVal n s) <> None.
Proof.
  revert n. induction s as [|c s IH]; simpl; intros n H; [discriminate|].
  destruct (strconv.is_digit c); simpl in H; [|simpl; discriminate].
  destruct (Z.leb _ n); [simpl; discriminate|].
  destruct (_ || _)%bool; [simpl; discriminate|].
  now apply IH.
Qed.

Lemma ParseUint_is_id (s : string) :
  numeral.is_id s = true -> strconv.ParseUint s 32 = (numeral.decimal s, None).
Proof.
  unfold numeral.is_id, numeral.is_numeral, strconv.ParseUint. intros H.
  apply andb_true_iff in H as [H Hle]. apply andb_true_iff in H as [Hne Hd].
  apply negb_true_iff in Hne. rewrite Hne.
  rewrite digits_all_digits; [| unfold strconv.maxUint64; lia | exact Hd | lia ].
  apply Z.leb_le in Hle. unfold numeral.decimal in *.
  destruct (Z.leb_spec (numeral.decimal_from 0 s) (2 ^ 32 - 1)); [reflexivity|lia].
Qed.

Lemma ParseUint_not_id (s : string) :
  numeral.is_id s = false -> exists v e, strconv.ParseUint s 32 = (v, Some e).
Proof.
  unfold numeral.is_id, numeral.is_numeral, strconv.ParseUint. intros H.
  destruct (String.eqb s ""); [eauto|]. simpl in H.
  destruct (numeral.all_digits s) eqn:Hd.
  - simpl in H. apply Z.leb_gt in H. unfold numeral.decimal in H.
    rewrite digits_all_digits; [| unfold strconv.maxUint64; lia | exact Hd | lia ].
    destruct (Z.leb_spec (numeral.decimal_from 0 s) (2 ^ 32 - 1)); [lia|eauto].
  - pose proof (digits_not_all_digits (2 ^ 32 - 1) s 0 Hd) as Hs.
    destruct (strconv.digits (2 ^ 32 - 1) 0 s) as [v [e|]]; [eauto|].
    now contradiction Hs.
Qed.

Lemma wrap_range (z : Z) : Go.min_int <= Go.wrap z <= Go.max_int.
Proof.
  unfold Go.wrap, Go.min_int, Go.max_int.
  pose proof (Z.mod_pos_bound (z + 2 ^ 63) (2 ^ 64) ltac:(lia)). lia.
Qed.

(** [Atoi] of a numeral is its value when the value is an [int], and an
    error (with the largest [int]) when it is not. *)
Lemma Atoi_numeral (s : string) :
  numeral.is_numeral s = true ->
  strconv.Atoi s =
    if Z.leb (numeral.decimal s) Go.max_int
    then (numeral.decimal s, None)
    else (Go.max_int, Some (strconv.rangeError "Atoi" s)).
Proof.
  unfold numeral.is_numeral. intros H.
  apply andb_true_iff in H as [Hne Hd]. apply negb_true_iff in Hne.
  destruct s as [|c rest]; [discriminate|].
  pose proof Hd as Hd'. simpl in Hd'. apply andb_true_iff in Hd' as [Hc _].
  assert (Ascii.eqb c "+" = false /\ Ascii.eqb c "-" = false) as [Hplus Hminus].
  { split; apply Ascii.eqb_neq; intros ->; discriminate Hc. }
  unfold strconv.Atoi, strconv.ParseInt. rewrite Hplus, Hminus. simpl orb.
  cbv iota. unfold strconv.ParseUint. rewrite Hne.
  rewrite digits_all_digits; [| unfold strconv.maxUint64; lia | exact Hd | lia ].
  fold (numeral.decimal (String c rest)).
  pose proof (decimal_from_le (String c rest) 0 Hd ltac:(lia)) as Hpos.
  fold (numeral.decimal (String c rest)) in Hpos.
  set (v := numeral.decimal (String c rest)) in *.
  change Go.max_int with 9223372036854775807.
  change (2 ^ 64 - 1) with 18446744073709551615.
  change (2 ^ 63) with 9223372036854775808.
  change (9223372036854775808 - 1) with 9223372036854775807.
  destruct (Z.leb_spec v 9223372036854775807) as [Hint|Hint].
  - destruct (Z.leb_spec v 18446744073709551615); [|lia]. simpl negb. cbv iota.
    destruct (Z.leb_spec 9223372036854775808 v); [lia|]. simpl andb. cbv iota.
    rewrite wrap_small by (unfold Go.min_int, Go.max_int; lia). reflexivity.
  - destruct (Z.leb_spec v 18446744073709551615).
    + simpl negb. cbv iota.
      destruct (Z.leb_spec 9223372036854775808 v); [|lia]. reflexivity.
    + simpl Is. simpl negb. cbv iota.
      destruct (Z.leb_spec 9223372036854775808 18446744073709551615); [|lia].
      reflexivity.
Qed.

(** A text that starts with neither a digit nor a sign is no number:
    [Atoi] gives 0 and an error. *)
Lemma Atoi_not_a_number (c : ascii) (rest : string) :
  strconv.is_digit c = false -> c <> "+"%char -> c <> "-"%char ->
  strconv.Atoi (String c rest) = (0, Some (strconv.syntaxError "Atoi" (String c rest))).
Proof.
  intros Hc Hplus Hminus.
  apply Ascii.eqb_neq in Hplus, Hminus.
  unfold strconv.Atoi, strconv.ParseInt. rewrite Hplus, Hminus. simpl orb. cbv iota.
  unfold strconv.ParseUint. simpl String.eqb. cbv iota.
  simpl strconv.digits. rewrite Hc. reflexivity.
Qed.

End ParseFacts.

(** * The handlers *)

Section HandlerFacts.

(** A look-up over a healthy store finds a row when some live row meets the
    condition. *)
Lemma get_some (c : gorm.Cond) (d : gorm.DB) (r : User.t) :
  gorm.healthy d -> In r (gorm.rows d) -> gorm.selected c r = true ->
  exists found,
    GormUserRepository.get c d = (ok found, gorm.tick d) /\
    In found (gorm.rows d) /\ gorm.selected c found = true.
Proof.
  intros H Hin Hsel. rewrite get_healthy by assumption.
  destruct (gorm.first_by_id _) as [found|] eqn:E.
  - exists found. split; [reflexivity|].
    apply first_by_id_In in E. now apply filter_In in E.
  - apply first_by_id_None in E.
    assert (In r (filter (gorm.selected c) (gorm.rows d))) as Hf
        by (apply filter_In; auto).
    rewrite E in Hf. contradiction.
Qed.

Lemma selected_id_false (d : gorm.DB) (id : N) :
  (forall x, In x (gorm.rows d) -> User.ID x = id -> gorm.live x = false) ->
  forall x, In x (gorm.rows d) -> gorm.selected (gorm.WherePrimaryKey id) x = false.
Proof.
  intros Hnone x Hx. unfold gorm.selected. simpl.
  destruct (N.eqb (User.ID x) id) eqn:E; [|reflexivity].
  apply N.eqb_eq in E. now rewrite (Hnone x Hx E).
Qed.

End HandlerFacts.

(** X1.  GetUser, UpdateUser and DeleteUser of the handlers answer 400 with
    the message Invalid user ID, and leave the store alone, when the id of
    the path is not a decimal numeral of at most 2^32 - 1; UpdateUser does
    so whatever the body is. *)
Theorem invalid_id_is_bad_request :
  forall (S : Type) (repo : UserRepository S) (hasher : bcrypt.Scheme)
         (decoder : json.Decoder) (r : http.Request) (salt : string) (s : S),
    numeral.is_id (http.PathValue r "id") = false ->
    let bad := (handlers.respondWithError http.StatusBadRequest "Invalid user ID", s) in
    handlers.GetUser r salt s = bad /\
    handlers.UpdateUser r salt s = bad /\
    handlers.DeleteUser r salt s = bad.
Proof.
  intros S repo hasher decoder r salt s H bad.
  destruct (ParseUint_not_id _ H) as (v & e & E).
  unfold handlers.GetUser, handlers.UpdateUser, handlers.DeleteUser.
  rewrite E. auto.
Qed.

(** X1 on the sample table: an id past the range of 32 bits. *)
Lemma invalid_id_is_bad_request_witness :
  numeral.is_id
    (http.PathValue (fixtures.request "GET" "/api/users/4294967296" "4294967296" [] [] "") "id")
  = false /\
  handlers.GetUser (fixtures.request "GET" "/api/users/4294967296" "4294967296" [] [] "")
    "" sample.db
  = (handlers.respondWithError 400 "Invalid user ID", sample.db).
Proof.
  split; [reflexivity|].
  exact (proj1 (invalid_id_is_bad_request gorm.DB _ sample.scheme fixtures.decoder
                  (fixtures.request "GET" "/api/users/4294967296" "4294967296" [] [] "")
                  "" sample.db eq_refl)).
Defined.

(** X2.  On the GORM store, GetUser of the handlers reads the id of the
    path as a decimal numeral: for the id of a live user the answer is 200
    with the public view of that user, and for an id that no live user has
    it is 404 with the message User not found. *)
Theorem GetUser_handler_answers :
  forall (r : http.Request) (salt : string) (db : gorm.DB),
    gorm.healthy db -> gorm.consistent db ->
    numeral.is_id (http.PathValue r "id") = true ->
    let id := Z.to_N (numeral.decimal (http.PathValue r "id")) in
    (forall user,
        In user (gorm.rows db) -> User.ID user = id -> gorm.live user = true ->
        handlers.GetUser r salt db
        = (handlers.respondWithJSON http.StatusOK
             (http.UserJSON (service.mapUserToResponse user)),
           gorm.tick db))
    /\
    ((forall x, In x (gorm.rows db) -> User.ID x = id -> gorm.live x = false) ->
     handlers.GetUser r salt db
     = (handlers.respondWithError http.StatusNotFound "User not found", gorm.tick db)).
Proof.
  intros r salt db H Hc Hid id.
  unfold handlers.GetUser. rewrite (ParseUint_is_id _ Hid). fold id.
  unfold service.GetUser. simpl GetByID. unfold GormUserRepository.GetByID.
  split.
  - intros user Hin Huser Hlive.
    rewrite (get_found (gorm.WherePrimaryKey id) db user H Hc Hin);
      [reflexivity | simpl; now apply N.eqb_eq | exact Hlive].
  - intros Hnone.
    rewrite (get_missing (gorm.WherePrimaryKey id) db H (selected_id_false db id Hnone)).
    reflexivity.
Qed.

(** X2 on the sample table: [bob] under the id 002, and nobody under 7. *)
Lemma GetUser_handler_answers_witness :
  handlers.GetUser
    (fixtures.request "GET" "/api/users/002" "002" [] [] "") "" sample.db
  = (handlers.respondWithJSON 200 (http.UserJSON (service.mapUserToResponse sample.bob)),
     gorm.tick sample.db)
  /\
  handlers.GetUser
    (fixtures.request "GET" "/api/users/7" "7" [] [] "") "" sample.db
  = (handlers.respondWithError 404 "User not found", gorm.tick sample.db).
Proof.
  split.
  - apply (proj1 (GetUser_handler_answers
                    (fixtures.request "GET" "/api/users/002" "002" [] [] "") "" sample.db
                    eq_refl sample_db_consistent eq_refl)).
    + right. now left.
    + reflexivity.
    + reflexivity.
  - apply (proj2 (GetUser_handler_answers
                    (fixtures.request "GET" "/api/users/7" "7" [] [] "") "" sample.db
                    eq_refl sample_db_consistent eq_refl)).
    intros x [<-|[<-|[]]]; discriminate.
Defined.

Section ListFacts.

Lemma firstn_length_le {A : Type} (n : nat) (l : list A) :
  (List.length (firstn n l) <= n)%nat.
Proof.
  revert l. induction n as [|n IH]; intros [|x l]; simpl; try lia.
  specialize (IH l). lia.
Qed.

(** A page with a limit that is not negative has at most that many rows. *)
Lemma page_length (offset limit : Z) (l : list User.t) :
  0 <= limit -> (List.length (gorm.page offset limit l) <= Z.to_nat limit)%nat.
Proof.
  intros H. unfold gorm.page.
  destruct (Z.leb_spec 0 limit); [|lia]. apply firstn_length_le.
Qed.

Lemma List_length (offset limit : Z) (db db' : gorm.DB) (users : list User.t) (count : Z) :
  0 <= limit ->
  GormUserRepository.List offset limit db = (ok (users, count), db') ->
  (List.length users <= Z.to_nat limit)%nat.
Proof.
  intros Hl.
  unfold GormUserRepository.List, gorm.Count, gorm.Find, gorm.begin.
  destruct (hd None (gorm.faults db)) as [e|]; cbn [gorm.Error gorm.failed gorm.done];
    [discriminate|].
  destruct (hd None (gorm.faults (gorm.tick db))) as [e|];
    cbn [gorm.Error gorm.failed gorm.done]; [discriminate|].
  intros Heq. inversion Heq; subst. now apply page_length.
Qed.

(** The page and the page size that the handler takes from a query. *)
Lemma ListUsers_handler_call {S : Type} {repo : UserRepository S}
      (r : http.Request) (salt : string) (s : S) :
  exists page size,
    1 <= page /\ 1 <= size <= 100 /\
    handlers.ListUsers r salt s =
      match service.ListUsers page size s with
      | (fail _, s1) =>
          (handlers.respondWithError http.StatusInternalServerError "Internal server error",
           s1)
      | (ok (users, total), s1) =>
          (handlers.respondWithJSON http.StatusOK
             (http.UsersJSON users total page size
                (Z.quot (Go.wrap (Go.wrap (total + size) - 1)) size)),
           s1)
      end.
Proof.
  unfold handlers.ListUsers.
  set (page :=
         if String.eqb (http.get "page" (http.Query r)) "" then 1
         else match strconv.Atoi (http.get "page" (http.Query r)) with
              | (pageVal, None) => if Z.ltb 0 pageVal then pageVal else 1
              | (_, Some _) => 1
              end).
  set (size :=
         if String.eqb (http.get "page_size" (http.Query r)) "" then 10
         else match strconv.Atoi (http.get "page_size" (http.Query r)) with
              | (pageSizeVal, None) =>
                  if (Z.ltb 0 pageSizeVal && Z.leb pageSizeVal 100)%bool
                  then pageSizeVal else 10
              | (_, Some _) => 10
              end).
  exists page, size. split; [|split; [|reflexivity]].
  - clear size. subst page.
    destruct (String.eqb (http.get "page" (http.Query r)) ""); [lia|].
    destruct (strconv.Atoi _) as [v [e|]]; [lia|].
    destruct (Z.ltb_spec 0 v); lia.
  - clear page. subst size.
    destruct (String.eqb (http.get "page_size" (http.Query r)) ""); [lia|].
    destruct (strconv.Atoi _) as [v [e|]]; [lia|].
    destruct (Z.ltb_spec 0 v); simpl; [|lia].
    destruct (Z.leb_spec v 100); lia.
Qed.

End ListFacts.

(** X3.  On the GORM store, whatever the query of the request is, an answer
    of ListUsers of the handlers is either 500 with the message Internal
    server error, or 200 with a page number of at least 1, a page size
    between 1 and 100 and at most as many users as the page size; over a
    store that does not fail it is the latter. *)
Theorem ListUsers_handler_bounds :
  forall (r : http.Request) (salt : string) (db db' : gorm.DB) (resp : http.Response),
    handlers.ListUsers r salt db = (resp, db') ->
    (resp = handlers.respondWithError http.StatusInternalServerError "Internal server error"
     /\ ~ gorm.healthy db)
    \/
    (exists users total page size pages,
        resp = handlers.respondWithJSON http.StatusOK
                 (http.UsersJSON users total page size pages) /\
        1 <= page /\ 1 <= size <= 100 /\
        (List.length users <= Z.to_nat size)%nat).
Proof.
  intros r salt db db' resp.
  destruct (ListUsers_handler_call r salt db) as (page & size & Hp & Hs & ->).
  unfold service.ListUsers.
  destruct (Z.ltb_spec page 1); [lia|]. destruct (Z.ltb_spec size 1); [lia|].
  simpl List.
  destruct (GormUserRepository.List _ size db) as [[[users count]|err] db1] eqn:El.
  - intros Heq. inversion Heq; subst. right.
    exists (map service.mapUserToResponse users), count, page, size.
    eexists. split; [reflexivity|]. repeat split; try lia.
    rewrite length_map. eapply List_length; [|exact El]. lia.
  - intros Heq. inversion Heq; subst. left. split; [reflexivity|].
    intros Hh. rewrite (List_healthy _ _ db Hh) in El. discriminate El.
Qed.

(** X3 on the sample table: a query that asks for pages of 1000. *)
Lemma ListUsers_handler_bounds_witness :
  exists users total page size pages,
    fst (handlers.ListUsers
           (fixtures.request "GET" "/api/users" "" [("page_size", "1000")] [] "")
           "" sample.db)
    = handlers.respondWithJSON 200 (http.UsersJSON users total page size pages) /\
    1 <= page /\ 1 <= size <= 100 /\ (List.length users <= Z.to_nat size)%nat.
Proof.
  destruct (ListUsers_handler_bounds
              (fixtures.request "GET" "/api/users" "" [("page_size", "1000")] [] "")
              "" sample.db _ _ eq_refl) as [[_ Hbad]|H].
  - exfalso. apply Hbad. reflexivity.
  - exact H.
Defined.

(** X4.  The number of pages in an answer of ListUsers of the handlers is
    the total divided by the page size and rounded up, for a total that is
    not negative and not within 100 of the largest [int]: it is the least
    number of pages of that size that hold the total. *)
Theorem ListUsers_handler_total_pages :
  forall (S : Type) (repo : UserRepository S) (r : http.Request) (salt : string)
         (s s' : S) (resp : http.Response)
         (users : list service.UserResponse.t) (total page size pages : Z),
    handlers.ListUsers r salt s = (resp, s') ->
    http.Written resp = http.UsersJSON users total page size pages ->
    0 <= total <= Go.max_int - 100 ->
    (pages - 1) * size < total <= pages * size.
Proof.
  intros S repo r salt s s' resp users total page size pages.
  destruct (ListUsers_handler_call r salt s) as (p & n & Hp & Hn & ->).
  destruct (service.ListUsers p n s) as [[[views count]|err] s1].
  - intros Heq Hw Ht. inversion Heq; subst. simpl in Hw. inversion Hw; subst.
    unfold Go.max_int in Ht.
    rewrite !wrap_small by (unfold Go.min_int, Go.max_int; try rewrite wrap_small;
                            unfold Go.min_int, Go.max_int; lia).
    rewrite Z.quot_div_nonneg by lia.
    pose proof (Z.div_mod (total + size - 1) size ltac:(lia)) as Hdm.
    pose proof (Z.mod_pos_bound (total + size - 1) size ltac:(lia)) as Hmod.
    nia.
  - intros Heq Hw. inversion Heq; subst. discriminate Hw.
Qed.

(** X4 on the sample table: two users in pages of one. *)
Lemma ListUsers_handler_total_pages_witness :
  exists users total page size pages,
    http.Written
      (fst (handlers.ListUsers
              (fixtures.request "GET" "/api/users" "" [("page_size", "1")] [] "")
              "" sample.db))
    = http.UsersJSON users total page size pages /\
    total = 2 /\ size = 1 /\ (pages - 1) * size < total <= pages * size.
Proof.
  eexists _, 2, _, 1, _. split; [reflexivity|]. split; [reflexivity|].
  split; [reflexivity|].
  eapply (ListUsers_handler_total_pages gorm.DB _
            (fixtures.request "GET" "/api/users" "" [("page_size", "1")] [] "")
            "" sample.db).
  - apply surjective_pairing.
  - reflexivity.
  - unfold Go.max_int. lia.
Defined.

(** X5.  ListUsers of the handlers takes the page size from a numeral of
    the query when it is between 1 and 100, and takes 10, not 100, for
    every other numeral; it takes the page from a numeral that is at least
    1 and an [int], and takes 1 for every other numeral. *)
Theorem ListUsers_handler_reads_query :
  forall (S : Type) (repo : UserRepository S) (r : http.Request) (salt : string)
         (s s' : S) (resp : http.Response)
         (users : list service.UserResponse.t) (total page size pages : Z),
    handlers.ListUsers r salt s = (resp, s') ->
    http.Written resp = http.UsersJSON users total page size pages ->
    (numeral.is_numeral (http.get "page_size" (http.Query r)) = true ->
     size = if (Z.leb 1 (numeral.decimal (http.get "page_size" (http.Query r)))
                && Z.leb (numeral.decimal (http.get "page_size" (http.Query r))) 100)%bool
            then numeral.decimal (http.get "page_size" (http.Query r))
            else 10)
    /\
    (numeral.is_numeral (http.get "page" (http.Query r)) = true ->
     page = if (Z.leb 1 (numeral.decimal (http.get "page" (http.Query r)))
                && Z.leb (numeral.decimal (http.get "page" (http.Query r))) Go.max_int)%bool
            then numeral.decimal (http.get "page" (http.Query r))
            else 1).
Proof.
  intros S repo r salt s s' resp users total page size pages.
  unfold handlers.ListUsers.
  set (ps := http.get "page_size" (http.Query r)).
  set (pg := http.get "page" (http.Query r)).
  destruct (service.ListUsers _ _ s) as [[[views count]|err] s1].
  - intros Heq Hw. inversion Heq; subst. simpl in Hw. inversion Hw; subst. clear Heq Hw.
    split; intros Hnum; rewrite (Atoi_numeral _ Hnum);
      pose proof Hnum as Hne; unfold numeral.is_numeral in Hne;
      apply andb_true_iff in Hne as [Hne _]; apply negb_true_iff in Hne; rewrite Hne.
    + unfold Go.max_int. change (2 ^ 63 - 1) with 9223372036854775807.
      destruct (Z.leb_spec (numeral.decimal ps) 9223372036854775807);
        destruct (Z.leb_spec 1 (numeral.decimal ps));
        destruct (Z.leb_spec (numeral.decimal ps) 100); simpl; try lia; try reflexivity.
      * destruct (Z.ltb_spec 0 (numeral.decimal ps)); [reflexivity|lia].
      * destruct (Z.ltb_spec 0 (numeral.decimal ps)); [reflexivity|lia].
      * destruct (Z.ltb_spec 0 (numeral.decimal ps)); [lia|reflexivity].
    + unfold Go.max_int. change (2 ^ 63 - 1) with 9223372036854775807.
      destruct (Z.leb_spec (numeral.decimal pg) 9223372036854775807);
        destruct (Z.leb_spec 1 (numeral.decimal pg)); simpl; try reflexivity.
      * destruct (Z.ltb_spec 0 (numeral.decimal pg)); [reflexivity|lia].
      * destruct (Z.ltb_spec 0 (numeral.decimal pg)); [lia|reflexivity].
  - intros Heq Hw. inversion Heq; subst. discriminate Hw.
Qed.

(** X5 on the sample table: pages of 101 are pages of 10. *)
Lemma ListUsers_handler_reads_query_witness :
  exists users total page size pages,
    http.Written
      (fst (handlers.ListUsers
              (fixtures.request "GET" "/api/users" ""
                 [("page", "2"); ("page_size", "101")] [] "")
              "" sample.db))
    = http.UsersJSON users total page size pages /\
    size = 10 /\ page = 2.
Proof.
  eexists _, _, _, _, _. split; [reflexivity|].
  edestruct (ListUsers_handler_reads_query gorm.DB _
               (fixtures.request "GET" "/api/users" ""
                  [("page", "2"); ("page_size", "101")] [] "")
               "" sample.db) as [Hsize Hpage].
  - apply surjective_pairing.
  - reflexivity.
  - split; [exact (Hsize eq_refl) | exact (Hpage eq_refl)].
Defined.

(** X6.  On the GORM store, CreateUser of the handlers answers 409 with the
    message user already exists, and adds nothing, when a live user has the
    e-mail address of the request. *)
Theorem CreateUser_handler_email_taken :
  forall (hasher : bcrypt.Scheme) (decoder : json.Decoder)
         (r : http.Request) (salt : string) (db : gorm.DB)
         (req : service.CreateUserRequest.t) (existing : User.t),
    gorm.healthy db ->
    json.DecodeCreateUserRequest (http.Body r) = ok req ->
    In existing (gorm.rows db) -> gorm.live existing = true ->
    User.Email existing = service.CreateUserRequest.Email req ->
    handlers.CreateUser r salt db
    = (handlers.respondWithError http.StatusConflict "user already exists", gorm.tick db).
Proof.
  intros hasher decoder r salt db req existing H Hdec Hin Hlive Hmail.
  unfold handlers.CreateUser. rewrite Hdec.
  unfold service.CreateUser. simpl GetByEmail. unfold GormUserRepository.GetByEmail.
  destruct (get_some (gorm.WhereEmail (service.CreateUserRequest.Email req)) db existing H Hin)
    as (found & -> & _).
  - unfold gorm.selected. simpl. rewrite Hlive, andb_true_r. now apply String.eqb_eq.
  - reflexivity.
Qed.

(** X6 on the sample table: a request with the e-mail address of [alice]. *)
Lemma CreateUser_handler_email_taken_witness :
  handlers.CreateUser (hasher := sample.scheme) (decoder := fixtures.decoder)
    (fixtures.request "POST" "/api/users" "" [] []
       "alice2|alice@example.com|s3cret|Alice|Two")
    "salt3" sample.db
  = (handlers.respondWithError 409 "user already exists", gorm.tick sample.db).
Proof.
  apply (CreateUser_handler_email_taken sample.scheme fixtures.decoder
           (fixtures.request "POST" "/api/users" "" [] []
              "alice2|alice@example.com|s3cret|Alice|Two")
           "salt3" sample.db sample.alice_again sample.alice).
  - reflexivity.
  - reflexivity.
  - now left.
  - reflexivity.
  - reflexivity.
Defined.

(** X7.  On the GORM store, CreateUser of the handlers answers 500 with the
    message internal server error, not 409, and adds nothing, when no live
    user has the e-mail address of the request but some row of the table,
    soft-deleted or not, has its username or its e-mail address. *)
Theorem CreateUser_handler_key_taken :
  forall (hasher : bcrypt.Scheme) (decoder : json.Decoder)
         (r : http.Request) (salt : string) (db : gorm.DB)
         (req : service.CreateUserRequest.t) (existing : User.t) (hash : string),
    gorm.healthy db ->
    json.DecodeCreateUserRequest (http.Body r) = ok req ->
    (forall x, In x (gorm.rows db) -> gorm.live x = true ->
               User.Email x <> service.CreateUserRequest.Email req) ->
    bcrypt.GenerateFromPassword
      (service.CreateUserRequest.Password req) bcrypt.DefaultCost salt = ok hash ->
    In existing (gorm.rows db) ->
    User.Username existing = service.CreateUserRequest.Username req \/
    User.Email existing = service.CreateUserRequest.Email req ->
    fst (handlers.CreateUser r salt db)
    = handlers.respondWithError http.StatusInternalServerError "internal server error"
    /\ gorm.rows (snd (handlers.CreateUser r salt db)) = gorm.rows db.
Proof.
  intros hasher decoder r salt db req existing hash H Hdec Hfree Hhash Hin Hclash.
  unfold handlers.CreateUser. rewrite Hdec.
  unfold service.CreateUser. simpl GetByEmail. unfold GormUserRepository.GetByEmail.
  rewrite get_missing; [|exact H|].
  2:{ intros x Hx. unfold gorm.selected. simpl.
      destruct (String.eqb_spec (User.Email x) (service.CreateUserRequest.Email req))
        as [E|E]; [|reflexivity].
      destruct (gorm.live x) eqn:El; [|reflexivity]. now destruct (Hfree x Hx El). }
  simpl negb. cbv iota. rewrite Hhash.
  simpl Create. unfold GormUserRepository.Create, gorm.Create.
  rewrite (begin_healthy _ (tick_healthy db H)). unfold gorm.insert.
  cbn [gorm.fill_defaults User.ID N.eqb].
  match goal with
  | |- context [gorm.unique_violation ?row ?rs] =>
      destruct (unique_violation_clash row existing rs) as [e He];
      [ exact Hin | exact Hclash | ];
      rewrite He;
      destruct (unique_violation_is_duplicate_key _ _ _ He) as [name ->];
      split; reflexivity
  end.
Qed.

(** X7 on the sample table: the username of [bob] with a new address. *)
Lemma CreateUser_handler_key_taken_witness :
  fst (handlers.CreateUser (hasher := sample.scheme) (decoder := fixtures.decoder)
         (fixtures.request "POST" "/api/users" "" [] []
            "bob|robert@example.com|s3cret|Robert|Roe")
         "salt3" sample.db)
  = handlers.respondWithError 500 "internal server error".
Proof.
  apply (CreateUser_handler_key_taken sample.scheme fixtures.decoder
           (fixtures.request "POST" "/api/users" "" [] []
              "bob|robert@example.com|s3cret|Robert|Roe")
           "salt3" sample.db
           (service.CreateUserRequest.mk "bob" "robert@example.com" "s3cret" "Robert" "Roe")
           sample.bob "$2a$10$salt3$s3cret").
  - reflexivity.
  - reflexivity.
  - intros x [<-|[<-|[]]] _; discriminate.
  - reflexivity.
  - right. now left.
  - left. reflexivity.
Defined.

(** X8.  A body that does not decode is answered 400 with the message
    Invalid request payload by CreateUser, by AuthenticateUser and, for an
    id that is one, by UpdateUser of the handlers; the store is left
    alone. *)
Theorem malformed_body_is_bad_request :
  forall (S : Type) (repo : UserRepository S) (hasher : bcrypt.Scheme)
         (decoder : json.Decoder) (r : http.Request) (salt : string) (s : S) (err : error),
    (json.DecodeCreateUserRequest (http.Body r) = fail err ->
     handlers.CreateUser r salt s
     = (handlers.respondWithError http.StatusBadRequest "Invalid request payload", s))
    /\
    (json.DecodeCredentials (http.Body r) = fail err ->
     handlers.AuthenticateUser r salt s
     = (handlers.respondWithError http.StatusBadRequest "Invalid request payload", s))
    /\
    (json.DecodeUpdateUserRequest (http.Body r) = fail err ->
     numeral.is_id (http.PathValue r "id") = true ->
     handlers.UpdateUser r salt s
     = (handlers.respondWithError http.StatusBadRequest "Invalid request payload", s)).
Proof.
  intros S repo hasher decoder r salt s err.
  unfold handlers.CreateUser, handlers.AuthenticateUser, handlers.UpdateUser.
  repeat split.
  - intros ->. reflexivity.
  - intros ->. reflexivity.
  - intros -> Hid. rewrite (ParseUint_is_id _ Hid). reflexivity.
Qed.

(** X8 on the sample table: a body of two fields for an update of [bob]. *)
Lemma malformed_body_is_bad_request_witness :
  handlers.UpdateUser (hasher := sample.scheme) (decoder := fixtures.decoder)
    (fixtures.request "PUT" "/api/users/2" "2" [] [] "Robert|Roe") "salt4" sample.db
  = (handlers.respondWithError 400 "Invalid request payload", sample.db).
Proof.
  apply (proj2 (proj2 (malformed_body_is_bad_request gorm.DB _ sample.scheme fixtures.decoder
                         (fixtures.request "PUT" "/api/users/2" "2" [] [] "Robert|Roe")
                         "salt4" sample.db fixtures.malformed))).
  - reflexivity.
  - reflexivity.
Defined.

(** X9.  Whatever the repository behind the service is and whatever error it
    gives, an answer of a handler is a success (201, 200 or 204) or one of
    a few fixed pairs of a status and a message: no text of an error of the
    service or of the store is in an answer. *)
Theorem handler_answers_are_fixed :
  forall (S : Type) (repo : UserRepository S) (hasher : bcrypt.Scheme)
         (decoder : json.Decoder) (r : http.Request) (salt : string) (s : S),
    (answer.user_of (fst (handlers.CreateUser r salt s)) http.StatusCreated \/
     answer.error_of (fst (handlers.CreateUser r salt s))
       [(400, "Invalid request payload"); (409, "user already exists");
        (500, "internal server error")])
    /\
    (answer.user_of (fst (handlers.GetUser r salt s)) http.StatusOK \/
     answer.error_of (fst (handlers.GetUser r salt s))
       [(400, "Invalid user ID"); (404, "User not found"); (500, "Internal server error")])
    /\
    ((exists users total page size pages,
         fst (handlers.ListUsers r salt s)
         = handlers.respondWithJSON http.StatusOK
             (http.UsersJSON users total page size pages)) \/
     answer.error_of (fst (handlers.ListUsers r salt s)) [(500, "Internal server error")])
    /\
    (answer.user_of (fst (handlers.UpdateUser r salt s)) http.StatusOK \/
     answer.error_of (fst (handlers.UpdateUser r salt s))
       [(400, "Invalid user ID"); (400, "Invalid request payload");
        (404, "User not found"); (500, "Internal server error")])
    /\
    (fst (handlers.DeleteUser r salt s)
     = {| http.StatusCode := http.StatusNoContent; http.ContentType := "";
          http.Written := http.NoBody |} \/
     answer.error_of (fst (handlers.DeleteUser r salt s))
       [(400, "Invalid user ID"); (404, "User not found"); (500, "Internal server error")])
    /\
    (answer.user_of (fst (handlers.AuthenticateUser r salt s)) http.StatusOK \/
     answer.error_of (fst (handlers.AuthenticateUser r salt s))
       [(400, "Invalid request payload"); (401, "Invalid credentials");
        (500, "Internal server error")]).
Proof.
  intros S repo hasher decoder r salt s.
  assert (forall resp code message listed,
             resp = handlers.respondWithError code message ->
             In (code, message) listed -> answer.error_of resp listed) as Herr
      by (intros resp code message listed -> Hin; exists code, message; auto).
  assert (forall resp code view,
             resp = handlers.respondWithJSON code (http.UserJSON view) ->
             answer.user_of resp code) as Huser
      by (intros resp code view ->; exists view; reflexivity).
  repeat split.
  - unfold handlers.CreateUser.
    destruct (json.DecodeCreateUserRequest _) as [req|e].
    + destruct (service.CreateUser req salt s) as [[view|e] s1].
      * left. eapply Huser. reflexivity.
      * right. destruct (Is e service.ErrUserAlreadyExists);
          (eapply Herr; [reflexivity|simpl; tauto]).
    + right. eapply Herr; [reflexivity|simpl; tauto].
  - unfold handlers.GetUser.
    destruct (strconv.ParseUint _ 32) as [id [e|]].
    + right. eapply Herr; [reflexivity|simpl; tauto].
    + destruct (service.GetUser _ s) as [[view|e] s1].
      * left. eapply Huser. reflexivity.
      * right. destruct (Is e service.ErrUserNotFound);
          (eapply Herr; [reflexivity|simpl; tauto]).
  - destruct (ListUsers_handler_call r salt s) as (page & size & _ & _ & ->).
    destruct (service.ListUsers page size s) as [[[views total]|e] s1].
    + left. eexists _, _, _, _, _. reflexivity.
    + right. eapply Herr; [reflexivity|simpl; tauto].
  - unfold handlers.UpdateUser.
    destruct (strconv.ParseUint _ 32) as [id [e|]].
    + right. eapply Herr; [reflexivity|simpl; tauto].
    + destruct (json.DecodeUpdateUserRequest _) as [req|e].
      * destruct (service.UpdateUser _ req salt s) as [[view|e] s1].
        -- left. eapply Huser. reflexivity.
        -- right. destruct (Is e service.ErrUserNotFound);
             (eapply Herr; [reflexivity|simpl; tauto]).
      * right. eapply Herr; [reflexivity|simpl; tauto].
  - unfold handlers.DeleteUser.
    destruct (strconv.ParseUint _ 32) as [id [e|]].
    + right. eapply Herr; [reflexivity|simpl; tauto].
    + destruct (service.DeleteUser _ s) as [[e|] s1].
      * right. destruct (Is e service.ErrUserNotFound);
          (eapply Herr; [reflexivity|simpl; tauto]).
      * left. reflexivity.
  - unfold handlers.AuthenticateUser.
    destruct (json.DecodeCredentials _) as [[email password]|e].
    + destruct (service.AuthenticateUser email password s) as [[view|e] s1].
      * left. eapply Huser. reflexivity.
      * right. destruct (Is e service.ErrInvalidCredentials);
          (eapply Herr; [reflexivity|simpl; tauto]).
    + right. eapply Herr; [reflexivity|simpl; tauto].
Qed.

(** X9 on the sample table: a look-up with an id that is no number. *)
Lemma handler_answers_are_fixed_witness :
  answer.user_of
    (fst (handlers.GetUser (fixtures.request "GET" "/api/users/abc" "abc" [] [] "")
            "" sample.db))
    200
  \/
  answer.error_of
    (fst (handlers.GetUser (fixtures.request "GET" "/api/users/abc" "abc" [] [] "")
            "" sample.db))
    [(400, "Invalid user ID"); (404, "User not found"); (500, "Internal server error")].
Proof.
  exact (proj1 (proj2 (handler_answers_are_fixed gorm.DB _ sample.scheme fixtures.decoder
                         (fixtures.request "GET" "/api/users/abc" "abc" [] [] "")
                         "" sample.db))).
Defined.

Section DeleteFacts.

Lemma filter_some (p : User.t -> bool) (l : list User.t) (r : User.t) :
  In r l -> p r = true -> List.length (filter p l) <> 0%nat.
Proof.
  intros Hin Hp E. apply length_zero_iff_nil in E.
  assert (In r (filter p l)) as Hf by (apply filter_In; auto).
  rewrite E in Hf. contradiction.
Qed.

(** The store after a Delete: no live row has the id. *)
Lemma deleted_rows (id : N) (now : Time) (rs : list User.t) (x : User.t) :
  In x (map (fun r => if gorm.selected (gorm.WherePrimaryKey id) r
                      then gorm.set_DeletedAt r now else r) rs) ->
  User.ID x = id -> gorm.live x = false.
Proof.
  intros Hx Hid. apply in_map_iff in Hx as (y & <- & Hy).
  destruct (gorm.selected (gorm.WherePrimaryKey id) y) eqn:Hsel; [reflexivity|].
  unfold gorm.selected in Hsel. simpl in Hsel.
  apply N.eqb_eq in Hid. rewrite Hid in Hsel. exact Hsel.
Qed.

End DeleteFacts.

(** X10.  On the GORM store, DeleteUser of the handlers answers 204 without
    a body for the id of a live user; after that, GetUser and a second
    DeleteUser of the same request answer 404 with the message User not
    found. *)
Theorem DeleteUser_handler_then_not_found :
  forall (r : http.Request) (salt : string) (db : gorm.DB) (user : User.t),
    gorm.healthy db ->
    numeral.is_id (http.PathValue r "id") = true ->
    In user (gorm.rows db) ->
    User.ID user = Z.to_N (numeral.decimal (http.PathValue r "id")) ->
    gorm.live user = true ->
    exists db1,
      handlers.DeleteUser r salt db
      = ({| http.StatusCode := http.StatusNoContent; http.ContentType := "";
            http.Written := http.NoBody |}, db1) /\
      fst (handlers.GetUser r salt db1)
      = handlers.respondWithError http.StatusNotFound "User not found" /\
      fst (handlers.DeleteUser r salt db1)
      = handlers.respondWithError http.StatusNotFound "User not found".
Proof.
  intros r salt db user H Hid Hin Huser Hlive.
  set (id := Z.to_N (numeral.decimal (http.PathValue r "id"))) in *.
  set (hit := gorm.selected (gorm.WherePrimaryKey id)).
  set (db1 := gorm.with_rows (gorm.tick db)
                (map (fun x => if hit x then gorm.set_DeletedAt x (gorm.clock db) else x)
                     (gorm.rows db))).
  assert (gorm.healthy db1) as H1 by (unfold gorm.healthy in *; simpl; now rewrite H).
  assert (forall x, In x (gorm.rows db1) -> User.ID x = id -> gorm.live x = false) as Hgone
      by (intros x Hx; apply (deleted_rows id (gorm.clock db) (gorm.rows db) x Hx)).
  assert (hit user = true) as Hhit.
  { unfold hit, gorm.selected. simpl. rewrite Hlive, andb_true_r. now apply N.eqb_eq. }
  exists db1. unfold handlers.DeleteUser, handlers.GetUser.
  rewrite (ParseUint_is_id _ Hid). fold id.
  unfold service.DeleteUser, service.GetUser. simpl Delete. simpl GetByID.
  unfold GormUserRepository.GetByID.
  rewrite (Delete_healthy id db H), (Delete_healthy id db1 H1). cbv zeta. fold hit.
  fold db1.
  destruct (Z.eqb_spec (Z.of_nat (List.length (filter hit (gorm.rows db)))) 0) as [E|_].
  { exfalso. apply (filter_some hit (gorm.rows db) user Hin Hhit). lia. }
  split; [reflexivity|]. split.
  - rewrite (get_missing (gorm.WherePrimaryKey id) db1 H1 (selected_id_false db1 id Hgone)).
    reflexivity.
  - rewrite (filter_nothing hit (gorm.rows db1) (selected_id_false db1 id Hgone)).
    reflexivity.
Qed.

(** X10 on the sample table: [bob] is deleted, looked up and deleted
    again. *)
Lemma DeleteUser_handler_then_not_found_witness :
  exists db1,
    handlers.DeleteUser (fixtures.request "DELETE" "/api/users/2" "2" [] [] "") "" sample.db
    = ({| http.StatusCode := 204; http.ContentType := ""; http.Written := http.NoBody |},
       db1) /\
    fst (handlers.GetUser (fixtures.request "DELETE" "/api/users/2" "2" [] [] "") "" db1)
    = handlers.respondWithError 404 "User not found" /\
    fst (handlers.DeleteUser (fixtures.request "DELETE" "/api/users/2" "2" [] [] "") "" db1)
    = handlers.respondWithError 404 "User not found".
Proof.
  apply (DeleteUser_handler_then_not_found
           (fixtures.request "DELETE" "/api/users/2" "2" [] [] "") "" sample.db sample.bob).
  - reflexivity.
  - reflexivity.
  - right. now left.
  - reflexivity.
  - reflexivity.
Defined.

(** * Middleware and routes *)

(** X11.  AuthMiddleware in front of RequireAuthentication lets a request
    through exactly when its Authorization header starts with Bearer and a
    blank, whatever follows: the next handler then sees the request with
    the user id 1 in its context.  Every other request is answered 401 by
    AuthMiddleware, and neither the next handler nor the store is
    reached. *)
Theorem AuthMiddleware_admits_every_Bearer :
  forall (S : Type) (next : http.Handler S) (r : http.Request) (salt : string) (s : S),
    (String.prefix "Bearer " (http.get "Authorization" (http.Header r)) = true ->
     middleware.AuthMiddleware (middleware.RequireAuthentication next) r salt s
     = next (http.WithValue r middleware.UserIDKey (http.Uint 1)) salt s
     /\ middleware.GetUserID (http.WithValue r middleware.UserIDKey (http.Uint 1))
        = (1%N, true))
    /\
    (String.prefix "Bearer " (http.get "Authorization" (http.Header r)) = false ->
     middleware.AuthMiddleware next r salt s
     = (http.Error "Unauthorized" http.StatusUnauthorized, s)).
Proof.
  intros S next r salt s.
  unfold middleware.AuthMiddleware, middleware.RequireAuthentication.
  split; intros Hp; rewrite Hp.
  - destruct (http.get "Authorization" (http.Header r)) as [|c rest]; [discriminate Hp|].
    split; reflexivity.
  - rewrite orb_true_r. reflexivity.
Qed.

(** X11 on the sample table: a token that nobody issued opens the list. *)
Lemma AuthMiddleware_admits_every_Bearer_witness :
  http.StatusCode
    (fst (middleware.AuthMiddleware (middleware.RequireAuthentication handlers.ListUsers)
            (fixtures.request "GET" "/api/users" "" []
               [("Authorization", "Bearer anything")] "")
            "" sample.db))
  = 200
  /\
  middleware.AuthMiddleware (middleware.RequireAuthentication handlers.ListUsers)
    (fixtures.request "GET" "/api/users" "" [] [("Authorization", "Basic YTpi")] "")
    "" sample.db
  = (http.Error "Unauthorized" 401, sample.db).
Proof.
  split.
  - rewrite (proj1 (proj1 (AuthMiddleware_admits_every_Bearer gorm.DB
                             handlers.ListUsers
                             (fixtures.request "GET" "/api/users" "" []
                                [("Authorization", "Bearer anything")] "")
                             "" sample.db) eq_refl)).
    reflexivity.
  - exact (proj2 (AuthMiddleware_admits_every_Bearer gorm.DB
                    (middleware.RequireAuthentication handlers.ListUsers)
                    (fixtures.request "GET" "/api/users" "" []
                       [("Authorization", "Basic YTpi")] "")
                    "" sample.db) eq_refl).
Defined.

(** X12.  As [main] wires the routes, the four patterns of the users behind
    authRouter are guarded by RequireAuthentication alone, and nothing in
    front of it puts a user id into the context: a request that the mux
    sends to one of them, and whose context has no value under UserIDKey,
    is answered 401 with the text Unauthorized, whatever its headers are,
    and the store is left alone. *)
Theorem protected_routes_answer_Unauthorized :
  forall (S : Type) (repo : UserRepository S) (hasher : bcrypt.Scheme)
         (decoder : json.Decoder) (pick : http.Request -> option string)
         (r : http.Request) (salt : string) (s : S) (pattern : string),
    pick r = Some pattern ->
    In pattern ["GET /api/users"; "GET /api/users/{id}";
                "PUT /api/users/{id}"; "DELETE /api/users/{id}"] ->
    http.Value middleware.UserIDKey (http.Context r) = None ->
    main.handler pick r salt s = (http.Error "Unauthorized" http.StatusUnauthorized, s).
Proof.
  intros S repo hasher decoder pick r salt s pattern Hpick Hin Hctx.
  unfold main.handler, middleware.RequestLogger, main.mux. rewrite Hpick.
  assert (main.registered pattern main.routes = Some main.authRouter) as ->.
  { simpl in Hin. destruct Hin as [<-|[<-|[<-|[<-|[]]]]]; reflexivity. }
  unfold main.authRouter, middleware.RequireAuthentication, middleware.GetUserID.
  rewrite Hctx. reflexivity.
Qed.

(** X12 on the sample table: the list is asked for with a Bearer token. *)
Lemma protected_routes_answer_Unauthorized_witness :
  main.handler (hasher := sample.scheme) (decoder := fixtures.decoder) fixtures.pick
    (fixtures.request "GET" "/api/users" "" [] [("Authorization", "Bearer anything")] "")
    "" sample.db
  = (http.Error "Unauthorized" 401, sample.db).
Proof.
  apply (protected_routes_answer_Unauthorized gorm.DB _ sample.scheme fixtures.decoder
           fixtures.pick
           (fixtures.request "GET" "/api/users" "" []
              [("Authorization", "Bearer anything")] "")
           "" sample.db "GET /api/users").
  - reflexivity.
  - now left.
  - reflexivity.
Defined.

(** * Configuration *)

(** X13.  LoadConfig never reports an error.  Each of the three timeouts of
    the server is its default (5, 10 and 5 seconds) when its variable is
    unset or empty; it is 0, not the default, when the variable holds a
    text that starts with neither a digit nor a sign; and it is the number
    of seconds that the variable holds when that is a numeral of at most
    9223372036. *)
Theorem LoadConfig_timeouts :
  forall (env : string -> string) (key : string)
         (field : config.ServerConfig -> Z) (default : Z),
    In (key, field, default)
       [("SERVER_READ_TIMEOUT", config.ReadTimeout, 5);
        ("SERVER_WRITE_TIMEOUT", config.WriteTimeout, 10);
        ("SERVER_SHUTDOWN_TIMEOUT", config.ShutdownTimeout, 5)] ->
    snd (config.LoadConfig env) = None /\
    (env key = "" ->
     field (config.Server (fst (config.LoadConfig env))) = default * config.Second) /\
    (forall c rest,
        env key = String c rest ->
        strconv.is_digit c = false -> c <> "+"%char -> c <> "-"%char ->
        field (config.Server (fst (config.LoadConfig env))) = 0) /\
    (numeral.is_numeral (env key) = true ->
     numeral.decimal (env key) <= 9223372036 ->
     field (config.Server (fst (config.LoadConfig env)))
     = numeral.decimal (env key) * config.Second).
Proof.
  intros env key field default Hin.
  assert (forall k d,
             (env k = "" ->
              Go.mul (fst (strconv.Atoi (config.getEnv env k d))) config.Second
              = Go.mul (fst (strconv.Atoi d)) config.Second) /\
             (forall c rest,
                 env k = String c rest ->
                 strconv.is_digit c = false -> c <> "+"%char -> c <> "-"%char ->
                 Go.mul (fst (strconv.Atoi (config.getEnv env k d))) config.Second = 0) /\
             (numeral.is_numeral (env k) = true ->
              numeral.decimal (env k) <= 9223372036 ->
              Go.mul (fst (strconv.Atoi (config.getEnv env k d))) config.Second
              = numeral.decimal (env k) * config.Second)) as Hfield.
  { intros k d. unfold config.getEnv. repeat split.
    - intros ->. reflexivity.
    - intros c rest -> Hc Hplus Hminus. simpl String.eqb. cbv iota.
      rewrite (Atoi_not_a_number c rest Hc Hplus Hminus). reflexivity.
    - intros Hnum Hle.
      pose proof Hnum as Hne. unfold numeral.is_numeral in Hne.
      apply andb_true_iff in Hne as [Hne Hd]. apply negb_true_iff in Hne. rewrite Hne.
      rewrite (Atoi_numeral _ Hnum).
      pose proof (decimal_from_le (env k) 0 Hd ltac:(lia)) as Hpos.
      fold (numeral.decimal (env k)) in Hpos.
      unfold Go.max_int. change (2 ^ 63 - 1) with 9223372036854775807.
      destruct (Z.leb_spec (numeral.decimal (env k)) 9223372036854775807); [|lia].
      simpl fst. unfold Go.mul. apply wrap_small.
      unfold Go.min_int, Go.max_int, config.Second.
      change (2 ^ 63) with 9223372036854775808. lia. }
  split; [reflexivity|].
  simpl in Hin.
  destruct Hin as [E|[E|[E|[]]]]; inversion E; subst; clear E.
  - destruct (Hfield "SERVER_READ_TIMEOUT" "5") as (H1 & H2 & H3).
    split; [exact H1|split; [exact H2|exact H3]].
  - destruct (Hfield "SERVER_WRITE_TIMEOUT" "10") as (H1 & H2 & H3).
    split; [exact H1|split; [exact H2|exact H3]].
  - destruct (Hfield "SERVER_SHUTDOWN_TIMEOUT" "5") as (H1 & H2 & H3).
    split; [exact H1|split; [exact H2|exact H3]].
Qed.

(** X13 at work: a read timeout of [soon], a write timeout of 30, and no
    shutdown timeout. *)
Lemma LoadConfig_timeouts_witness :
  config.ReadTimeout (config.Server (fst (config.LoadConfig fixtures.env))) = 0 /\
  config.WriteTimeout (config.Server (fst (config.LoadConfig fixtures.env)))
  = 30 * config.Second /\
  config.ShutdownTimeout (config.Server (fst (config.LoadConfig fixtures.env)))
  = 5 * config.Second.
Proof.
  split; [|split].
  - apply (proj1 (proj2 (proj2 (LoadConfig_timeouts fixtures.env "SERVER_READ_TIMEOUT"
                                  config.ReadTimeout 5 ltac:(now left))))
             "s"%char "oon" eq_refl eq_refl); discriminate.
  - apply (proj2 (proj2 (proj2 (LoadConfig_timeouts fixtures.env "SERVER_WRITE_TIMEOUT"
                                  config.WriteTimeout 10 ltac:(right; now left))))
             eq_refl).
    unfold numeral.decimal. simpl. lia.
  - apply (proj1 (proj2 (LoadConfig_timeouts fixtures.env "SERVER_SHUTDOWN_TIMEOUT"
                           config.ShutdownTimeout 5 ltac:(right; right; now left)))
             eq_refl).
Defined.

(** * The service over the GORM store, once more *)

Section WriteFacts.

(** A look-up changes neither the rows nor the sequence. *)
Lemma get_frame (c : gorm.Cond) (db : gorm.DB) :
  gorm.rows (snd (GormUserRepository.get c db)) = gorm.rows db /\
  gorm.seq (snd (GormUserRepository.get c db)) = gorm.seq db.
Proof.
  unfold GormUserRepository.get, gorm.First, gorm.begin.
  destruct (hd None (gorm.faults db)) as [e|]; cbn [gorm.Error gorm.failed].
  - destruct (Is e gorm.ErrRecordNotFound); split; reflexivity.
  - destruct (gorm.first_by_id _) as [r|]; split; reflexivity.
Qed.

Lemma List_frame (offset limit : Z) (db : gorm.DB) :
  gorm.rows (snd (GormUserRepository.List offset limit db)) = gorm.rows db /\
  gorm.seq (snd (GormUserRepository.List offset limit db)) = gorm.seq db.
Proof.
  unfold GormUserRepository.List, gorm.Count, gorm.Find, gorm.begin.
  destruct (hd None (gorm.faults db)) as [e|]; cbn [gorm.Error gorm.failed gorm.done];
    [split; reflexivity|].
  destruct (hd None (gorm.faults (gorm.tick db))) as [e|];
    cbn [gorm.Error gorm.failed gorm.done]; split; reflexivity.
Qed.

(** An insert that fails leaves the rows, and one that succeeds affects a
    row. *)
Lemma insert_outcome (u : User.t) (d : gorm.DB) :
  match gorm.Error (fst (fst (gorm.insert u d))) with
  | Some _ => gorm.rows (snd (gorm.insert u d)) = gorm.rows d
  | None => gorm.RowsAffected (fst (fst (gorm.insert u d))) = 1
  end.
Proof.
  unfold gorm.insert.
  destruct (N.eqb (User.ID u) 0);
    match goal with
    | |- context [match gorm.unique_violation ?row ?rs with _ => _ end] =>
        destruct (gorm.unique_violation row rs)
    end; reflexivity.
Qed.

Lemma Create_outcome (u : User.t) (d : gorm.DB) :
  match gorm.Error (fst (fst (gorm.Create u d))) with
  | Some _ => gorm.rows (snd (gorm.Create u d)) = gorm.rows d
  | None => gorm.RowsAffected (fst (fst (gorm.Create u d))) = 1
  end.
Proof.
  unfold gorm.Create, gorm.begin.
  destruct (hd None (gorm.faults d)) as [e|]; [reflexivity|].
  apply (insert_outcome _ (gorm.tick d)).
Qed.

Lemma existsb_filter_length (p : User.t -> bool) (l : list User.t) :
  existsb p l = true -> Z.of_nat (List.length (filter p l)) <> 0.
Proof.
  intros H. apply existsb_exists in H as (x & Hx & Hp).
  pose proof (filter_some p l x Hx Hp). lia.
Qed.

(** A Save that fails leaves the rows, and one that succeeds affects a row:
    it inserts the record when no live row has its id. *)
Lemma Save_outcome (u : User.t) (d : gorm.DB) :
  match gorm.Error (fst (fst (gorm.Save u d))) with
  | Some _ => gorm.rows (snd (gorm.Save u d)) = gorm.rows d
  | None => gorm.RowsAffected (fst (fst (gorm.Save u d))) <> 0
  end.
Proof.
  unfold gorm.Save.
  destruct (N.eqb (User.ID u) 0).
  { pose proof (Create_outcome u d) as H.
    destruct (gorm.Error (fst (fst (gorm.Create u d)))); [exact H|]. rewrite H. lia. }
  unfold gorm.begin.
  destruct (hd None (gorm.faults d)) as [e|]; [reflexivity|].
  cbn [gorm.rows gorm.tick].
  destruct (existsb (gorm.selected (gorm.WherePrimaryKey (User.ID u))) (gorm.rows d)) eqn:Ex.
  - destruct (gorm.unique_violation _ _); [reflexivity|].
    cbn [fst snd gorm.Error gorm.done gorm.RowsAffected].
    now apply existsb_filter_length.
  - destruct (hd None (gorm.faults (gorm.tick d))) as [e|]; [reflexivity|].
    cbn [gorm.rows gorm.tick].
    destruct (existsb (gorm.holds (gorm.WherePrimaryKey (User.ID u))) (gorm.rows d)).
    + destruct (gorm.unique_violation _ _); [reflexivity|].
      cbn [fst snd gorm.Error gorm.done gorm.RowsAffected]. lia.
    + match goal with
      | |- context [gorm.insert ?u2 ?d2] =>
          pose proof (insert_outcome u2 d2) as H;
          destruct (gorm.Error (fst (fst (gorm.insert u2 d2)))); [exact H|rewrite H; lia]
      end.
Qed.


Lemma repository_Update_outcome (u : User.t) (db : gorm.DB) :
  match GormUserRepository.Update u db with
  | (Some err, _, db') => err <> ErrNotFound /\ gorm.rows db' = gorm.rows db
  | (None, _, _) => True
  end.
Proof.
  unfold GormUserRepository.Update. pose proof (Save_outcome u db) as H.
  destruct (gorm.Save u db) as [[[[e|] n] u'] d1];
    cbn [fst snd gorm.Error gorm.RowsAffected] in *.
  - destruct (GormUserRepository.isUniqueConstraintError (Some e));
      (split; [discriminate|exact H]).
  - destruct (Z.eqb_spec n 0); [contradiction|exact I].
Qed.



End WriteFacts.

(** X14.  On the GORM store, GetUser, ListUsers and AuthenticateUser change
    neither the rows of the table nor its id sequence, whether they succeed
    or fail. *)
Theorem reads_leave_the_table :
  forall (hasher : bcrypt.Scheme) (db : gorm.DB),
    (forall id,
        gorm.rows (snd (service.GetUser id db)) = gorm.rows db /\
        gorm.seq (snd (service.GetUser id db)) = gorm.seq db)
    /\
    (forall page pageSize,
        gorm.rows (snd (service.ListUsers page pageSize db)) = gorm.rows db /\
        gorm.seq (snd (service.ListUsers page pageSize db)) = gorm.seq db)
    /\
    (forall email password,
        gorm.rows (snd (service.AuthenticateUser email password db)) = gorm.rows db /\
        gorm.seq (snd (service.AuthenticateUser email password db)) = gorm.seq db).
Proof.
  intros hasher db. repeat split.
  - unfold service.GetUser. simpl GetByID. unfold GormUserRepository.GetByID.
    pose proof (get_frame (gorm.WherePrimaryKey id) db) as [H _].
    destruct (GormUserRepository.get _ db) as [[user|err] s1]; [exact H|].
    destruct (Is err ErrNotFound); exact H.
  - unfold service.GetUser. simpl GetByID. unfold GormUserRepository.GetByID.
    pose proof (get_frame (gorm.WherePrimaryKey id) db) as [_ H].
    destruct (GormUserRepository.get _ db) as [[user|err] s1]; [exact H|].
    destruct (Is err ErrNotFound); exact H.
  - unfold service.ListUsers. simpl List.
    match goal with
    | |- context [GormUserRepository.List ?o ?n db] =>
        pose proof (List_frame o n db) as [H _];
        destruct (GormUserRepository.List o n db) as [[[users count]|err] s1]; exact H
    end.
  - unfold service.ListUsers. simpl List.
    match goal with
    | |- context [GormUserRepository.List ?o ?n db] =>
        pose proof (List_frame o n db) as [_ H];
        destruct (GormUserRepository.List o n db) as [[[users count]|err] s1]; exact H
    end.
  - unfold service.AuthenticateUser. simpl GetByEmail. unfold GormUserRepository.GetByEmail.
    pose proof (get_frame (gorm.WhereEmail email) db) as [H _].
    destruct (GormUserRepository.get _ db) as [[user|err] s1].
    + destruct (bcrypt.CompareHashAndPassword _ _); exact H.
    + destruct (Is err ErrNotFound); exact H.
  - unfold service.AuthenticateUser. simpl GetByEmail. unfold GormUserRepository.GetByEmail.
    pose proof (get_frame (gorm.WhereEmail email) db) as [_ H].
    destruct (GormUserRepository.get _ db) as [[user|err] s1].
    + destruct (bcrypt.CompareHashAndPassword _ _); exact H.
    + destruct (Is err ErrNotFound); exact H.
Qed.

(** X14 on the sample table, with a connection that fails: a look-up of
    [bob]. *)
Lemma reads_leave_the_table_witness :
  gorm.rows (snd (service.GetUser 2 (sample.table [Some sample.broken_pipe])))
  = [sample.alice; sample.bob].
Proof.
  exact (proj1 (proj1 (reads_leave_the_table sample.scheme
                         (sample.table [Some sample.broken_pipe])) 2%N)).
Defined.



(** X16.  Update of the GORM repository never answers NotFound: Save writes
    the record as a new row when no live row has its id, so a successful
    Save has always affected a row, and the branch of Update for no
    affected row is never taken. *)
Theorem Update_is_never_NotFound :
  forall (user : User.t) (db : gorm.DB),
    fst (fst (GormUserRepository.Update user db)) <> Some ErrNotFound.
Proof.
  intros user db. pose proof (repository_Update_outcome user db) as H.
  destruct (GormUserRepository.Update user db) as [[[e|] left] db']; simpl.
  - destruct H as [H _]. congruence.
  - discriminate.
Qed.

(** X16 on the sample table: an update of a record whose id no row has. *)
Lemma Update_is_never_NotFound_witness :
  fst (fst (GormUserRepository.Update (gorm.set_ID sample.duplicate 7) sample.db))
  <> Some ErrNotFound.
Proof.
  exact (Update_is_never_NotFound (gorm.set_ID sample.duplicate 7) sample.db).
Defined.

Section SignupFacts.

(** A successful CreateUser over the GORM store, step by step. *)
Lemma CreateUser_ok_row (hasher : bcrypt.Scheme) (req : service.CreateUserRequest.t)
      (salt : string) (db db' : gorm.DB) (view : service.UserResponse.t) :
  service.CreateUser req salt db = (ok view, db') ->
  exists hash,
    bcrypt.GenerateFromPassword
      (service.CreateUserRequest.Password req) bcrypt.DefaultCost salt = ok hash /\
    let row :=
      User.mk (gorm.seq db) (service.CreateUserRequest.Username req)
        (service.CreateUserRequest.Email req) hash
        (service.CreateUserRequest.FirstName req) (service.CreateUserRequest.LastName req)
        true (gorm.clock db + 1) (gorm.clock db + 1) None in
    view = service.mapUserToResponse row /\
    gorm.rows db' = (gorm.rows db ++ [row])%list /\
    gorm.seq db' = N.succ (gorm.seq db) /\
    gorm.unique_violation row (gorm.rows db) = None.
Proof.
  intros Hc. apply CreateUser_ok in Hc as (err & s1 & hash & created & Hg & Hh & Hcr & ->).
  exists hash. split; [exact Hh|].
  simpl GetByEmail in Hg. unfold GormUserRepository.GetByEmail in Hg.
  assert (gorm.rows s1 = gorm.rows db /\ gorm.seq s1 = gorm.seq db /\
          gorm.clock s1 = gorm.clock db + 1) as (Erows & Eseq & Eclock).
  { revert Hg. unfold GormUserRepository.get, gorm.First, gorm.begin.
    destruct (hd None (gorm.faults db)) as [e|]; cbn [gorm.Error gorm.failed].
    - destruct (Is e gorm.ErrRecordNotFound); intros Heq; inversion Heq; subst;
        repeat split; reflexivity.
    - destruct (gorm.first_by_id _) as [r|]; cbn [gorm.Error gorm.failed gorm.done];
        intros Heq; inversion Heq; subst; repeat split; reflexivity. }
  simpl Create in Hcr. revert Hcr.
  unfold GormUserRepository.Create, gorm.Create, gorm.begin.
  destruct (hd None (gorm.faults s1)) as [e|]; cbn [gorm.Error gorm.failed].
  { destruct (GormUserRepository.isUniqueConstraintError (Some e)); discriminate. }
  unfold gorm.insert. cbn [gorm.fill_defaults User.ID N.eqb].
  cbn [gorm.seq gorm.rows gorm.tick gorm.set_ID User.Username User.Email User.PasswordHash
       User.FirstName User.LastName User.IsActive User.CreatedAt User.UpdatedAt
       User.DeletedAt Z.eqb].
  rewrite Erows, Eseq, Eclock.
  destruct (gorm.unique_violation _ (gorm.rows db)) as [e|] eqn:Ev;
    cbn [gorm.Error gorm.failed gorm.done].
  { destruct (GormUserRepository.isUniqueConstraintError (Some e)); discriminate. }
  intros Heq. inversion Heq; subst. cbv zeta. repeat split; reflexivity.
Qed.

End SignupFacts.



(** X18.  On the GORM store, a successful CreateUser gives the new user the
    next value of the id sequence, which no row of the table has, and moves
    the sequence on by one; the time stamps of the new user are the time of
    the insert. *)
Theorem CreateUser_takes_the_next_id :
  forall (hasher : bcrypt.Scheme) (req : service.CreateUserRequest.t) (salt : string)
         (db db' : gorm.DB) (view : service.UserResponse.t),
    service.CreateUser req salt db = (ok view, db') ->
    service.UserResponse.ID view = gorm.seq db /\
    gorm.seq db' = N.succ (gorm.seq db) /\
    (forall r, In r (gorm.rows db) -> User.ID r <> gorm.seq db) /\
    service.UserResponse.CreatedAt view = gorm.clock db + 1 /\
    service.UserResponse.UpdatedAt view = gorm.clock db + 1.
Proof.
  intros hasher req salt db db' view Hc.
  apply CreateUser_ok_row in Hc as (hash & _ & -> & _ & Hseq & Hfree).
  repeat split; auto.
  intros r Hr. apply (unique_violation_none _ r _ Hfree Hr).
Qed.

(** X18 on the sample table, whose sequence is at 3. *)
Lemma CreateUser_takes_the_next_id_witness :
  exists view db',
    service.CreateUser (hasher := sample.scheme) sample.carol "salt3" sample.db
    = (ok view, db') /\
    service.UserResponse.ID view = 3%N /\ gorm.seq db' = 4%N.
Proof.
  eexists _, _. split; [reflexivity|].
  destruct (CreateUser_takes_the_next_id sample.scheme sample.carol "salt3" sample.db
              _ _ eq_refl) as (Hid & Hseq & _).
  split; [exact Hid|exact Hseq].
Defined.

Section OrderFacts.

Lemma HdRel_insert_desc (x r : User.t) (l : list User.t) :
  HdRel order.newer_first x l -> order.newer_first x r -> HdRel order.newer_first x (gorm.insert_desc r l).
Proof.
  intros Hl Hr. destruct l as [|y l]; simpl; [now constructor|].
  destruct (Z.leb (User.CreatedAt y) (User.CreatedAt r)).
  - now constructor.
  - constructor. now inversion Hl.
Qed.

Lemma Sorted_insert_desc (r : User.t) (l : list User.t) :
  Sorted order.newer_first l -> Sorted order.newer_first (gorm.insert_desc r l).
Proof.
  induction l as [|x l IH]; simpl; intros Hs.
  - repeat constructor.
  - destruct (Z.leb_spec (User.CreatedAt x) (User.CreatedAt r)) as [Hle|Hgt].
    + constructor; [exact Hs|]. constructor. exact Hle.
    + inversion Hs as [|? ? Hs' Hhd]; subst. constructor; [now apply IH|].
      apply HdRel_insert_desc; [exact Hhd|]. unfold order.newer_first. lia.
Qed.

Lemma Sorted_order_created_desc (l : list User.t) :
  Sorted order.newer_first (gorm.order_created_desc l).
Proof.
  unfold gorm.order_created_desc. induction l as [|x l IH]; simpl.
  - constructor.
  - now apply Sorted_insert_desc.
Qed.

Lemma Sorted_skipn (n : nat) (l : list User.t) :
  Sorted order.newer_first l -> Sorted order.newer_first (skipn n l).
Proof.
  revert l. induction n as [|n IH]; intros [|x l] Hs; simpl; auto.
  apply IH. now inversion Hs.
Qed.

Lemma Sorted_firstn (n : nat) (l : list User.t) :
  Sorted order.newer_first l -> Sorted order.newer_first (firstn n l).
Proof.
  revert l. induction n as [|n IH]; intros [|x l] Hs; simpl; try constructor.
  - apply IH. now inversion Hs.
  - inversion Hs as [|? ? _ Hhd]; subst.
    destruct n, l; simpl; constructor. now inversion Hhd.
Qed.

Lemma Sorted_page (offset limit : Z) (l : list User.t) :
  Sorted order.newer_first l -> Sorted order.newer_first (gorm.page offset limit l).
Proof.
  intros Hs. unfold gorm.page.
  assert (Sorted order.newer_first (if Z.ltb 0 offset then skipn (Z.to_nat offset) l else l)) as H1
      by (destruct (Z.ltb 0 offset); [now apply Sorted_skipn|exact Hs]).
  destruct (Z.leb 0 limit); [now apply Sorted_firstn|exact H1].
Qed.

Lemma Sorted_views (l : list User.t) :
  Sorted order.newer_first l ->
  Sorted (fun a b => service.UserResponse.CreatedAt b <= service.UserResponse.CreatedAt a)
         (map service.mapUserToResponse l).
Proof.
  induction 1 as [|x l Hs IH Hhd]; simpl; constructor; [exact IH|].
  destruct Hhd; simpl; constructor. assumption.
Qed.

End OrderFacts.

(** X19.  On the GORM store, a successful ListUsers answers, as the total,
    the number of the users that are not soft-deleted, whatever the page
    is, and lists the users of the page from the newest to the oldest by
    their time of creation. *)
Theorem ListUsers_newest_first :
  forall (page pageSize : Z) (db db' : gorm.DB)
         (views : list service.UserResponse.t) (total : Z),
    service.ListUsers page pageSize db = (ok (views, total), db') ->
    total = Z.of_nat (List.length (filter gorm.live (gorm.rows db))) /\
    Sorted (fun a b => service.UserResponse.CreatedAt b <= service.UserResponse.CreatedAt a)
           views.
Proof.
  intros page pageSize db db' views total.
  unfold service.ListUsers. simpl List.
  unfold GormUserRepository.List, gorm.Count, gorm.Find, gorm.begin.
  destruct (hd None (gorm.faults db)) as [e|]; cbn [gorm.Error gorm.failed gorm.done];
    [discriminate|].
  destruct (hd None (gorm.faults (gorm.tick db))) as [e|];
    cbn [gorm.Error gorm.failed gorm.done]; [discriminate|].
  intros Heq. inversion Heq; subst. split; [reflexivity|].
  apply Sorted_views, Sorted_page, Sorted_order_created_desc.
Qed.

(** X19 on the sample table: [bob] was created after [alice]. *)
Lemma ListUsers_newest_first_witness :
  fst (service.ListUsers 1 10 sample.db)
  = ok ([service.mapUserToResponse sample.bob; service.mapUserToResponse sample.alice], 2)
  /\
  Sorted (fun a b => service.UserResponse.CreatedAt b <= service.UserResponse.CreatedAt a)
         [service.mapUserToResponse sample.bob; service.mapUserToResponse sample.alice].
Proof.
  split; [reflexivity|].
  eapply (ListUsers_newest_first 1 10 sample.db). reflexivity.
Defined.

Section HandlerInvariant.
Context (hasher : bcrypt.Scheme) (decoder : json.Decoder).

Lemma well_formed_handlers (r : http.Request) (salt : string) (db : gorm.DB) :
  gorm.well_formed db ->
  gorm.well_formed (snd (handlers.CreateUser r salt db)) /\
  gorm.well_formed (snd (handlers.GetUser r salt db)) /\
  gorm.well_formed (snd (handlers.ListUsers r salt db)) /\
  gorm.well_formed (snd (handlers.UpdateUser r salt db)) /\
  gorm.well_formed (snd (handlers.DeleteUser r salt db)) /\
  gorm.well_formed (snd (handlers.AuthenticateUser r salt db)).
Proof.
  intros Hwf.
  destruct (well_formed_service hasher db Hwf) as (Hc & Hg & Hl & Hu & Hd & Ha).
  split; [|split; [|split; [|split; [|split]]]].
  - unfold handlers.CreateUser.
    destruct (json.DecodeCreateUserRequest _) as [req|e]; [|exact Hwf].
    specialize (Hc req salt).
    destruct (service.CreateUser req salt db) as [[view|e] s1]; [exact Hc|].
    destruct (Is e service.ErrUserAlreadyExists); exact Hc.
  - unfold handlers.GetUser.
    destruct (strconv.ParseUint _ 32) as [id [e|]]; [exact Hwf|].
    specialize (Hg (Z.to_N id)).
    destruct (service.GetUser _ db) as [[view|e] s1]; [exact Hg|].
    destruct (Is e service.ErrUserNotFound); exact Hg.
  - destruct (ListUsers_handler_call r salt db) as (page & size & _ & _ & ->).
    specialize (Hl page size).
    destruct (service.ListUsers page size db) as [[[views total]|e] s1]; exact Hl.
  - unfold handlers.UpdateUser.
    destruct (strconv.ParseUint _ 32) as [id [e|]]; [exact Hwf|].
    destruct (json.DecodeUpdateUserRequest _) as [req|e]; [|exact Hwf].
    specialize (Hu (Z.to_N id) req salt).
    destruct (service.UpdateUser _ req salt db) as [[view|e] s1]; [exact Hu|].
    destruct (Is e service.ErrUserNotFound); exact Hu.
  - unfold handlers.DeleteUser.
    destruct (strconv.ParseUint _ 32) as [id [e|]]; [exact Hwf|].
    specialize (Hd (Z.to_N id)).
    destruct (service.DeleteUser _ db) as [[e|] s1]; [|exact Hd].
    destruct (Is e service.ErrUserNotFound); exact Hd.
  - unfold handlers.AuthenticateUser.
    destruct (json.DecodeCredentials _) as [[email password]|e]; [|exact Hwf].
    specialize (Ha email password).
    destruct (service.AuthenticateUser email password db) as [[view|e] s1]; [exact Ha|].
    destruct (Is e service.ErrInvalidCredentials); exact Ha.
Qed.

Lemma registered_routes (pattern : string) (h : http.Handler gorm.DB) :
  main.registered pattern main.routes = Some h ->
  h = handlers.AuthenticateUser \/ h = handlers.CreateUser \/ h = main.authRouter.
Proof.
  unfold main.routes. cbn [main.registered].
  repeat match goal with
         | |- context [String.eqb ?a pattern] => destruct (String.eqb a pattern)
         end;
    intros Heq; inversion Heq; auto.
Qed.

End HandlerInvariant.

(** X20.  Every request keeps the table in order: whatever the mux picks
    and whatever the request is, the server's handler takes a table whose
    ids, usernames and e-mail addresses are each without a repetition and
    whose ids and sequence are not 0 to one that is so again. *)
Theorem handler_keeps_the_keys_unique :
  forall (hasher : bcrypt.Scheme) (decoder : json.Decoder)
         (pick : http.Request -> option string)
         (r : http.Request) (salt : string) (db : gorm.DB),
    gorm.well_formed db ->
    gorm.well_formed (snd (main.handler pick r salt db)).
Proof.
  intros hasher decoder pick r salt db Hwf.
  destruct (well_formed_handlers hasher decoder r salt db Hwf)
    as (Hc & Hg & Hl & Hu & Hd & Ha).
  unfold main.handler, middleware.RequestLogger, main.mux.
  destruct (pick r) as [pattern|]; [|exact Hwf].
  destruct (main.registered pattern main.routes) as [h|] eqn:Eh; [|exact Hwf].
  apply registered_routes in Eh as [ -> | [ -> | -> ] ]; [exact Ha|exact Hc|].
  unfold main.authRouter, middleware.RequireAuthentication.
  destruct (middleware.GetUserID r) as [uid [|]]; [|exact Hwf].
  simpl negb. cbv iota. unfold main.protected.
  repeat match goal with
         | |- context [if ?b then _ else _] => destruct b
         end; assumption.
Qed.

(** X20 on the sample table: a sign-up through the server. *)
Lemma handler_keeps_the_keys_unique_witness :
  gorm.well_formed sample.db /\
  gorm.well_formed
    (snd (main.handler (hasher := sample.scheme) (decoder := fixtures.decoder) fixtures.pick
            (fixtures.request "POST" "/api/users" "" [] []
               "carol|carol@example.com|s3cret|Carol|Danvers")
            "salt3" sample.db)).
Proof.
  assert (gorm.well_formed sample.db) as Hwf
      by (split; [exact sample_db_consistent|discriminate]).
  split; [exact Hwf|].
  apply (handler_keeps_the_keys_unique sample.scheme fixtures.decoder fixtures.pick
           (fixtures.request "POST" "/api/users" "" [] []
              "carol|carol@example.com|s3cret|Carol|Danvers")
           "salt3" sample.db Hwf).
Defined.

Section ConflictFacts.

Lemma last_char_append (s t : string) :
  t <> "" -> text.last_char (s ++ t) = text.last_char t.
Proof.
  intros Ht. induction s as [|c s IH]; [reflexivity|].
  simpl. destruct (s ++ t) eqn:E; [|exact IH].
  destruct s; simpl in E; [contradiction|discriminate].
Qed.

Lemma last_char_cons (c : ascii) (rest : string) :
  rest <> "" -> text.last_char (String c rest) = text.last_char rest.
Proof. destruct rest; [contradiction|reflexivity]. Qed.

(** The text of an error of the server ends with a bracket. *)
Lemma PgError_last_char (sev msg code : string) :
  text.last_char (Error (PgError sev msg code)) = Some ")"%char.
Proof.
  simpl Error.
  rewrite last_char_append by discriminate.
  repeat rewrite last_char_cons by (try discriminate; destruct msg; discriminate).
  rewrite last_char_append by discriminate.
  repeat rewrite last_char_cons by (try discriminate; destruct code; discriminate).
  rewrite last_char_append by discriminate. reflexivity.
Qed.

Lemma isUniqueConstraintError_PgError (sev msg code : string) :
  GormUserRepository.isUniqueConstraintError (Some (PgError sev msg code)) = false.
Proof.
  unfold GormUserRepository.isUniqueConstraintError.
  apply String.eqb_neq. intros E.
  pose proof (PgError_last_char sev msg code) as H. rewrite E in H. discriminate H.
Qed.

(** Where the error of an insert, of a Create and of a Save comes from: the
    connection, or a violated constraint. *)
Lemma insert_error (u : User.t) (d : gorm.DB) (e : error) :
  gorm.Error (fst (fst (gorm.insert u d))) = Some e ->
  exists constraint, e = gorm.duplicate_key constraint.
Proof.
  unfold gorm.insert.
  destruct (N.eqb (User.ID u) 0);
    match goal with
    | |- context [match gorm.unique_violation ?row ?rs with _ => _ end] =>
        destruct (gorm.unique_violation row rs) as [e'|] eqn:Ev
    end; simpl; intros Heq; inversion Heq; subst;
    eapply unique_violation_is_duplicate_key; eauto.
Qed.

Lemma hd_In (l : list (option error)) (e : error) : hd None l = Some e -> In (Some e) l.
Proof. destruct l as [|x l]; simpl; [discriminate|]. intros ->. now left. Qed.

Lemma Create_error (u : User.t) (d : gorm.DB) (e : error) :
  gorm.Error (fst (fst (gorm.Create u d))) = Some e ->
  In (Some e) (gorm.faults d) \/ exists constraint, e = gorm.duplicate_key constraint.
Proof.
  unfold gorm.Create, gorm.begin.
  destruct (hd None (gorm.faults d)) as [e'|] eqn:Eh.
  - simpl. intros Heq. inversion Heq; subst. left. now apply hd_In.
  - intros H. right. now apply insert_error in H.
Qed.

Lemma Save_error (u : User.t) (d : gorm.DB) (e : error) :
  gorm.Error (fst (fst (gorm.Save u d))) = Some e ->
  In (Some e) (gorm.faults d) \/ exists constraint, e = gorm.duplicate_key constraint.
Proof.
  unfold gorm.Save.
  destruct (N.eqb (User.ID u) 0); [apply Create_error|].
  unfold gorm.begin.
  destruct (hd None (gorm.faults d)) as [e'|] eqn:Eh.
  { simpl. intros Heq. inversion Heq; subst. left. now apply hd_In. }
  cbn [gorm.rows gorm.tick].
  destruct (existsb (gorm.selected _) (gorm.rows d)).
  - destruct (gorm.unique_violation _ _) as [e'|] eqn:Ev; simpl; [|discriminate].
    intros Heq. inversion Heq; subst. right.
    eapply unique_violation_is_duplicate_key; eauto.
  - destruct (hd None (gorm.faults (gorm.tick d))) as [e'|] eqn:Eh2.
    { simpl. intros Heq. inversion Heq; subst. left.
      simpl in Eh2. apply hd_In in Eh2.
      destruct (gorm.faults d) as [|x l]; [contradiction|]. now right. }
    cbn [gorm.rows gorm.tick].
    destruct (existsb (gorm.holds _) (gorm.rows d)).
    + destruct (gorm.unique_violation _ _) as [e'|] eqn:Ev; simpl; [|discriminate].
      intros Heq. inversion Heq; subst. right.
      eapply unique_violation_is_duplicate_key; eauto.
    + intros H. right. now apply insert_error in H.
Qed.

End ConflictFacts.

(** X21.  The text of an error that the PostgreSQL server reports through
    the driver (a severity, a message and an SQLSTATE in brackets) is never
    the text that isUniqueConstraintError compares with.  So over a
    connection whose failures are all reports of the server, neither Create
    nor Update of the GORM repository ever answers Conflict. *)
Theorem server_errors_are_never_Conflict :
  (forall sev msg code,
      GormUserRepository.isUniqueConstraintError (Some (PgError sev msg code)) = false)
  /\
  (forall (user : User.t) (db : gorm.DB),
      (forall e, In (Some e) (gorm.faults db) ->
                 exists sev msg code, e = PgError sev msg code) ->
      fst (fst (GormUserRepository.Create user db)) <> Some ErrConflict /\
      fst (fst (GormUserRepository.Update user db)) <> Some ErrConflict).
Proof.
  split; [exact isUniqueConstraintError_PgError|].
  intros user db Hfaults.
  assert (forall e,
             In (Some e) (gorm.faults db) \/
             (exists constraint, e = gorm.duplicate_key constraint) ->
             GormUserRepository.isUniqueConstraintError (Some e) = false) as Hnever.
  { intros e [Hin|[constraint ->]].
    - destruct (Hfaults e Hin) as (sev & msg & code & ->).
      apply isUniqueConstraintError_PgError.
    - apply isUniqueConstraintError_duplicate_key. }
  split.
  - unfold GormUserRepository.Create. pose proof (Create_error user db) as He.
    destruct (gorm.Create user db) as [[[[e|] n] u'] d1]; cbn [fst snd gorm.Error] in *;
      [|discriminate].
    rewrite (Hnever e (He e eq_refl)). discriminate.
  - unfold GormUserRepository.Update. pose proof (Save_error user db) as He.
    destruct (gorm.Save user db) as [[[[e|] n] u'] d1];
      cbn [fst snd gorm.Error gorm.RowsAffected] in *.
    + rewrite (Hnever e (He e eq_refl)). discriminate.
    + destruct (Z.eqb n 0); discriminate.
Qed.

(** X21 on the sample table: a new user with the e-mail address of
    [alice]. *)
Lemma server_errors_are_never_Conflict_witness :
  fst (fst (GormUserRepository.Create sample.duplicate sample.db)) <> Some ErrConflict.
Proof.
  apply (proj2 server_errors_are_never_Conflict sample.duplicate sample.db).
  intros e [].
Defined.

(** X22.  On the GORM store, AuthenticateUser of the handlers answers 200
    with the public view of the live user that has the e-mail address of
    the body when the password verifies against the stored hash.  It
    answers 401 with the message Invalid credentials when the password does
    not verify, and when no live user has the address, a soft-deleted user
    included: the two answers are the same. *)
Theorem AuthenticateUser_handler_answers :
  forall (hasher : bcrypt.Scheme) (decoder : json.Decoder)
         (r : http.Request) (salt : string) (db : gorm.DB) (email password : string),
    gorm.healthy db -> gorm.consistent db ->
    json.DecodeCredentials (http.Body r) = ok (email, password) ->
    (forall user,
        In user (gorm.rows db) -> gorm.live user = true -> User.Email user = email ->
        handlers.AuthenticateUser r salt db
        = (match bcrypt.CompareHashAndPassword (User.PasswordHash user) password with
           | None => handlers.respondWithJSON http.StatusOK
                       (http.UserJSON (service.mapUserToResponse user))
           | Some _ => handlers.respondWithError http.StatusUnauthorized
                         "Invalid credentials"
           end, gorm.tick db))
    /\
    ((forall x, In x (gorm.rows db) -> User.Email x = email -> gorm.live x = false) ->
     handlers.AuthenticateUser r salt db
     = (handlers.respondWithError http.StatusUnauthorized "Invalid credentials",
        gorm.tick db)).
Proof.
  intros hasher decoder r salt db email password H Hc Hdec.
  unfold handlers.AuthenticateUser. rewrite Hdec.
  unfold service.AuthenticateUser. simpl GetByEmail. unfold GormUserRepository.GetByEmail.
  split.
  - intros user Hin Hlive Hmail.
    rewrite (get_found (gorm.WhereEmail email) db user H Hc Hin);
      [| simpl; now apply String.eqb_eq | exact Hlive ].
    destruct (bcrypt.CompareHashAndPassword _ _); reflexivity.
  - intros Hnone. rewrite get_missing; [reflexivity|exact H|].
    intros x Hx. unfold gorm.selected. simpl.
    destruct (String.eqb_spec (User.Email x) email) as [E|E]; [|reflexivity].
    now rewrite (Hnone x Hx E).
Qed.

(** X22 on the sample table: [bob] with the right and with a wrong
    password, and an address that nobody has. *)
Lemma AuthenticateUser_handler_answers_witness :
  handlers.AuthenticateUser (hasher := sample.scheme) (decoder := fixtures.decoder)
    (fixtures.request "POST" "/api/auth/login" "" [] [] "bob@example.com|hunter2")
    "" sample.db
  = (handlers.respondWithJSON 200 (http.UserJSON (service.mapUserToResponse sample.bob)),
     gorm.tick sample.db)
  /\
  handlers.AuthenticateUser (hasher := sample.scheme) (decoder := fixtures.decoder)
    (fixtures.request "POST" "/api/auth/login" "" [] [] "bob@example.com|hunter3")
    "" sample.db
  = (handlers.respondWithError 401 "Invalid credentials", gorm.tick sample.db)
  /\
  handlers.AuthenticateUser (hasher := sample.scheme) (decoder := fixtures.decoder)
    (fixtures.request "POST" "/api/auth/login" "" [] [] "eve@example.com|hunter2")
    "" sample.db
  = (handlers.respondWithError 401 "Invalid credentials", gorm.tick sample.db).
Proof.
  split; [|split].
  - apply (proj1 (AuthenticateUser_handler_answers sample.scheme fixtures.decoder
                    (fixtures.request "POST" "/api/auth/login" "" [] []
                       "bob@example.com|hunter2")
                    "" sample.db "bob@example.com" "hunter2"
                    eq_refl sample_db_consistent eq_refl) sample.bob).
    + right. now left.
    + reflexivity.
    + reflexivity.
  - apply (proj1 (AuthenticateUser_handler_answers sample.scheme fixtures.decoder
                    (fixtures.request "POST" "/api/auth/login" "" [] []
                       "bob@example.com|hunter3")
                    "" sample.db "bob@example.com" "hunter3"
                    eq_refl sample_db_consistent eq_refl) sample.bob).
    + right. now left.
    + reflexivity.
    + reflexivity.
  - apply (proj2 (AuthenticateUser_handler_answers sample.scheme fixtures.decoder
                    (fixtures.request "POST" "/api/auth/login" "" [] []
                       "eve@example.com|hunter2")
                    "" sample.db "eve@example.com" "hunter2"
                    eq_refl sample_db_consistent eq_refl)).
    intros x [<-|[<-|[]]]; discriminate.
Defined.



(** X24.  LoadConfig turns the development logger on exactly when LOG_DEV
    is one of 1, t, T, TRUE, true and True; for every other text, an unset
    variable included, it is off. *)
Theorem LoadConfig_LOG_DEV :
  forall (env : string -> string),
    config.Dev (config.Logger (fst (config.LoadConfig env))) = true <->
    In (env "LOG_DEV") ["1"; "t"; "T"; "TRUE"; "true"; "True"].
Proof.
  intros env. simpl config.Dev. unfold config.getEnv.
  destruct (String.eqb_spec (env "LOG_DEV") "") as [E|E].
  - rewrite E. split; [discriminate|].
    simpl. intros [H|[H|[H|[H|[H|[H|[]]]]]]]; discriminate H.
  - unfold strconv.ParseBool.
    destruct (existsb (String.eqb (env "LOG_DEV")) ["1"; "t"; "T"; "TRUE"; "true"; "True"])
      eqn:Ex.
    + split; [intros _|reflexivity].
      apply existsb_exists in Ex as (x & Hx & Heq). apply String.eqb_eq in Heq.
      now rewrite Heq.
    + assert (~ In (env "LOG_DEV") ["1"; "t"; "T"; "TRUE"; "true"; "True"]) as Hnot.
      { intros Hin.
        assert (existsb (String.eqb (env "LOG_DEV"))
                  ["1"; "t"; "T"; "TRUE"; "true"; "True"] = true) as Ht
            by (apply existsb_exists; eexists; split; [exact Hin|apply String.eqb_refl]).
        congruence. }
      split; [|contradiction].
      destruct (existsb (String.eqb (env "LOG_DEV"))
                  ["0"; "f"; "F"; "FALSE"; "false"; "False"]);
        intros H; discriminate H.
Qed.

(** X24 at work: LOG_DEV is [yes]. *)
Lemma LoadConfig_LOG_DEV_witness :
  config.Dev (config.Logger (fst (config.LoadConfig fixtures.env))) = false.
Proof.
  destruct (config.Dev (config.Logger (fst (config.LoadConfig fixtures.env)))) eqn:E;
    [|reflexivity].
  apply (proj1 (LoadConfig_LOG_DEV fixtures.env)) in E.
  simpl in E. destruct E as [H|[H|[H|[H|[H|[H|[]]]]]]]; discriminate H.
Defined.
